(** * NovasX: the pricing and valuation core, embedded in Rocq

    The development follows the two core modules of the repository,
    [pricing_module.py] (piecewise-linear category curves, platform
    coefficients, [get_price]) and [value_predictor.py] (the ad-count matrix
    and the five-year projection).  Python code is embedded shallowly:

    - exceptions are values of [exn], and a computation that may raise has
      type [result A];
    - Python's [float] is an interface, [PyFloat], with two instances: exact
      rational arithmetic on [Q] (the arithmetic the specification reasons
      in) and IEEE 754 binary64 on the kernel's primitive floats (the
      arithmetic CPython runs);
    - dictionaries are insertion-ordered association lists, as Python's are. *)

From Stdlib Require Import ZArith QArith Qround Qabs Qpower Qfield.
From Stdlib Require Import Bool List String Ascii Lia Lqa.
From Stdlib Require Import DecimalString DecimalZ.
From Stdlib Require Import Floats.
From Stdlib Require Import Permutation Sorted.
Import ListNotations.

Local Open Scope string_scope.
Local Open Scope Z_scope.

(** ** Python values: exceptions, results, dictionaries *)

Module Py.

Inductive exn : Type :=
| ValueError (msg : string)
| ZeroDivisionError
| OverflowError
| IndexError.

Inductive result (A : Type) : Type :=
| Ok (a : A)
| Raise (e : exn).

Arguments Ok {A} a.
Arguments Raise {A} e.

Definition bind {A B : Type} (r : result A) (k : A -> result B) : result B :=
  match r with
  | Ok a => k a
  | Raise e => Raise e
  end.

Definition is_ok {A : Type} (r : result A) : bool :=
  match r with
  | Ok _ => true
  | Raise _ => false
  end.

(** A [dict] with string keys, in insertion order. *)
Definition dict (V : Type) : Type := list (string * V).

(** [d.get(k)], [None] when the key is absent. *)
Fixpoint dict_get {V : Type} (k : string) (d : dict V) : option V :=
  match d with
  | [] => None
  | (k', v) :: d' => if String.eqb k k' then Some v else dict_get k d'
  end.

(** [k in d] *)
Definition dict_mem {V : Type} (k : string) (d : dict V) : bool :=
  match dict_get k d with
  | Some _ => true
  | None => false
  end.

(** [d.get(k, default)] *)
Definition dict_get_default {V : Type} (k : string) (d : dict V) (default : V) : V :=
  match dict_get k d with
  | Some v => v
  | None => default
  end.

(** [d[k] = v]: an existing key keeps its place, a new key goes last. *)
Fixpoint dict_set {V : Type} (k : string) (v : V) (d : dict V) : dict V :=
  match d with
  | [] => [(k, v)]
  | (k', v') :: d' =>
      if String.eqb k k' then (k, v) :: d' else (k', v') :: dict_set k v d'
  end.

Definition dict_keys {V : Type} (d : dict V) : list string := map fst d.

(** [str(list(d.keys()))]: the keys quoted, between brackets. *)
Definition repr_keys {V : Type} (d : dict V) : string :=
  "[" ++ concat ", " (map (fun k => "'" ++ k ++ "'") (dict_keys d)) ++ "]".

(** [str(n)] for an [int]. *)
Definition str_of_int (n : Z) : string := NilZero.string_of_int (Z.to_int n).

(** [int(s)] for a [str]: a decimal numeral, or [ValueError]. *)
Definition int_of_str (s : string) : result Z :=
  match NilZero.int_of_string s with
  | Some d => Ok (Z.of_int d)
  | None => Raise (ValueError ("invalid literal for int() with base 10: '" ++ s ++ "'"))
  end.

(** [a < b] on [str]: the order of the code points, which on UTF-8 is the
    order of the bytes. *)
Definition str_lt (a b : string) : bool := String.ltb a b.

(** [l.sort(key=key)] with string keys.  Python's sort is stable and
    compares keys with [<] only: each element goes behind the elements
    already placed whose key is not greater than its own. *)
Fixpoint insert_by_key {A : Type} (key : A -> string) (x : A) (l : list A)
    : list A :=
  match l with
  | [] => [x]
  | y :: l' =>
      if str_lt (key x) (key y) then x :: y :: l'
      else y :: insert_by_key key x l'
  end.

Definition sort_by_key {A : Type} (key : A -> string) (l : list A) : list A :=
  fold_left (fun sorted x => insert_by_key key x sorted) l [].

End Py.

Export Py.

Notation "x <- e ;; k" := (bind e (fun x => k))
  (at level 61, e at next level, right associativity).

(** ** Python's [float] as an interface

    The operations the two modules use.  [lit] reads a numeric literal of
    the source (and converts an [int] operand of a mixed operation);
    [fdiv] is the quotient for a non-zero divisor, the zero test being made
    by [py_div] below; [fpow] is [float ** int]; [fround x n] is
    [round(x, n)]. *)

Class PyFloat (F : Type) : Type := {
  lit : Q -> F;
  fadd : F -> F -> F;
  fsub : F -> F -> F;
  fmul : F -> F -> F;
  fdiv : F -> F -> F;
  feqb : F -> F -> bool;
  fltb : F -> F -> bool;
  fleb : F -> F -> bool;
  fpow : F -> Z -> result F;
  fround : F -> nat -> F;
  int_truediv : Z -> Z -> result F
}.

Declare Scope py_scope.
Delimit Scope py_scope with py.
Notation "x + y" := (fadd x y) : py_scope.
Notation "x - y" := (fsub x y) : py_scope.
Notation "x * y" := (fmul x y) : py_scope.
Notation "x <? y" := (fltb x y) : py_scope.
Notation "x <=? y" := (fleb x y) : py_scope.
Notation "x =? y" := (feqb x y) : py_scope.

(** [a / b] on floats: [ZeroDivisionError] exactly when [b == 0]. *)
Definition py_div {F : Type} `{PyFloat F} (a b : F) : result F :=
  if (b =? lit 0)%py then Raise ZeroDivisionError else Ok (fdiv a b).

(** *** Exact instance: rational arithmetic *)

Module Exact.

(** Round half to even at [n] decimal places. *)
Definition round_half_even (x : Q) : Z :=
  let f := Qfloor x in
  match Qcompare (x - inject_Z f) (1 # 2) with
  | Lt => f
  | Gt => f + 1
  | Eq => if Z.even f then f else f + 1
  end.

Definition Qround_digits (x : Q) (n : nat) : Q :=
  let s := Z.pow 10 (Z.of_nat n) in
  Qmake (round_half_even (x * inject_Z s)) (Z.to_pos s).

Definition Qltb (x y : Q) : bool := negb (Qle_bool y x).

Definition Qpow (x : Q) (n : Z) : result Q :=
  if Qeq_bool x 0 && (n <? 0) then Raise ZeroDivisionError
  else Ok (Qpower x n).

Definition Qint_truediv (a b : Z) : result Q :=
  if b =? 0 then Raise ZeroDivisionError else Ok (inject_Z a / inject_Z b)%Q.

#[global] Instance Q_float : PyFloat Q := {
  lit := fun q => q;
  fadd := Qplus;
  fsub := Qminus;
  fmul := Qmult;
  fdiv := Qdiv;
  feqb := Qeq_bool;
  fltb := Qltb;
  fleb := Qle_bool;
  fpow := Qpow;
  fround := Qround_digits;
  int_truediv := Qint_truediv
}.

End Exact.

(** *** IEEE 754 instance: binary64, round to nearest even

    The kernel's primitive floats; [Prim2SF] and [SF2Prim] relate them to
    the IEEE 754 specification [spec_float]. *)

Module Binary64.

Definition float : Type := PrimFloat.float.

(** The double nearest to [n / d], for integers of any size. *)
Definition of_ratio (n : Z) (d : positive) : spec_float :=
  match n with
  | Z0 => S754_zero false
  | Zpos p => SFdiv prec emax (S754_finite false p 0) (S754_finite false d 0)
  | Zneg p => SFdiv prec emax (S754_finite true p 0) (S754_finite false d 0)
  end.

Definition of_Q (q : Q) : float := SF2Prim (of_ratio (Qnum q) (Qden q)).

(** [x ** n] by repeated multiplication; exact where the power is
    representable (in particular [1.0 ** n] and [x ** 1]).  CPython
    evaluates [float ** int] with the C library's [pow], which rounds the
    exact power once, so where the power is not representable the two can
    differ in the last place (1.2 ** 3).  The binary64 theorems that
    depend on the value of a power use it only at base 1.0 or at
    exponent 1, where the two agree. *)
Fixpoint pow_pos (x : float) (n : positive) : float :=
  match n with
  | xH => x
  | xO p => let y := pow_pos x p in PrimFloat.mul y y
  | xI p => let y := pow_pos x p in PrimFloat.mul x (PrimFloat.mul y y)
  end.

Definition pow (x : float) (n : Z) : result float :=
  match n with
  | Z0 => Ok PrimFloat.one
  | Zpos p =>
      let r := pow_pos x p in
      if PrimFloat.is_finite x && negb (PrimFloat.is_finite r)
      then Raise OverflowError else Ok r
  | Zneg p =>
      if PrimFloat.is_zero x then Raise ZeroDivisionError
      else
        let r := PrimFloat.div PrimFloat.one (pow_pos x p) in
        if PrimFloat.is_finite x && negb (PrimFloat.is_finite r)
        then Raise OverflowError else Ok r
  end.

(** [round(x, n)]: the decimal with [n] places nearest to the exact value
    of [x] (ties to even), then the double nearest to that decimal;
    zeros, infinities and NaN round to themselves. *)
Definition round_digits (x : float) (n : nat) : float :=
  match Prim2SF x with
  | S754_finite s m e =>
      let v := (inject_Z (Zpos m) * Qpower 2 e)%Q in
      let k := Z.pow 10 (Z.of_nat n) in
      match Exact.round_half_even (v * inject_Z k) with
      | Zpos p =>
          SF2Prim
            (SFdiv prec emax (S754_finite s p 0) (S754_finite false (Z.to_pos k) 0))
      | _ => SF2Prim (S754_zero s)
      end
  | _ => x
  end.

(** [a / b] on integers: the double nearest to the exact quotient, or
    [OverflowError] when that is beyond the largest double. *)
Definition int_div (a b : Z) : result float :=
  if b =? 0 then Raise ZeroDivisionError
  else
    let r := of_Q (inject_Z a / inject_Z b)%Q in
    if PrimFloat.is_finite r then Ok r else Raise OverflowError.

#[global] Instance binary64 : PyFloat float := {
  lit := of_Q;
  fadd := PrimFloat.add;
  fsub := PrimFloat.sub;
  fmul := PrimFloat.mul;
  fdiv := PrimFloat.div;
  feqb := PrimFloat.eqb;
  fltb := PrimFloat.ltb;
  fleb := PrimFloat.leb;
  fpow := pow;
  fround := round_digits;
  int_truediv := int_div
}.

End Binary64.

(** ** Floats as integers and as text

    [int(x)] truncates towards zero and refuses infinities and NaN;
    [f"{x:.2f}"] prints the decimal with two places nearest to the exact
    value of [x] (ties to even), with the sign of [x]. *)

Class PyFloatText (F : Type) : Type := {
  to_int : F -> result Z;
  format_2f : F -> string
}.

(** The digits of [k / 100] with two decimal places, for [0 <= k]. *)
Definition decimal_2 (k : Z) : string :=
  str_of_int (k / 100) ++ "."
  ++ (if k mod 100 <? 10 then "0" else "") ++ str_of_int (k mod 100).

Module ExactText.

Definition Qto_int (x : Q) : result Z :=
  Ok (Z.quot (Qnum x) (Zpos (Qden x))).

Definition Qformat_2f (x : Q) : string :=
  (if Exact.Qltb x 0 then "-" else "")
  ++ decimal_2 (Exact.round_half_even (Qabs x * 100)).

#[global] Instance Q_text : PyFloatText Q := {
  to_int := Qto_int;
  format_2f := Qformat_2f
}.

End ExactText.

Module Binary64Text.

Definition to_int (x : Binary64.float) : result Z :=
  match Prim2SF x with
  | S754_zero _ => Ok 0
  | S754_infinity _ => Raise OverflowError
  | S754_nan => Raise (ValueError "cannot convert float NaN to integer")
  | S754_finite s m e =>
      let n := if 0 <=? e then Zpos m * 2 ^ e else Zpos m / 2 ^ (- e) in
      Ok (if s then - n else n)
  end.

Definition format_2f (x : Binary64.float) : string :=
  match Prim2SF x with
  | S754_zero s => if s then "-0.00" else "0.00"
  | S754_infinity s => if s then "-inf" else "inf"
  | S754_nan => "nan"
  | S754_finite s m e =>
      let v := (inject_Z (Zpos m) * Qpower 2 e)%Q in
      (if s then "-" else "")
      ++ decimal_2 (Exact.round_half_even (v * 100))
  end.

#[global] Instance binary64_text : PyFloatText Binary64.float := {
  to_int := to_int;
  format_2f := format_2f
}.

End Binary64Text.

(** ** pricing_module.py *)

Module pricing_module.

Local Open Scope Q_scope.

(** The breakpoint lists of [build_douyin_functions], literal for literal,
    in the order the source assigns them. *)
Definition douyin_breakpoints : dict (list (Q * Q)) :=
  [("三农",
      [(0, 200); (6e4, 6800); (30e4, 15200); (75e4, 32000);
       (300e4, 68000); (750e4, 250000); (2000e4, 420000)]);
   ("二次元",
      [(0, 300); (6e4, 5500); (30e4, 11200); (75e4, 26000);
       (300e4, 45000); (750e4, 180000); (2000e4, 260000)]);
   ("健康",
      [(0, 500); (6e4, 8000); (30e4, 18000); (75e4, 38000);
       (300e4, 110000); (750e4, 220000); (2000e4, 350000)]);
   ("兴趣爱好",
      [(0, 0); (6e4, 6000); (30e4, 15000); (75e4, 35000);
       (300e4, 70000); (750e4, 150000); (2000e4, 300000)]);
   ("其他",
      [(0, 0); (6e4, 7500); (30e4, 16000); (75e4, 30000);
       (300e4, 60000); (750e4, 140000); (2000e4, 280000)]);
   ("医疗健康",
      [(0, 1000); (6e4, 8500); (30e4, 20000); (75e4, 45000);
       (300e4, 95000); (750e4, 200000); (2000e4, 400000)]);
   ("娱乐",
      [(0, 0); (6e4, 5000); (30e4, 12000); (75e4, 25000);
       (300e4, 50000); (750e4, 100000); (2000e4, 200000)]);
   ("家居家装",
      [(0, 0); (6e4, 10000); (30e4, 21000); (75e4, 52000);
       (300e4, 78000); (750e4, 120000); (2000e4, 220000)]);
   ("幽默搞笑",
      [(0, 0); (6e4, 7000); (30e4, 19000); (75e4, 45000);
       (300e4, 90000); (750e4, 200000); (2000e4, 400000)]);
   ("影视综艺",
      [(0, 2500); (6e4, 7000); (30e4, 23500); (75e4, 52500);
       (300e4, 126000); (750e4, 220000); (2000e4, 400000)]);
   ("情感心理",
      [(0, 500); (6e4, 8500); (30e4, 22000); (75e4, 60000);
       (300e4, 110000); (750e4, 210000); (2000e4, 450000)]);
   ("才艺技能",
      [(0, 0); (6e4, 9500); (30e4, 25000); (75e4, 50000);
       (300e4, 90000); (750e4, 160000); (2000e4, 300000)]);
   ("教育培训",
      [(0, 0); (6e4, 8000); (30e4, 22000); (75e4, 45000);
       (300e4, 85000); (750e4, 180000); (2000e4, 380000)]);
   ("文化",
      [(0, 0); (6e4, 6000); (30e4, 18000); (75e4, 40000);
       (300e4, 80000); (750e4, 160000); (2000e4, 300000)]);
   ("旅游",
      [(0, 0); (6e4, 6500); (30e4, 20000); (75e4, 50000);
       (300e4, 95000); (750e4, 180000); (2000e4, 450000)]);
   ("时事资讯",
      [(0, 0); (6e4, 7000); (30e4, 18000); (75e4, 40000);
       (300e4, 75000); (750e4, 140000); (2000e4, 280000)]);
   ("时尚",
      [(0, 1000); (6e4, 9500); (30e4, 35000); (75e4, 75000);
       (300e4, 130000); (750e4, 250000); (2000e4, 1000000)]);
   ("母婴育儿",
      [(0, 0); (6e4, 9000); (30e4, 22000); (75e4, 60000);
       (300e4, 95000); (750e4, 180000); (2000e4, 360000)]);
   ("汽车",
      [(0, 500); (6e4, 8000); (30e4, 32000); (75e4, 98000);
       (300e4, 150000); (750e4, 220000); (2000e4, 720000)]);
   ("游戏",
      [(0, 200); (6e4, 6500); (30e4, 18000); (75e4, 42000);
       (300e4, 75000); (750e4, 120000); (2000e4, 220000)]);
   ("生活",
      [(0, 500); (6e4, 8500); (30e4, 22000); (75e4, 50000);
       (300e4, 95000); (750e4, 180000); (2000e4, 400000)]);
   ("科学科普",
      [(0, 0); (6e4, 8000); (30e4, 20000); (75e4, 45000);
       (300e4, 85000); (750e4, 160000); (2000e4, 320000)]);
   ("科技",
      [(0, 500); (6e4, 8500); (30e4, 22000); (75e4, 50000);
       (300e4, 95000); (750e4, 180000); (2000e4, 400000)]);
   ("美妆",
      [(0, 2000); (6e4, 9500); (30e4, 38000); (75e4, 95000);
       (300e4, 145000); (750e4, 240000); (2000e4, 880000)]);
   ("美容个护",
      [(0, 0); (6e4, 9000); (30e4, 25000); (75e4, 55000);
       (300e4, 100000); (750e4, 180000); (2000e4, 380000)]);
   ("美食",
      [(0, 0); (6e4, 7500); (30e4, 20000); (75e4, 45000);
       (300e4, 85000); (750e4, 150000); (2000e4, 350000)]);
   ("职场",
      [(0, 0); (6e4, 7000); (30e4, 18000); (75e4, 40000);
       (300e4, 75000); (750e4, 140000); (2000e4, 280000)]);
   ("萌宠",
      [(0, 500); (6e4, 8500); (30e4, 18000); (75e4, 35000);
       (300e4, 65000); (750e4, 120000); (2000e4, 240000)]);
   ("财经",
      [(0, 500); (6e4, 9500); (30e4, 35000); (75e4, 75000);
       (300e4, 160000); (750e4, 300000); (2000e4, 1800000)]);
   ("运动健身",
      [(0, 0); (6e4, 7000); (30e4, 20000); (75e4, 55000);
       (300e4, 95000); (750e4, 170000); (2000e4, 350000)]);
   ("音乐",
      [(0, 0); (6e4, 7500); (30e4, 18000); (75e4, 40000);
       (300e4, 80000); (750e4, 150000); (2000e4, 300000)]);
   ("颜值",
      [(0, 0); (6e4, 8000); (30e4, 20000); (75e4, 45000);
       (300e4, 85000); (750e4, 160000); (2000e4, 320000)])].

(** The literal of [COEFF_MATRIX]. *)
Definition COEFF_MATRIX_literal : dict (dict Q) :=
  [("三农", [("小红书", 0.5); ("B站", 0.3); ("快手", 1.8); ("抖音", 1)]);
   ("二次元", [("小红书", 0.7); ("B站", 2.2); ("快手", 0.4); ("抖音", 1)]);
   ("健康", [("小红书", 1.3); ("B站", 0.8); ("快手", 1.1); ("抖音", 1)]);
   ("兴趣爱好", [("小红书", 1.2); ("B站", 1.4); ("快手", 0.9); ("抖音", 1)]);
   ("其他", [("小红书", 0.8); ("B站", 0.9); ("快手", 1.0); ("抖音", 1)]);
   ("医疗健康", [("小红书", 1.0); ("B站", 0.6); ("快手", 1.3); ("抖音", 1)]);
   ("娱乐", [("小红书", 0.9); ("B站", 1.1); ("快手", 1.4); ("抖音", 1)]);
   ("家居家装", [("小红书", 1.8); ("B站", 0.5); ("快手", 1.0); ("抖音", 1)]);
   ("幽默搞笑", [("小红书", 0.7); ("B站", 1.0); ("快手", 1.6); ("抖音", 1)]);
   ("影视综艺", [("小红书", 0.8); ("B站", 1.7); ("快手", 0.9); ("抖音", 1)]);
   ("情感心理", [("小红书", 1.6); ("B站", 0.7); ("快手", 1.0); ("抖音", 1)]);
   ("才艺技能", [("小红书", 1.1); ("B站", 1.5); ("快手", 0.8); ("抖音", 1)]);
   ("教育培训", [("小红书", 1.0); ("B站", 1.6); ("快手", 0.6); ("抖音", 1)]);
   ("文化", [("小红书", 1.1); ("B站", 1.8); ("快手", 0.5); ("抖音", 1)]);
   ("旅游", [("小红书", 1.6); ("B站", 0.9); ("快手", 1.1); ("抖音", 1)]);
   ("时事资讯", [("小红书", 0.6); ("B站", 1.3); ("快手", 1.1); ("抖音", 1)]);
   ("时尚", [("小红书", 1.9); ("B站", 0.8); ("快手", 1.2); ("抖音", 1)]);
   ("母婴育儿", [("小红书", 1.5); ("B站", 0.4); ("快手", 1.5); ("抖音", 1)]);
   ("汽车", [("小红书", 0.7); ("B站", 1.1); ("快手", 0.9); ("抖音", 1)]);
   ("游戏", [("小红书", 0.5); ("B站", 2.0); ("快手", 0.7); ("抖音", 1)]);
   ("生活", [("小红书", 1.3); ("B站", 1.0); ("快手", 1.5); ("抖音", 1)]);
   ("科学科普", [("小红书", 0.9); ("B站", 1.7); ("快手", 0.6); ("抖音", 1)]);
   ("科技", [("小红书", 0.6); ("B站", 1.8); ("快手", 0.8); ("抖音", 1)]);
   ("美妆", [("小红书", 2.0); ("B站", 0.6); ("快手", 1.0); ("抖音", 1)]);
   ("美容个护", [("小红书", 1.7); ("B站", 0.5); ("快手", 0.9); ("抖音", 1)]);
   ("美食", [("小红书", 1.5); ("B站", 1.0); ("快手", 1.4); ("抖音", 1)]);
   ("职场", [("小红书", 1.1); ("B站", 1.4); ("快手", 0.7); ("抖音", 1)]);
   ("萌宠", [("小红书", 1.2); ("B站", 1.1); ("快手", 1.4); ("抖音", 1)]);
   ("财经", [("小红书", 0.8); ("B站", 1.0); ("快手", 0.5); ("抖音", 1)]);
   ("运动健身", [("小红书", 1.1); ("B站", 0.9); ("快手", 1.0); ("抖音", 1)]);
   ("音乐", [("小红书", 1.0); ("B站", 1.5); ("快手", 1.1); ("抖音", 1)]);
   ("颜值", [("小红书", 1.4); ("B站", 1.0); ("快手", 1.3); ("抖音", 1)])].


Local Close Scope Q_scope.

Section Curves.

Context {F : Type} `{PyFloat F}.

Local Open Scope py_scope.

(** One element of [self.segments]: [(x1, x2, slope, intercept)]. *)
Record segment : Type := Segment {
  seg_start : F;
  seg_end : F;
  seg_slope : F;
  seg_intercept : F
}.

(** An instance of [ContinuousPiecewiseFunction]: its [segments] list. *)
Record ContinuousPiecewiseFunction : Type := Curve {
  segments : list segment
}.

(** The loop of [__init__]: one segment for each consecutive pair of
    breakpoints, [range(len(breakpoints) - 1)] being empty for fewer than
    two breakpoints. *)
Fixpoint init_segments (breakpoints : list (F * F)) : result (list segment) :=
  match breakpoints with
  | (x1, y1) :: (((x2, y2) :: _) as rest) =>
      slope <- py_div (y2 - y1) (x2 - x1) ;;
      let intercept := y1 - slope * x1 in
      segs <- init_segments rest ;;
      Ok (Segment x1 x2 slope intercept :: segs)
  | _ => Ok []
  end.

(** [ContinuousPiecewiseFunction(breakpoints)] *)
Definition __init__ (breakpoints : list (F * F)) : result ContinuousPiecewiseFunction :=
  segs <- init_segments breakpoints ;;
  Ok (Curve segs).

(** [slope * x + intercept] on one segment. *)
Definition eval_segment (s : segment) (x : F) : F :=
  seg_slope s * x + seg_intercept s.

(** The [for] loop of [__call__]: the first segment with
    [start <= x < end], if any. *)
Fixpoint find_segment (segs : list segment) (x : F) : option segment :=
  match segs with
  | [] => None
  | s :: rest =>
      if (seg_start s <=? x) && (x <? seg_end s) then Some s
      else find_segment rest x
  end.

(** [self.segments[-1]] *)
Definition last_segment (segs : list segment) : result segment :=
  match rev segs with
  | s :: _ => Ok s
  | [] => Raise IndexError
  end.

(** [ContinuousPiecewiseFunction.__call__] *)
Definition __call__ (f : ContinuousPiecewiseFunction) (x : F) : result F :=
  match find_segment (segments f) x with
  | Some s => Ok (eval_segment s x)
  | None =>
      s <- last_segment (segments f) ;;
      Ok (eval_segment s x)
  end.

Definition read_breakpoints (l : list (Q * Q)) : list (F * F) :=
  map (fun p => (lit (fst p), lit (snd p))) l.

(** [build_douyin_functions]: the curves are constructed and stored one
    after the other; the first construction that raises ends the build. *)
Fixpoint build_functions (tables : dict (list (Q * Q)))
    (functions : dict ContinuousPiecewiseFunction)
    : result (dict ContinuousPiecewiseFunction) :=
  match tables with
  | [] => Ok functions
  | (name, bps) :: rest =>
      f <- __init__ (read_breakpoints bps) ;;
      build_functions rest (dict_set name f functions)
  end.

Definition build_douyin_functions : result (dict ContinuousPiecewiseFunction) :=
  build_functions douyin_breakpoints [].

(** [COEFF_MATRIX] *)
Definition COEFF_MATRIX : dict (dict F) :=
  map (fun row => (fst row, map (fun c => (fst c, lit (snd c))) (snd row)))
      COEFF_MATRIX_literal.

(** [DOUYIN_FUNCTIONS = build_douyin_functions()], evaluated when the module
    is loaded: an exception there is an exception of every later call. *)
Definition DOUYIN_FUNCTIONS : result (dict ContinuousPiecewiseFunction) :=
  build_douyin_functions.

(** [get_price(platform, category, followers, **kwargs)]; [kwargs] maps
    keyword names to the truth value of the argument. *)
Definition get_price (platform category : string) (followers : F)
    (kwargs : dict bool) : result F :=
  functions <- DOUYIN_FUNCTIONS ;;
  match dict_get category functions with
  | None => Raise (ValueError ("不支持的标签：" ++ category))
  | Some base_func =>
      match dict_get category COEFF_MATRIX with
      | None => Raise (ValueError ("未配置标签系数：" ++ category))
      | Some coeffs =>
          base_price <- __call__ base_func followers ;;
          let base_price :=
            if String.eqb category "影视综艺"
               && dict_get_default "is_celebrity" kwargs false
            then base_price * lit 2
            else base_price in
          let platform_coeff := dict_get_default platform coeffs (lit 1.0) in
          let final_price := base_price * platform_coeff in
          Ok final_price
      end
  end.

(** [get_all_platforms_prices(category, followers, **kwargs)] *)
Definition get_all_platforms_prices (category : string) (followers : F)
    (kwargs : dict bool) : result (dict F) :=
  let platforms := ["抖音"; "小红书"; "B站"; "快手"] in
  fold_left
    (fun prices platform =>
       ps <- prices ;;
       p <- get_price platform category followers kwargs ;;
       Ok (dict_set platform p ps))
    platforms (Ok []).

(** [get_platforms()] *)
Definition get_platforms : list string := ["抖音"; "小红书"; "B站"; "快手"].

(** [get_follower_breakpoints()]: the x-values of the first curve. *)
Definition get_follower_breakpoints : result (list F) :=
  functions <- DOUYIN_FUNCTIONS ;;
  match functions with
  | [] => Raise IndexError
  | (_, f) :: _ =>
      match segments f with
      | [] => Raise IndexError
      | s :: _ => Ok (seg_start s :: map seg_end (segments f))
      end
  end.

(** The [pinyin_mapping] of [get_categories]. *)
Definition pinyin_mapping : dict string :=
  [("三农", "sannong"); ("二次元", "erciyan"); ("健康", "jiankang");
   ("兴趣爱好", "xingquaihao"); ("其他", "qita"); ("医疗健康", "yiliaojiankang");
   ("娱乐", "yule"); ("家居家装", "jiajujiazhuang"); ("幽默搞笑", "youmogaoxiao");
   ("影视综艺", "yingshizongyi"); ("情感心理", "qingganxinli"); ("才艺技能", "caiyijineng");
   ("教育培训", "jiaoyupeixun"); ("文化", "wenhua"); ("旅游", "lvyou");
   ("时事资讯", "shishizixun"); ("时尚", "shishang"); ("母婴育儿", "muyingyuer");
   ("汽车", "qiche"); ("游戏", "youxi"); ("生活", "shenghuo");
   ("科学科普", "kexueKepu"); ("科技", "keji"); ("美妆", "meizhuang");
   ("美容个护", "meironggenghu"); ("美食", "meishi"); ("职场", "zhichang");
   ("萌宠", "mengchong"); ("财经", "caijing"); ("运动健身", "yundongjianshen");
   ("音乐", "yinyue"); ("颜值", "yanzhi")].

(** The sort key of [get_categories]: [pinyin_mapping.get(x, x)]. *)
Definition pinyin_key (x : string) : string :=
  dict_get_default x pinyin_mapping x.

(** [get_categories()] *)
Definition get_categories : result (list string) :=
  functions <- DOUYIN_FUNCTIONS ;;
  let valid_categories := dict_keys functions in
  Ok (sort_by_key pinyin_key valid_categories).

End Curves.

Arguments segment F : clear implicits.
Arguments ContinuousPiecewiseFunction F : clear implicits.

End pricing_module.

(** ** value_predictor.py *)

Module value_predictor.

(** *** AdMatrixGenerator *)

(** The four literal tables of [generate_matrix]: fan range, then label,
    then the yearly ad count. *)
Definition douyin_matrix : dict (dict Z) :=
  [("1-10万",
     [("三农", 8); ("二次元", 5); ("健康", 6); ("兴趣爱好", 7); ("其他", 4);
      ("医疗健康", 5); ("娱乐", 12); ("家居家装", 8); ("幽默搞笑", 15); ("影视综艺", 9);
      ("情感心理", 12); ("才艺技能", 9); ("教育培训", 5); ("文化", 6); ("旅游", 9);
      ("时事资讯", 5); ("时尚", 20); ("母婴育儿", 12); ("汽车", 6); ("游戏", 8);
      ("生活", 15); ("科学科普", 5); ("科技", 8); ("美妆", 22); ("美容个护", 18);
      ("美食", 15); ("职场", 6); ("萌宠", 12); ("财经", 5); ("运动健身", 9);
      ("音乐", 10); ("颜值", 15)]);
   ("10-50万",
     [("三农", 12); ("二次元", 8); ("健康", 9); ("兴趣爱好", 10); ("其他", 6);
      ("医疗健康", 8); ("娱乐", 22); ("家居家装", 12); ("幽默搞笑", 30); ("影视综艺", 15);
      ("情感心理", 18); ("才艺技能", 15); ("教育培训", 8); ("文化", 9); ("旅游", 15);
      ("时事资讯", 8); ("时尚", 38); ("母婴育儿", 18); ("汽车", 9); ("游戏", 12);
      ("生活", 30); ("科学科普", 8); ("科技", 12); ("美妆", 45); ("美容个护", 38);
      ("美食", 30); ("职场", 9); ("萌宠", 18); ("财经", 8); ("运动健身", 15);
      ("音乐", 18); ("颜值", 30)]);
   ("50-100万",
     [("三农", 18); ("二次元", 13); ("健康", 15); ("兴趣爱好", 16); ("其他", 10);
      ("医疗健康", 12); ("娱乐", 45); ("家居家装", 18); ("幽默搞笑", 60); ("影视综艺", 30);
      ("情感心理", 38); ("才艺技能", 22); ("教育培训", 12); ("文化", 15); ("旅游", 30);
      ("时事资讯", 12); ("时尚", 75); ("母婴育儿", 38); ("汽车", 15); ("游戏", 18);
      ("生活", 60); ("科学科普", 12); ("科技", 18); ("美妆", 90); ("美容个护", 75);
      ("美食", 60); ("职场", 15); ("萌宠", 38); ("财经", 12); ("运动健身", 30);
      ("音乐", 38); ("颜值", 60)]);
   ("100-500万",
     [("三农", 35); ("二次元", 20); ("健康", 22); ("兴趣爱好", 25); ("其他", 15);
      ("医疗健康", 20); ("娱乐", 90); ("家居家装", 35); ("幽默搞笑", 120); ("影视综艺", 60);
      ("情感心理", 75); ("才艺技能", 38); ("教育培训", 22); ("文化", 22); ("旅游", 60);
      ("时事资讯", 20); ("时尚", 150); ("母婴育儿", 75); ("汽车", 22); ("游戏", 35);
      ("生活", 120); ("科学科普", 18); ("科技", 35); ("美妆", 180); ("美容个护", 150);
      ("美食", 120); ("职场", 22); ("萌宠", 75); ("财经", 18); ("运动健身", 60);
      ("音乐", 75); ("颜值", 120)]);
   ("500-1000万",
     [("三农", 55); ("二次元", 35); ("健康", 38); ("兴趣爱好", 40); ("其他", 25);
      ("医疗健康", 35); ("娱乐", 150); ("家居家装", 55); ("幽默搞笑", 230); ("影视综艺", 120);
      ("情感心理", 150); ("才艺技能", 75); ("教育培训", 38); ("文化", 38); ("旅游", 120);
      ("时事资讯", 35); ("时尚", 300); ("母婴育儿", 150); ("汽车", 38); ("游戏", 55);
      ("生活", 230); ("科学科普", 35); ("科技", 55); ("美妆", 370); ("美容个护", 300);
      ("美食", 230); ("职场", 38); ("萌宠", 150); ("财经", 35); ("运动健身", 120);
      ("音乐", 150); ("颜值", 230)]);
   ("1000万+",
     [("三农", 80); ("二次元", 50); ("健康", 60); ("兴趣爱好", 65); ("其他", 40);
      ("医疗健康", 55); ("娱乐", 220); ("家居家装", 80); ("幽默搞笑", 300); ("影视综艺", 180);
      ("情感心理", 200); ("才艺技能", 110); ("教育培训", 50); ("文化", 60); ("旅游", 150);
      ("时事资讯", 50); ("时尚", 400); ("母婴育儿", 200); ("汽车", 50); ("游戏", 80);
      ("生活", 280); ("科学科普", 50); ("科技", 80); ("美妆", 500); ("美容个护", 450);
      ("美食", 350); ("职场", 50); ("萌宠", 200); ("财经", 50); ("运动健身", 150);
      ("音乐", 200); ("颜值", 300)])].

Definition xiaohongshu_matrix : dict (dict Z) :=
  [("1-10万",
     [("三农", 5); ("二次元", 3); ("健康", 6); ("兴趣爱好", 5); ("其他", 3);
      ("医疗健康", 5); ("娱乐", 8); ("家居家装", 9); ("幽默搞笑", 6); ("影视综艺", 5);
      ("情感心理", 9); ("才艺技能", 6); ("教育培训", 5); ("文化", 5); ("旅游", 12);
      ("时事资讯", 4); ("时尚", 22); ("母婴育儿", 15); ("汽车", 5); ("游戏", 4);
      ("生活", 12); ("科学科普", 4); ("科技", 6); ("美妆", 30); ("美容个护", 22);
      ("美食", 18); ("职场", 5); ("萌宠", 9); ("财经", 4); ("运动健身", 12);
      ("音乐", 8); ("颜值", 18)]);
   ("10-50万",
     [("三农", 9); ("二次元", 6); ("健康", 12); ("兴趣爱好", 8); ("其他", 5);
      ("医疗健康", 9); ("娱乐", 15); ("家居家装", 18); ("幽默搞笑", 12); ("影视综艺", 9);
      ("情感心理", 18); ("才艺技能", 12); ("教育培训", 9); ("文化", 9); ("旅游", 22);
      ("时事资讯", 6); ("时尚", 45); ("母婴育儿", 30); ("汽车", 9); ("游戏", 6);
      ("生活", 22); ("科学科普", 6); ("科技", 12); ("美妆", 60); ("美容个护", 45);
      ("美食", 38); ("职场", 9); ("萌宠", 18); ("财经", 6); ("运动健身", 22);
      ("音乐", 15); ("颜值", 38)]);
   ("50-100万",
     [("三农", 15); ("二次元", 10); ("健康", 20); ("兴趣爱好", 12); ("其他", 8);
      ("医疗健康", 15); ("娱乐", 25); ("家居家装", 30); ("幽默搞笑", 20); ("影视综艺", 15);
      ("情感心理", 30); ("才艺技能", 20); ("教育培训", 15); ("文化", 15); ("旅游", 38);
      ("时事资讯", 10); ("时尚", 75); ("母婴育儿", 55); ("汽车", 15); ("游戏", 10);
      ("生活", 38); ("科学科普", 10); ("科技", 20); ("美妆", 100); ("美容个护", 75);
      ("美食", 60); ("职场", 15); ("萌宠", 30); ("财经", 10); ("运动健身", 38);
      ("音乐", 25); ("颜值", 60)]);
   ("100-500万",
     [("三农", 25); ("二次元", 15); ("健康", 35); ("兴趣爱好", 20); ("其他", 12);
      ("医疗健康", 25); ("娱乐", 45); ("家居家装", 55); ("幽默搞笑", 35); ("影视综艺", 25);
      ("情感心理", 55); ("才艺技能", 35); ("教育培训", 25); ("文化", 25); ("旅游", 75);
      ("时事资讯", 15); ("时尚", 150); ("母婴育儿", 90); ("汽车", 25); ("游戏", 15);
      ("生活", 75); ("科学科普", 15); ("科技", 35); ("美妆", 200); ("美容个护", 150);
      ("美食", 120); ("职场", 25); ("萌宠", 55); ("财经", 15); ("运动健身", 75);
      ("音乐", 45); ("颜值", 120)]);
   ("500-1000万",
     [("三农", 40); ("二次元", 25); ("健康", 60); ("兴趣爱好", 35); ("其他", 20);
      ("医疗健康", 40); ("娱乐", 80); ("家居家装", 90); ("幽默搞笑", 60); ("影视综艺", 40);
      ("情感心理", 90); ("才艺技能", 60); ("教育培训", 40); ("文化", 40); ("旅游", 120);
      ("时事资讯", 25); ("时尚", 250); ("母婴育儿", 150); ("汽车", 40); ("游戏", 25);
      ("生活", 120); ("科学科普", 25); ("科技", 60); ("美妆", 350); ("美容个护", 250);
      ("美食", 200); ("职场", 40); ("萌宠", 90); ("财经", 25); ("运动健身", 120);
      ("音乐", 80); ("颜值", 200)]);
   ("1000万+",
     [("三农", 60); ("二次元", 40); ("健康", 90); ("兴趣爱好", 55); ("其他", 30);
      ("医疗健康", 60); ("娱乐", 120); ("家居家装", 130); ("幽默搞笑", 90); ("影视综艺", 60);
      ("情感心理", 130); ("才艺技能", 90); ("教育培训", 60); ("文化", 60); ("旅游", 180);
      ("时事资讯", 40); ("时尚", 350); ("母婴育儿", 220); ("汽车", 60); ("游戏", 40);
      ("生活", 180); ("科学科普", 40); ("科技", 90); ("美妆", 500); ("美容个护", 380);
      ("美食", 300); ("职场", 60); ("萌宠", 130); ("财经", 40); ("运动健身", 180);
      ("音乐", 120); ("颜值", 300)])].

Definition bilibili_matrix : dict (dict Z) :=
  [("1-10万",
     [("三农", 4); ("二次元", 8); ("健康", 5); ("兴趣爱好", 6); ("其他", 3);
      ("医疗健康", 5); ("娱乐", 6); ("家居家装", 5); ("幽默搞笑", 7); ("影视综艺", 6);
      ("情感心理", 5); ("才艺技能", 6); ("教育培训", 5); ("文化", 6); ("旅游", 8);
      ("时事资讯", 4); ("时尚", 12); ("母婴育儿", 6); ("汽车", 5); ("游戏", 10);
      ("生活", 7); ("科学科普", 6); ("科技", 8); ("美妆", 15); ("美容个护", 12);
      ("美食", 10); ("职场", 5); ("萌宠", 7); ("财经", 5); ("运动健身", 8);
      ("音乐", 7); ("颜值", 10)]);
   ("10-50万",
     [("三农", 7); ("二次元", 15); ("健康", 9); ("兴趣爱好", 10); ("其他", 5);
      ("医疗健康", 8); ("娱乐", 12); ("家居家装", 9); ("幽默搞笑", 12); ("影视综艺", 12);
      ("情感心理", 9); ("才艺技能", 12); ("教育培训", 9); ("文化", 12); ("旅游", 15);
      ("时事资讯", 6); ("时尚", 22); ("母婴育儿", 12); ("汽车", 9); ("游戏", 18);
      ("生活", 12); ("科学科普", 12); ("科技", 15); ("美妆", 30); ("美容个护", 22);
      ("美食", 18); ("职场", 9); ("萌宠", 12); ("财经", 9); ("运动健身", 15);
      ("音乐", 12); ("颜值", 18)]);
   ("50-100万",
     [("三农", 12); ("二次元", 25); ("健康", 15); ("兴趣爱好", 16); ("其他", 8);
      ("医疗健康", 12); ("娱乐", 20); ("家居家装", 15); ("幽默搞笑", 20); ("影视综艺", 20);
      ("情感心理", 15); ("才艺技能", 20); ("教育培训", 15); ("文化", 20); ("旅游", 25);
      ("时事资讯", 10); ("时尚", 38); ("母婴育儿", 20); ("汽车", 15); ("游戏", 30);
      ("生活", 20); ("科学科普", 20); ("科技", 25); ("美妆", 55); ("美容个护", 38);
      ("美食", 30); ("职场", 15); ("萌宠", 20); ("财经", 15); ("运动健身", 25);
      ("音乐", 20); ("颜值", 30)]);
   ("100-500万",
     [("三农", 20); ("二次元", 45); ("健康", 25); ("兴趣爱好", 25); ("其他", 12);
      ("医疗健康", 20); ("娱乐", 35); ("家居家装", 25); ("幽默搞笑", 35); ("影视综艺", 35);
      ("情感心理", 25); ("才艺技能", 35); ("教育培训", 25); ("文化", 35); ("旅游", 45);
      ("时事资讯", 15); ("时尚", 75); ("母婴育儿", 35); ("汽车", 25); ("游戏", 55);
      ("生活", 35); ("科学科普", 35); ("科技", 45); ("美妆", 90); ("美容个护", 75);
      ("美食", 55); ("职场", 25); ("萌宠", 35); ("财经", 25); ("运动健身", 45);
      ("音乐", 35); ("颜值", 55)]);
   ("500-1000万",
     [("三农", 30); ("二次元", 70); ("健康", 40); ("兴趣爱好", 40); ("其他", 20);
      ("医疗健康", 35); ("娱乐", 60); ("家居家装", 40); ("幽默搞笑", 60); ("影视综艺", 60);
      ("情感心理", 40); ("才艺技能", 60); ("教育培训", 40); ("文化", 60); ("旅游", 70);
      ("时事资讯", 25); ("时尚", 120); ("母婴育儿", 60); ("汽车", 40); ("游戏", 90);
      ("生活", 60); ("科学科普", 60); ("科技", 70); ("美妆", 150); ("美容个护", 120);
      ("美食", 90); ("职场", 40); ("萌宠", 60); ("财经", 40); ("运动健身", 70);
      ("音乐", 60); ("颜值", 90)]);
   ("1000万+",
     [("三农", 50); ("二次元", 100); ("健康", 60); ("兴趣爱好", 65); ("其他", 30);
      ("医疗健康", 55); ("娱乐", 90); ("家居家装", 60); ("幽默搞笑", 90); ("影视综艺", 90);
      ("情感心理", 60); ("才艺技能", 90); ("教育培训", 60); ("文化", 90); ("旅游", 100);
      ("时事资讯", 40); ("时尚", 180); ("母婴育儿", 90); ("汽车", 60); ("游戏", 130);
      ("生活", 90); ("科学科普", 90); ("科技", 100); ("美妆", 220); ("美容个护", 180);
      ("美食", 130); ("职场", 60); ("萌宠", 90); ("财经", 60); ("运动健身", 100);
      ("音乐", 90); ("颜值", 130)])].

Definition kuaishou_matrix : dict (dict Z) :=
  [("1-10万",
     [("三农", 10); ("二次元", 6); ("健康", 8); ("兴趣爱好", 7); ("其他", 5);
      ("医疗健康", 6); ("娱乐", 15); ("家居家装", 8); ("幽默搞笑", 18); ("影视综艺", 10);
      ("情感心理", 12); ("才艺技能", 10); ("教育培训", 6); ("文化", 8); ("旅游", 12);
      ("时事资讯", 5); ("时尚", 22); ("母婴育儿", 15); ("汽车", 8); ("游戏", 10);
      ("生活", 15); ("科学科普", 6); ("科技", 8); ("美妆", 25); ("美容个护", 20);
      ("美食", 18); ("职场", 8); ("萌宠", 12); ("财经", 6); ("运动健身", 12);
      ("音乐", 10); ("颜值", 18)]);
   ("10-50万",
     [("三农", 18); ("二次元", 12); ("健康", 15); ("兴趣爱好", 12); ("其他", 8);
      ("医疗健康", 10); ("娱乐", 30); ("家居家装", 15); ("幽默搞笑", 38); ("影视综艺", 18);
      ("情感心理", 22); ("才艺技能", 18); ("教育培训", 12); ("文化", 15); ("旅游", 22);
      ("时事资讯", 8); ("时尚", 45); ("母婴育儿", 30); ("汽车", 15); ("游戏", 18);
      ("生活", 30); ("科学科普", 12); ("科技", 15); ("美妆", 50); ("美容个护", 40);
      ("美食", 38); ("职场", 15); ("萌宠", 22); ("财经", 12); ("运动健身", 22);
      ("音乐", 18); ("颜值", 38)]);
   ("50-100万",
     [("三农", 30); ("二次元", 20); ("健康", 25); ("兴趣爱好", 20); ("其他", 12);
      ("医疗健康", 16); ("娱乐", 55); ("家居家装", 25); ("幽默搞笑", 60); ("影视综艺", 30);
      ("情感心理", 38); ("才艺技能", 30); ("教育培训", 20); ("文化", 25); ("旅游", 38);
      ("时事资讯", 12); ("时尚", 75); ("母婴育儿", 55); ("汽车", 25); ("游戏", 30);
      ("生活", 55); ("科学科普", 20); ("科技", 25); ("美妆", 90); ("美容个护", 75);
      ("美食", 60); ("职场", 25); ("萌宠", 38); ("财经", 20); ("运动健身", 38);
      ("音乐", 30); ("颜值", 60)]);
   ("100-500万",
     [("三农", 60); ("二次元", 35); ("健康", 45); ("兴趣爱好", 35); ("其他", 20);
      ("医疗健康", 25); ("娱乐", 90); ("家居家装", 45); ("幽默搞笑", 120); ("影视综艺", 60);
      ("情感心理", 75); ("才艺技能", 60); ("教育培训", 35); ("文化", 45); ("旅游", 75);
      ("时事资讯", 20); ("时尚", 150); ("母婴育儿", 90); ("汽车", 45); ("游戏", 60);
      ("生活", 90); ("科学科普", 35); ("科技", 45); ("美妆", 180); ("美容个护", 150);
      ("美食", 120); ("职场", 45); ("萌宠", 75); ("财经", 35); ("运动健身", 75);
      ("音乐", 60); ("颜值", 120)]);
   ("500-1000万",
     [("三农", 100); ("二次元", 60); ("健康", 80); ("兴趣爱好", 60); ("其他", 35);
      ("医疗健康", 40); ("娱乐", 150); ("家居家装", 80); ("幽默搞笑", 200); ("影视综艺", 100);
      ("情感心理", 120); ("才艺技能", 100); ("教育培训", 60); ("文化", 80); ("旅游", 120);
      ("时事资讯", 35); ("时尚", 250); ("母婴育儿", 150); ("汽车", 80); ("游戏", 100);
      ("生活", 150); ("科学科普", 60); ("科技", 80); ("美妆", 300); ("美容个护", 250);
      ("美食", 200); ("职场", 80); ("萌宠", 120); ("财经", 60); ("运动健身", 120);
      ("音乐", 100); ("颜值", 200)]);
   ("1000万+",
     [("三农", 150); ("二次元", 90); ("健康", 120); ("兴趣爱好", 90); ("其他", 55);
      ("医疗健康", 65); ("娱乐", 220); ("家居家装", 120); ("幽默搞笑", 300); ("影视综艺", 150);
      ("情感心理", 180); ("才艺技能", 150); ("教育培训", 90); ("文化", 120); ("旅游", 180);
      ("时事资讯", 55); ("时尚", 350); ("母婴育儿", 220); ("汽车", 120); ("游戏", 150);
      ("生活", 220); ("科学科普", 90); ("科技", 120); ("美妆", 450); ("美容个护", 380);
      ("美食", 300); ("职场", 120); ("萌宠", 180); ("财经", 90); ("运动健身", 180);
      ("音乐", 150); ("颜值", 300)])].

(** [self.fan_ranges], [self.platforms] and [self.labels] of [__init__]. *)
Definition fan_ranges : list string :=
  ["1-10万"; "10-50万"; "50-100万"; "100-500万"; "500-1000万"; "1000万+"].

Definition platforms : list string := ["抖音"; "小红书"; "B站"; "快手"].

Definition labels : list string :=
  ["三农"; "二次元"; "健康"; "兴趣爱好"; "其他";
   "医疗健康"; "娱乐"; "家居家装"; "幽默搞笑"; "影视综艺";
   "情感心理"; "才艺技能"; "教育培训"; "文化"; "旅游";
   "时事资讯"; "时尚"; "母婴育儿"; "汽车"; "游戏";
   "生活"; "科学科普"; "科技"; "美妆"; "美容个护";
   "美食"; "职场"; "萌宠"; "财经"; "运动健身";
   "音乐"; "颜值"].

(** A [pandas.DataFrame] built from a list of row dictionaries: the column
    index, and the rows.  Selecting rows keeps the column index. *)
Record DataFrame : Type := Frame {
  columns : list string;
  rows : list (dict string)
}.

Definition add_columns (cols : list string) (row : dict string) : list string :=
  fold_left
    (fun cs k => if existsb (String.eqb k) cs then cs else (cs ++ [k])%list)
    (dict_keys row) cols.

(** [pd.DataFrame(data)] *)
Definition DataFrame_of (data : list (dict string)) : DataFrame :=
  Frame (fold_left add_columns data []) data.

(** [df[(df[c1] == v1) & (df[c2] == v2)]] *)
Definition select2 (df : DataFrame) (c1 v1 c2 v2 : string) : DataFrame :=
  let keep row :=
    match dict_get c1 row, dict_get c2 row with
    | Some a, Some b => String.eqb a v1 && String.eqb b v2
    | _, _ => false
    end in
  Frame (columns df) (filter keep (rows df)).

(** [df.empty] *)
Definition empty (df : DataFrame) : bool :=
  match rows df with
  | [] => true
  | _ :: _ => false
  end.

(** [int(df[label].iloc[0])] for a non-empty frame with that column. *)
Definition int_of_first (df : DataFrame) (label : string) : result Z :=
  match rows df with
  | [] => Raise IndexError
  | row :: _ =>
      match dict_get label row with
      | Some s => int_of_str s
      | None => Raise (ValueError "cannot convert float NaN to integer")
      end
  end.

(** The rows one platform contributes: a row per fan range, holding the
    range, the platform and [str(value)] under each label. *)
Definition platform_rows (platform : string) (matrix : dict (dict Z))
    : list (dict string) :=
  map
    (fun entry =>
       fold_left
         (fun row cell => dict_set (fst cell) (str_of_int (snd cell)) row)
         (snd entry)
         [("粉丝量级", fst entry); ("平台", platform)])
    matrix.

(** [AdMatrixGenerator.generate_matrix] *)
Definition generate_matrix : DataFrame :=
  DataFrame_of
    (platform_rows "抖音" douyin_matrix
     ++ platform_rows "小红书" xiaohongshu_matrix
     ++ platform_rows "B站" bilibili_matrix
     ++ platform_rows "快手" kuaishou_matrix)%list.

(** [self._matrix], cached by [__init__]. *)
Definition _matrix : DataFrame := generate_matrix.

Section AdMatrixGenerator.

Context {F : Type} `{PyFloat F}.

Local Open Scope py_scope.

(** [AdMatrixGenerator.get_fan_range] *)
Definition get_fan_range (fans : F) : string :=
  if fans <? lit 10 then "1-10万"
  else if fans <? lit 50 then "10-50万"
  else if fans <? lit 100 then "50-100万"
  else if fans <? lit 500 then "100-500万"
  else if fans <? lit 1000 then "500-1000万"
  else "1000万+".

(** [AdMatrixGenerator.get_expected_ad_count] *)
Definition get_expected_ad_count (platform label : string) (fans : F) : result Z :=
  let fan_range := get_fan_range fans in
  let query_result := select2 _matrix "粉丝量级" fan_range "平台" platform in
  if empty query_result then Ok 0%Z
  else if existsb (String.eqb label) (columns query_result)
       then int_of_first query_result label
       else Ok 0%Z.

(** [AdMatrixGenerator.calculate_development_ratio]: the early [return 0]
    is the integer zero, read here as a float. *)
Definition calculate_development_ratio (platform label : string) (fans : F)
    (actual_ads : Z) : result F :=
  expected_ads <- get_expected_ad_count platform label fans ;;
  if (expected_ads =? 0)%Z then Ok (lit 0)
  else
    q <- int_truediv actual_ads expected_ads ;;
    Ok (fround q 2).

End AdMatrixGenerator.

(** *** BloggerValuePredictor *)

Local Open Scope Q_scope.

(** [self.platform_params]: [k], [beta], [fan_limit]. *)
Definition platform_params_literal : dict (Q * Q * Q) :=
  [("抖音", (0.75, 1.2, 500));
   ("小红书", (0.65, 1.0, 300));
   ("B站", (0.55, 0.8, 200));
   ("快手", (0.45, 0.6, 400))].

(** [self.label_params]: [alpha], [gamma], [delta]. *)
Definition label_params_literal : dict (Q * Q * Q) :=
  [("三农", (0.45, 1.2, 0.6));
   ("二次元", (0.50, 1.4, 0.7));
   ("健康", (0.30, 0.8, 0.4));
   ("兴趣爱好", (0.35, 0.9, 0.5));
   ("其他", (0.25, 0.6, 0.3));
   ("医疗健康", (0.32, 0.7, 0.5));
   ("娱乐", (0.40, 1.1, 0.6));
   ("家居家装", (0.38, 1.3, 0.7));
   ("幽默搞笑", (0.42, 1.0, 0.5));
   ("影视综艺", (0.35, 1.1, 0.6));
   ("情感心理", (0.36, 1.0, 0.6));
   ("才艺技能", (0.37, 1.1, 0.6));
   ("教育培训", (0.33, 0.9, 0.5));
   ("文化", (0.34, 0.9, 0.5));
   ("旅游", (0.39, 1.2, 0.7));
   ("时事资讯", (0.30, 0.7, 0.4));
   ("时尚", (0.43, 1.5, 0.8));
   ("母婴育儿", (0.40, 1.4, 0.7));
   ("汽车", (0.38, 1.3, 0.8));
   ("游戏", (0.45, 1.3, 0.7));
   ("生活", (0.36, 1.0, 0.6));
   ("科学科普", (0.35, 1.1, 0.6));
   ("科技", (0.42, 1.4, 0.9));
   ("美妆", (0.48, 1.6, 0.9));
   ("美容个护", (0.45, 1.5, 0.8));
   ("美食", (0.44, 1.4, 0.7));
   ("职场", (0.37, 1.0, 0.6));
   ("萌宠", (0.41, 1.2, 0.6));
   ("财经", (0.39, 1.3, 0.8));
   ("运动健身", (0.40, 1.2, 0.7));
   ("音乐", (0.38, 1.1, 0.6));
   ("颜值", (0.46, 1.3, 0.8))].

Local Close Scope Q_scope.

Section BloggerValuePredictor.

Context {F : Type} `{PyFloat F}.

(** NumPy's scalar operations, which the default growth model and the
    default price estimate bring in: [np.sqrt], [np.log], the quotient of a
    [np.float64] (no exception on a zero divisor) and its [round]. *)
Variable np_sqrt : F -> F.
Variable np_log : F -> F.
Variable np_truediv : F -> F -> F.
Variable np_round : F -> nat -> F.

Local Open Scope py_scope.

Definition read_params (d : dict (Q * Q * Q)) : dict (F * F * F) :=
  map (fun e => let '(a, b, c) := snd e in (fst e, (lit a, lit b, lit c))) d.

Definition platform_params : dict (F * F * F) := read_params platform_params_literal.
Definition label_params : dict (F * F * F) := read_params label_params_literal.

Definition invalid_platform : exn :=
  ValueError ("无效平台！可选: " ++ repr_keys platform_params_literal).

Definition invalid_label : exn :=
  ValueError ("无效标签！可选: " ++ repr_keys label_params_literal).

(** [BloggerValuePredictor.get_single_ad_value] *)
Definition get_single_ad_value (platform label : string) (fans : F) : result F :=
  match dict_get label label_params with
  | None => Raise invalid_label
  | Some (_, gamma, _) =>
      let base_value := lit 0.1 * np_sqrt fans * gamma in
      Ok (np_round base_value 2)
  end.

(** One pass of the [for year in years] loop of [predict_value].  A value
    computed from [np.log] or [np.sqrt] is a [np.float64], and so is every
    value computed from it: [from_np_ft] and [from_np_pt] record that for
    [ft] and for [pt], and select NumPy's quotient and [round]. *)
Definition predict_year (platform label : string)
    (k alpha delta fans_in_wan current_fans single_ad_value : F)
    (price_is_np : bool) (growth_rate : option F) (year : Z)
    : result (Z * F * Z * F) :=
  let from_np_ft := match growth_rate with None => true | Some _ => false end in
  let from_np_pt := from_np_ft || price_is_np in
  ft <- match growth_rate with
        | Some g =>
            r <- py_div g (lit 100) ;;
            p <- fpow (lit 1 + r) year ;;
            Ok (current_fans * p)
        | None =>
            Ok (fans_in_wan
                + k * np_log (lit (inject_Z (year + 1))) * (lit 1 + alpha))
        end ;;
  nt <- get_expected_ad_count platform label ft ;;
  growth <- (if from_np_ft then Ok (np_truediv (ft - fans_in_wan) fans_in_wan)
             else py_div (ft - fans_in_wan) fans_in_wan) ;;
  let pt := single_ad_value * (lit 1 + growth * delta) in
  let vt := lit (inject_Z nt) * pt * lit 1.2 in
  Ok (year,
      (if from_np_ft then np_round ft 2 else fround ft 2),
      nt,
      (if from_np_pt then np_round vt 2 else fround vt 2)).

(** The loop itself: the rows in the order of [years], up to the first
    exception. *)
Fixpoint predict_years (step : Z -> result (Z * F * Z * F)) (years : list Z)
    : result (list (Z * F * Z * F)) :=
  match years with
  | [] => Ok []
  | year :: rest =>
      row <- step year ;;
      rows <- predict_years step rest ;;
      Ok (row :: rows)
  end.

(** The default value of the [years] parameter. *)
Definition default_years : list Z := [1; 2; 3; 4; 5]%Z.

(** [BloggerValuePredictor.predict_value] *)
Definition predict_value (fans : F) (platform label : string)
    (single_ad_value : option F) (years : list Z) (growth_rate : option F)
    : result (list (Z * F * Z * F)) :=
  match dict_get platform platform_params with
  | None => Raise invalid_platform
  | Some (k, beta, fan_limit) =>
      match dict_get label label_params with
      | None => Raise invalid_label
      | Some (alpha, gamma, delta) =>
          price <- match single_ad_value with
                   | None =>
                       fans_in_wan <- py_div fans (lit 10000) ;;
                       v <- get_single_ad_value platform label fans_in_wan ;;
                       Ok (v, true)
                   | Some v => Ok (v, false)
                   end ;;
          fans_in_wan <- py_div fans (lit 10000) ;;
          let current_fans := fans_in_wan in
          predict_years
            (predict_year platform label k alpha delta fans_in_wan current_fans
               (fst price) (snd price) growth_rate)
            years
      end
  end.

End BloggerValuePredictor.

(** The components of a row of [predict_value]: the year, the follower
    count, the ad count and the income. *)
Definition row_year {F : Type} (row : Z * F * Z * F) : Z := fst (fst (fst row)).
Definition row_fans {F : Type} (row : Z * F * Z * F) : F := snd (fst (fst row)).
Definition row_ads {F : Type} (row : Z * F * Z * F) : Z := snd (fst row).
Definition row_income {F : Type} (row : Z * F * Z * F) : F := snd row.

(** The dictionary [create_summary_table] returns, a field for each key. *)
Record summary_table (F : Type) : Type := SummaryTable {
  summary_years : list string;
  summary_fans : list string;
  summary_ad_counts : list string;
  summary_income : list string;
  summary_total_value : F
}.

Arguments SummaryTable {F}.
Arguments summary_years {F}.
Arguments summary_fans {F}.
Arguments summary_ad_counts {F}.
Arguments summary_income {F}.
Arguments summary_total_value {F}.

Section SummaryTable.

Context {F : Type} `{PyFloat F} `{PyFloatText F}.

Variable np_sqrt : F -> F.
Variable np_log : F -> F.
Variable np_truediv : F -> F -> F.
Variable np_round : F -> nat -> F.

(** [sum] over floats: from 0, the terms added in order.  How the partial
    sums are rounded depends on the interpreter ([sum] compensates the
    rounding of [float] terms from Python 3.12 on). *)
Variable float_sum : list F -> F.

Local Open Scope py_scope.

(** The formatting repeated in [create_summary_table]:
    [f"{int(x)}unit"] if [x == int(x)], else [f"{x:.2f}unit"]. *)
Definition whole_or_2f (x : F) (unit : string) : result string :=
  n <- to_int x ;;
  if x =? lit (inject_Z n)
  then (n' <- to_int x ;; Ok (str_of_int n' ++ unit)%string)
  else Ok (format_2f x ++ unit)%string.

(** A [for] loop that appends one formatted entry for each row, up to the
    first exception. *)
Fixpoint format_rows (entry : Z * F * Z * F -> result string)
    (results : list (Z * F * Z * F)) : result (list string) :=
  match results with
  | [] => Ok []
  | r :: rest =>
      text <- entry r ;;
      texts <- format_rows entry rest ;;
      Ok (text :: texts)
  end.

(** [results[-1]] *)
Definition last_row (results : list (Z * F * Z * F)) : result (Z * F * Z * F) :=
  match rev results with
  | r :: _ => Ok r
  | [] => Raise IndexError
  end.

(** [BloggerValuePredictor.create_summary_table] *)
Definition create_summary_table (fans : F) (platform label : string)
    (single_ad_value : F) (growth_rate : option F)
    : result (summary_table F) :=
  fans_in_wan <- py_div fans (lit 10000) ;;
  results <- predict_value np_sqrt np_log np_truediv np_round
               fans platform label (Some single_ad_value) [1; 2; 3; 4; 5]%Z
               growth_rate ;;
  let total_value := float_sum (map row_income results) in
  let years :=
    map (fun r => ("第" ++ str_of_int (row_year r) ++ "年")%string) results in
  fans_data <- format_rows (fun r => whole_or_2f (row_fans r) "万") results ;;
  let ad_counts :=
    map (fun r => (str_of_int (row_ads r) ++ "条")%string) results in
  income_data <-
    format_rows (fun r => whole_or_2f (row_income r) "万元") results ;;
  let years := (years ++ ["五年总计"%string])%list in
  final <- last_row results ;;
  final_fans <- whole_or_2f (row_fans final) "万" ;;
  let fans_data := (fans_data ++ [final_fans])%list in
  let total_ads := fold_left Z.add (map row_ads results) 0%Z in
  let ad_counts :=
    (ad_counts ++ [(str_of_int total_ads ++ "条")%string])%list in
  total_text <- whole_or_2f total_value "万元" ;;
  let income_data := (income_data ++ [total_text])%list in
  let from_np := match growth_rate with None => true | Some _ => false end in
  Ok (SummaryTable years fans_data ad_counts income_data
        (if from_np then np_round total_value 2 else fround total_value 2)).

End SummaryTable.

End value_predictor.

(** ** visualization.py: the two number formats *)

Module visualization.

Section Formats.

Context {F : Type} `{PyFloat F} `{PyFloatText F}.

Local Open Scope py_scope.

(** The nested [clean_decimal], the same in [format_large_number] and in
    [format_price]. *)
Definition clean_decimal (n : F) : result string :=
  i <- to_int n ;;
  if n =? lit (inject_Z i)
  then (i' <- to_int n ;; Ok (str_of_int i'))
  else Ok (format_2f n).

(** [format_large_number(num, is_english)] *)
Definition format_large_number (num : F) (is_english : bool) : result string :=
  if is_english then
    if lit 1000000000 <=? num then
      t <- clean_decimal (fdiv num (lit 1000000000)) ;; Ok (t ++ "B")%string
    else if lit 1000000 <=? num then
      t <- clean_decimal (fdiv num (lit 1000000)) ;; Ok (t ++ "M")%string
    else if lit 1000 <=? num then
      t <- clean_decimal (fdiv num (lit 1000)) ;; Ok (t ++ "K")%string
    else clean_decimal num
  else
    if lit 100000000 <=? num then
      t <- clean_decimal (fdiv num (lit 100000000)) ;; Ok (t ++ "亿")%string
    else if lit 10000 <=? num then
      t <- clean_decimal (fdiv num (lit 10000)) ;; Ok (t ++ "万")%string
    else if lit 1000 <=? num then
      t <- clean_decimal (fdiv num (lit 1000)) ;; Ok (t ++ "千")%string
    else clean_decimal num.

(** [format_price(price, is_english)] *)
Definition format_price (price : F) (is_english : bool) : result string :=
  if is_english then
    if lit 1000000 <=? price then
      t <- clean_decimal (fdiv price (lit 1000000)) ;;
      Ok ("$" ++ t ++ "M")%string
    else if lit 1000 <=? price then
      t <- clean_decimal (fdiv price (lit 1000)) ;;
      Ok ("$" ++ t ++ "K")%string
    else
      t <- clean_decimal price ;; Ok ("$" ++ t)%string
  else
    if lit 10000 <=? price then
      t <- clean_decimal (fdiv price (lit 10000)) ;;
      Ok ("¥" ++ t ++ "万")%string
    else
      t <- clean_decimal price ;; Ok ("¥" ++ t)%string.

End Formats.

End visualization.

(** ** Vocabulary of the specification

    Names the specification uses for expressions of the source. *)

Module Spec.

Import pricing_module value_predictor.

(** The 32 category names: the keys of the curve table, in source order. *)
Definition categories : list string := dict_keys douyin_breakpoints.

(** The reference platform, whose coefficient is 1 in every row. *)
Definition reference_platform : string := "抖音".

Section Vocabulary.

Context {F : Type} `{PyFloat F}.

Local Open Scope py_scope.

(** [DOUYIN_FUNCTIONS[category]], when the module loaded and has the key. *)
Definition curve_of (category : string) : option (ContinuousPiecewiseFunction F) :=
  match DOUYIN_FUNCTIONS with
  | Ok functions => dict_get category functions
  | Raise _ => None
  end.

(** The base price: the expression [DOUYIN_FUNCTIONS[category](followers)]
    of [get_price], before the celebrity bonus and the coefficient. *)
Definition base_price (category : string) (followers : F) : result F :=
  functions <- DOUYIN_FUNCTIONS ;;
  match dict_get category functions with
  | None => Raise (ValueError ("不支持的标签：" ++ category))
  | Some base_func => __call__ base_func followers
  end.



(** [P] holds of every curve of the loaded table. *)
Definition all_curves (P : ContinuousPiecewiseFunction F -> bool) : bool :=
  match DOUYIN_FUNCTIONS with
  | Ok functions => forallb (fun e => P (snd e)) functions
  | Raise _ => false
  end.

(** The curve has at least one segment. *)
Definition has_segments (f : ContinuousPiecewiseFunction F) : bool :=
  match segments f with
  | [] => false
  | _ :: _ => true
  end.

(** [x] lies in the half-open interval of the segment: the test of the
    loop of [__call__]. *)
Definition in_interval (s : segment F) (x : F) : bool :=
  (seg_start s <=? x) && (x <? seg_end s).


(** The platform coefficient [get_price] applies for a category. *)
Definition coefficient (platform category : string) : option F :=
  match dict_get category COEFF_MATRIX with
  | Some coeffs => Some (dict_get_default platform coeffs (lit 1.0))
  | None => None
  end.

(** The row of a known category in the literal of [COEFF_MATRIX] lists the
    four platforms and gives the reference platform the integer 1. *)
Definition reference_row (category : string) : bool :=
  match dict_get category COEFF_MATRIX_literal with
  | Some row =>
      match dict_get reference_platform row with
      | Some (Qmake 1 1) => forallb (fun p => dict_mem p row) get_platforms
      | _ => false
      end
  | None => false
  end.

(** The celebrity bonus of [get_price]: the base price doubled for
    "影视综艺" when [is_celebrity] is set. *)
Definition with_bonus (category : string) (kwargs : dict bool) (b : F) : F :=
  if String.eqb category "影视综艺" && dict_get_default "is_celebrity" kwargs false
  then b * lit 2
  else b.


(** Two consecutive x-values of a breakpoint list coincide. *)
Fixpoint has_zero_gap (bps : list (F * F)) : bool :=
  match bps with
  | (x1, _) :: (((x2, _) :: _) as rest) =>
      ((x2 - x1) =? lit 0) || has_zero_gap rest
  | _ => false
  end.

End Vocabulary.

(** The body of [get_expected_ad_count] once the fan range is known. *)
Definition expected_in_range (platform label fan_range : string) : result Z :=
  let query_result := select2 _matrix "粉丝量级" fan_range "平台" platform in
  if empty query_result then Ok 0%Z
  else if existsb (String.eqb label) (columns query_result)
       then int_of_first query_result label
       else Ok 0%Z.

(** The table has a positive ad count for the platform, the label and the
    fan range. *)
Definition has_count (fan_range platform label : string) : bool :=
  match expected_in_range platform label fan_range with
  | Ok n => (0 <? n)%Z
  | Raise _ => false
  end.

(** The platforms and the labels [predict_value] accepts. *)
Definition valid_platforms : list string := dict_keys platform_params_literal.
Definition valid_labels : list string := dict_keys label_params_literal.

(** The price-growth factor [delta] of the entry is a finite, non-zero
    double. *)
Definition finite_delta
    (entry : string * (Binary64.float * Binary64.float * Binary64.float))
    : bool :=
  match Prim2SF (snd (snd entry)) with
  | S754_finite _ _ _ => true
  | _ => false
  end.

(** The line of [s] passes through the two breakpoints [p] and [q], and
    [s] spans from the one to the other. *)
Definition interpolates (s : segment Q) (p q : Q * Q) : Prop :=
  seg_start s = fst p
  /\ seg_end s = fst q
  /\ (eval_segment s (fst p) == snd p)%Q
  /\ (eval_segment s (fst q) == snd q)%Q.

(** Every pair of adjacent segments meets exactly: the end of the first is
    the start of the second, and the two lines agree there. *)
Fixpoint joins_exactly (segs : list (segment Q)) : Prop :=
  match segs with
  | s :: ((t :: _) as rest) =>
      seg_end s = seg_start t
      /\ (eval_segment s (seg_end s) == eval_segment t (seg_start t))%Q
      /\ joins_exactly rest
  | _ => True
  end.

(** The floating tolerance of the specification: the double nearest to
    1e-6. *)
Definition tolerance : Binary64.float := lit 1e-6%Q.

(** Distance at most [tol] between two doubles. *)
Definition close_to (tol a b : Binary64.float) : bool :=
  PrimFloat.leb (PrimFloat.abs (PrimFloat.sub a b)) tol.

(** Every pair of adjacent segments meets within [tol] at the shared
    boundary: the end of the first is the start of the second, and the two
    lines agree there. *)
Fixpoint joins_within (tol : Binary64.float)
    (segs : list (segment Binary64.float)) : bool :=
  match segs with
  | s :: ((t :: _) as rest) =>
      PrimFloat.Leibniz.eqb (seg_end s) (seg_start t)
      && close_to tol (eval_segment s (seg_end s)) (eval_segment t (seg_start t))
      && joins_within tol rest
  | _ => true
  end.

End Spec.

(** ** Further vocabulary

    Predicates on the tables, the curves and the rows, for the properties
    of the code that follow those of the specification. *)

Module Terms.

Import pricing_module value_predictor visualization Spec.

(** *** pricing_module.py *)

(** The keys of [a] and [b] are in order. *)
Definition key_le {A : Type} (key : A -> string) (a b : A) : Prop :=
  String.leb (key a) (key b) = true.

(** [pinyin_mapping] has an entry for the category. *)
Definition has_pinyin (category : string) : bool :=
  dict_mem category pinyin_mapping.

(** The follower counts at which the curves bend. *)
Definition follower_grid : list Q :=
  [0; 6e4; 30e4; 75e4; 300e4; 750e4; 2000e4]%Q.

(** The x-values of a built curve, read as [get_follower_breakpoints] reads
    them off the first curve. *)
Definition curve_xs {F : Type} (f : ContinuousPiecewiseFunction F) : list F :=
  match segments f with
  | [] => []
  | s :: _ => seg_start s :: map seg_end (segments f)
  end.

(** The x-values of all the curves of [DOUYIN_FUNCTIONS]. *)
Definition all_curve_xs {F : Type} `{PyFloat F} : list (list F) :=
  match DOUYIN_FUNCTIONS with
  | Ok functions => map (fun e => curve_xs (snd e)) functions
  | Raise _ => []
  end.

(** [kwargs.get("is_celebrity", False)] *)
Definition is_celebrity (kwargs : dict bool) : bool :=
  dict_get_default "is_celebrity" kwargs false.

(** The x-values grow strictly from each breakpoint to the next. *)
Fixpoint strictly_increasing (bps : list (Q * Q)) : bool :=
  match bps with
  | p :: ((q :: _) as rest) =>
      Exact.Qltb (fst p) (fst q) && strictly_increasing rest
  | _ => true
  end.

(** The prices grow strictly from each breakpoint to the next. *)
Fixpoint prices_increasing (bps : list (Q * Q)) : bool :=
  match bps with
  | p :: ((q :: _) as rest) =>
      Exact.Qltb (snd p) (snd q) && prices_increasing rest
  | _ => true
  end.

(** A table of [build_douyin_functions]: it starts at 0 followers with a
    price that is not negative, and from each breakpoint to the next both
    the x-value and the price grow. *)
Definition well_formed_table (bps : list (Q * Q)) : bool :=
  match bps with
  | (x, y) :: _ :: _ =>
      Qeq_bool x 0 && Qle_bool 0 y
      && strictly_increasing bps && prices_increasing bps
  | _ => false
  end.

(** In binary64, the price at each breakpoint of the entry's table is
    within [tol] of the listed price. *)
Definition reproduces_table (tol : Binary64.float)
    (entry : string * list (Q * Q)) : bool :=
  forallb
    (fun p =>
       match get_price reference_platform (fst entry) (lit (fst p)) [] with
       | Ok v => close_to tol v (lit (snd p))
       | Raise _ => false
       end)
    (snd entry).

(** *** AdMatrixGenerator *)

(** The literal matrix of each platform in [generate_matrix]. *)
Definition literal_matrices : dict (dict (dict Z)) :=
  [("抖音", douyin_matrix); ("小红书", xiaohongshu_matrix);
   ("B站", bilibili_matrix); ("快手", kuaishou_matrix)].

(** The count a literal matrix lists for a fan range and a label. *)
Definition literal_count (platform fan_range label : string) : option Z :=
  match dict_get platform literal_matrices with
  | Some matrix =>
      match dict_get fan_range matrix with
      | Some row => dict_get label row
      | None => None
      end
  | None => None
  end.

(** The position in [fan_ranges] of the fan range of [fans]. *)
Definition fan_range_index {F : Type} `{PyFloat F} (fans : F) : nat :=
  if (fans <? lit 10)%py then 0
  else if (fans <? lit 50)%py then 1
  else if (fans <? lit 100)%py then 2
  else if (fans <? lit 500)%py then 3
  else if (fans <? lit 1000)%py then 4
  else 5.

(** The counts of a platform and a label, along [fan_ranges]. *)
Definition counts_along_ranges (platform label : string) : list (result Z) :=
  map (expected_in_range platform label) fan_ranges.

(** All are counts, and none is below the one before it. *)
Fixpoint counts_nondecreasing (l : list (result Z)) : bool :=
  match l with
  | Ok a :: ((Ok b :: _) as rest) => (a <=? b)%Z && counts_nondecreasing rest
  | [Ok _] => true
  | _ => false
  end.

(** The lookup returns the count of a cell of a literal matrix. *)
Definition cell_found (platform fan_range : string) (cell : string * Z) : bool :=
  match expected_in_range platform (fst cell) fan_range with
  | Ok n => (n =? snd cell)%Z
  | Raise _ => false
  end.

(** The row has both key columns, and its platform is one of [platforms]. *)
Definition row_of_known_platform (row : dict string) : bool :=
  match dict_get "粉丝量级" row, dict_get "平台" row with
  | Some _, Some p => existsb (String.eqb p) platforms
  | _, _ => false
  end.

(** The query for a fan range and a platform selects one row, which holds
    that fan range and that platform in its key columns. *)
Definition reserved_cells (fan_range platform : string) : bool :=
  match rows (select2 _matrix "粉丝量级" fan_range "平台" platform) with
  | [row] =>
      match dict_get "粉丝量级" row, dict_get "平台" row with
      | Some r, Some p => String.eqb r fan_range && String.eqb p platform
      | _, _ => false
      end
  | _ => false
  end.

(** The row holds a positive count, written in decimal, under every
    label. *)
Definition complete_row (row : dict string) : bool :=
  forallb
    (fun label =>
       match dict_get label row with
       | Some s => match int_of_str s with
                   | Ok n => (0 <? n)%Z && String.eqb s (str_of_int n)
                   | Raise _ => false
                   end
       | None => false
       end)
    labels.

Definition one_complete_row (fan_range platform : string) : bool :=
  match rows (select2 _matrix "粉丝量级" fan_range "平台" platform) with
  | [row] => complete_row row
  | _ => false
  end.

(** In binary64, the expected count of the cell divided by itself and
    rounded is 1.0. *)
Definition unit_ratio (platform label fan_range : string) : bool :=
  match expected_in_range platform label fan_range with
  | Ok n =>
      match int_truediv (F := Binary64.float) n n with
      | Ok q => PrimFloat.Leibniz.eqb (fround q 2) 1%float
      | Raise _ => false
      end
  | Raise _ => false
  end.

(** *** BloggerValuePredictor *)

(** The columns of a row that come before the income. *)
Definition row_projection {F : Type} (row : Z * F * Z * F) : Z * F * Z :=
  fst row.

(** Two runs of [predict_value] end alike, and agree on every column but
    the income. *)
Definition same_projection {F : Type}
    (r1 r2 : result (list (Z * F * Z * F))) : Prop :=
  match r1, r2 with
  | Ok rows1, Ok rows2 => map row_projection rows1 = map row_projection rows2
  | Raise e1, Raise e2 => e1 = e2
  | _, _ => False
  end.

(** The price-growth factor [delta] of the label lies between 0 and 1. *)
Definition delta_in_unit_interval (entry : string * (Q * Q * Q)) : bool :=
  let delta := snd (snd entry) in
  Qle_bool 0 delta && Qle_bool delta 1.

(** The follower count a growth rate [g] (in percent) projects for a year,
    from [f0]. *)
Definition projected_fans (f0 g : Q) (year : Z) : Q :=
  (f0 * Qpower (1 + g / 100) year)%Q.

(** The years whose successor NumPy converts to a 64-bit integer, and then
    to a double, when [np.log(year + 1)] is evaluated. *)
Definition numpy_int64 (n : Z) : bool :=
  (- 2 ^ 63 <=? n) && (n <? 2 ^ 63).

Definition years_in_range (years : list Z) : bool :=
  forallb (fun year => numpy_int64 (year + 1)) years.

(** A double that is neither an infinity nor NaN. *)
Definition finite_double (x : Binary64.float) : bool :=
  match Prim2SF x with
  | S754_zero _ | S754_finite _ _ _ => true
  | S754_infinity _ | S754_nan => false
  end.

(** *** visualization.py *)

(** The currency sign [format_price] puts in front. *)
Definition currency (is_english : bool) : string :=
  if is_english then "$" else "¥".

(** The doubles [int] refuses. *)
Definition not_finite : list Binary64.float :=
  [infinity; neg_infinity; nan]%float.

End Terms.

(** ** Order laws of the two arithmetics

    The two facts about [<=] and [<] that the segment search relies on.
    They hold of the rationals, and of doubles because a comparison with a
    NaN is false. *)

Class FloatOrder (F : Type) `{PyFloat F} : Prop := {
  lt_le_not_le : forall a b c : F,
    (a <? b)%py = true -> (b <=? c)%py = true -> (c <=? a)%py = false;
  le_le_not_lt : forall a b c : F,
    (a <=? b)%py = true -> (b <=? c)%py = true -> (c <? a)%py = false
}.

(** * Properties *)

Import pricing_module value_predictor Spec.

(** ** Tactics *)

(** The comparison of [spec_float] is the lexicographic one on sign,
    exponent and mantissa; both laws follow by cases. *)
Ltac SF_order_cases :=
  repeat match goal with
         | H : context [Pos.compare_cont Eq ?p ?q] |- _ =>
             change (Pos.compare_cont Eq p q) with (Pos.compare p q) in *
         | |- context [Pos.compare_cont Eq ?p ?q] =>
             change (Pos.compare_cont Eq p q) with (Pos.compare p q) in *
         end;
  repeat match goal with
         | H : context [Z.compare ?a ?b] |- _ =>
             destruct (Z.compare_spec a b); simpl in *
         | |- context [Z.compare ?a ?b] =>
             destruct (Z.compare_spec a b); simpl in *
         | H : context [Pos.compare ?a ?b] |- _ =>
             destruct (Pos.compare_spec a b); simpl in *
         | |- context [Pos.compare ?a ?b] =>
             destruct (Pos.compare_spec a b); simpl in *
         end;
  try discriminate; try reflexivity; try lia.

(** ** Results and dictionaries *)

Lemma bind_Ok {A B : Type} (r : result A) (k : A -> result B) (b : B) :
  bind r k = Ok b -> exists a, r = Ok a /\ k a = Ok b.
Proof.
  destruct r as [a | e]; simpl; intros Hk.
  - exists a. split; [reflexivity | exact Hk].
  - discriminate.
Qed.

Lemma dict_get_In {V : Type} (k : string) (d : dict V) (v : V) :
  dict_get k d = Some v -> In (k, v) d.
Proof.
  induction d as [| [k' v'] d IH]; simpl; [discriminate |].
  destruct (String.eqb_spec k k') as [-> | Hne]; intros Hget.
  - injection Hget as ->. now left.
  - right. now apply IH.
Qed.

Lemma dict_get_None {V : Type} (k : string) (d : dict V) :
  ~ In k (dict_keys d) -> dict_get k d = None.
Proof.
  induction d as [| [k' v'] d IH]; simpl; [reflexivity |].
  intros Hnot. destruct (String.eqb_spec k k') as [-> | Hne].
  - exfalso. apply Hnot. now left.
  - apply IH. intros Hin. apply Hnot. now right.
Qed.

Lemma dict_get_keys {V : Type} (k : string) (d : dict V) :
  dict_get k d = None -> ~ In k (dict_keys d).
Proof.
  induction d as [| [k' v'] d IH]; simpl; [tauto |].
  destruct (String.eqb_spec k k') as [-> | Hne]; [discriminate |].
  intros Hget [Heq | Hin]; [congruence | now apply IH].
Qed.

(** ** Loading the module

    [DOUYIN_FUNCTIONS] is built without an exception in both arithmetics,
    and holds the 32 categories in source order. *)

Lemma DOUYIN_FUNCTIONS_loaded_exact :
  exists functions : dict (ContinuousPiecewiseFunction Q),
    DOUYIN_FUNCTIONS = Ok functions /\ dict_keys functions = categories.
Proof.
  destruct (DOUYIN_FUNCTIONS (F := Q)) as [functions | e] eqn:Hload.
  - exists functions. split; [reflexivity |].
    assert (Hkeys : match DOUYIN_FUNCTIONS (F := Q) with
                    | Ok fs => dict_keys fs
                    | Raise _ => []
                    end = categories) by (vm_compute; reflexivity).
    now rewrite Hload in Hkeys.
  - exfalso.
    assert (Hok : is_ok (DOUYIN_FUNCTIONS (F := Q)) = true)
      by (vm_compute; reflexivity).
    rewrite Hload in Hok. discriminate.
Qed.

Lemma DOUYIN_FUNCTIONS_loaded_binary64 :
  exists functions : dict (ContinuousPiecewiseFunction Binary64.float),
    DOUYIN_FUNCTIONS = Ok functions /\ dict_keys functions = categories.
Proof.
  destruct (DOUYIN_FUNCTIONS (F := Binary64.float)) as [functions | e] eqn:Hload.
  - exists functions. split; [reflexivity |].
    assert (Hkeys : match DOUYIN_FUNCTIONS (F := Binary64.float) with
                    | Ok fs => dict_keys fs
                    | Raise _ => []
                    end = categories) by (vm_compute; reflexivity).
    now rewrite Hload in Hkeys.
  - exfalso.
    assert (Hok : is_ok (DOUYIN_FUNCTIONS (F := Binary64.float)) = true)
      by (vm_compute; reflexivity).
    rewrite Hload in Hok. discriminate.
Qed.

Lemma categories_length : List.length categories = 32%nat.
Proof. reflexivity. Qed.

(** ** C3: the three reference prices of "三农" *)

(** C3.  For category "三农" on the reference platform "抖音", [get_price]
    and the base price are exactly 200 at 0 followers, exactly 6800 at
    60000 followers and exactly 3500 at 30000 followers, in exact rational
    arithmetic and in binary64 alike. *)
Theorem C3_sannong_reference_prices :
  (exists p0 p1 p2 : Q,
      get_price reference_platform "三农" 0%Q [] = Ok p0
      /\ base_price "三农" 0%Q = Ok p0 /\ (p0 == 200)%Q
      /\ get_price reference_platform "三农" 60000%Q [] = Ok p1
      /\ base_price "三农" 60000%Q = Ok p1 /\ (p1 == 6800)%Q
      /\ get_price reference_platform "三农" 30000%Q [] = Ok p2
      /\ base_price "三农" 30000%Q = Ok p2 /\ (p2 == 3500)%Q)
  /\ (get_price reference_platform "三农" 0%float [] = Ok 200%float
      /\ base_price "三农" 0%float = Ok 200%float
      /\ get_price reference_platform "三农" 60000%float [] = Ok 6800%float
      /\ base_price "三农" 60000%float = Ok 6800%float
      /\ get_price reference_platform "三农" 30000%float [] = Ok 3500%float
      /\ base_price "三农" 30000%float = Ok 3500%float).
Proof.
  split.
  - do 3 eexists.
    repeat match goal with
           | |- _ /\ _ => split
           end;
      try (vm_compute; reflexivity).
  - repeat split; vm_compute; reflexivity.
Qed.

(** ** Order laws: the two instances *)

Lemma Qltb_lt (x y : Q) : Exact.Qltb x y = true <-> (x < y)%Q.
Proof.
  unfold Exact.Qltb. rewrite negb_true_iff.
  split.
  - intros Hle. apply Qnot_le_lt. intros Hyx.
    apply Qle_bool_iff in Hyx. congruence.
  - intros Hlt. destruct (Qle_bool y x) eqn:Hle; [| reflexivity].
    apply Qle_bool_iff in Hle. exfalso. now apply (Qlt_not_le x y).
Qed.

Lemma Qle_bool_false (x y : Q) : Qle_bool x y = false <-> (y < x)%Q.
Proof.
  split.
  - intros Hle. apply Qnot_le_lt. intros Hxy.
    apply Qle_bool_iff in Hxy. congruence.
  - intros Hlt. destruct (Qle_bool x y) eqn:Hle; [| reflexivity].
    apply Qle_bool_iff in Hle. exfalso. now apply (Qlt_not_le y x).
Qed.

#[global] Instance Q_order : FloatOrder Q.
Proof.
  split; simpl; intros a b c Hab Hbc.
  - apply Qltb_lt in Hab. apply Qle_bool_iff in Hbc.
    apply Qle_bool_false. now apply Qlt_le_trans with b.
  - apply Qle_bool_iff in Hab. apply Qle_bool_iff in Hbc.
    unfold Exact.Qltb. rewrite negb_false_iff. apply Qle_bool_iff.
    now apply Qle_trans with b.
Qed.

Lemma SF_lt_le_not_le (a b c : spec_float) :
  SFltb a b = true -> SFleb b c = true -> SFleb c a = false.
Proof.
  unfold SFltb, SFleb, SFcompare.
  destruct a as [[] | [] | | [] ma ea], b as [[] | [] | | [] mb eb],
    c as [[] | [] | | [] mc ec];
    simpl; intros Hab Hbc; try discriminate; try reflexivity;
    SF_order_cases.
Qed.

Lemma SF_le_le_not_lt (a b c : spec_float) :
  SFleb a b = true -> SFleb b c = true -> SFltb c a = false.
Proof.
  unfold SFltb, SFleb, SFcompare.
  destruct a as [[] | [] | | [] ma ea], b as [[] | [] | | [] mb eb],
    c as [[] | [] | | [] mc ec];
    simpl; intros Hab Hbc; try discriminate; try reflexivity;
    SF_order_cases.
Qed.

#[global] Instance binary64_order : FloatOrder Binary64.float.
Proof.
  split; simpl; intros a b c; rewrite !ltb_spec, !leb_spec.
  - apply SF_lt_le_not_le.
  - apply SF_le_le_not_lt.
Qed.

(** ** Multiplying a double by 1.0 *)

Lemma digits2_pos_shift (m n : positive) :
  Zpos (digits2_pos (Pos.iter xO m n)) = Zpos (digits2_pos m) + Zpos n.
Proof.
  revert m. induction n as [| n IH] using Pos.peano_ind; intros m.
  - simpl. lia.
  - rewrite Pos.iter_succ. simpl digits2_pos. rewrite Pos2Z.inj_succ, IH. lia.
Qed.

(** On the specification: the product has the mantissa of [x] followed by
    52 zero bits, and rounding shifts exactly those away. *)
Lemma SFmul_one_r (x : spec_float) :
  valid_binary x = true -> SFmul prec emax x (Prim2SF 1) = x.
Proof.
  change (Prim2SF 1) with (S754_finite false 4503599627370496 (-52)).
  destruct x as [s | s | | s m e]; simpl; intros Hvalid.
  - now destruct s.
  - now destruct s.
  - reflexivity.
  - unfold bounded, canonical_mantissa in Hvalid.
    apply andb_true_iff in Hvalid. destruct Hvalid as [Hcanon Hbound].
    apply Z.eqb_eq in Hcanon.
    replace (xorb s false) with s by now destruct s.
    rewrite Pos.mul_comm.
    change (4503599627370496 * m)%positive with (Pos.iter xO m 52).
    unfold binary_round_aux.
    assert (Hfirst :
      shr_fexp prec emax (Zpos (Pos.iter xO m 52)) (e + -52) loc_Exact
      = ({| shr_m := Zpos m; shr_r := false; shr_s := false |}, e)).
    { unfold shr_fexp, Zdigits2. rewrite digits2_pos_shift.
      replace (Z.pos (digits2_pos m) + 52 + (e + -52))
        with (Z.pos (digits2_pos m) + e) by lia.
      rewrite Hcanon. replace (e - (e + -52)) with 52 by lia.
      unfold shr. replace (e + -52 + 52) with e by lia. reflexivity. }
    rewrite Hfirst. simpl loc_of_shr_record. simpl shr_m.
    simpl round_nearest_even.
    assert (Hsecond :
      shr_fexp prec emax (Zpos m) e loc_Exact
      = ({| shr_m := Zpos m; shr_r := false; shr_s := false |}, e)).
    { unfold shr_fexp, Zdigits2. rewrite Hcanon, Z.sub_diag. reflexivity. }
    rewrite Hsecond. simpl shr_m. rewrite Hbound. reflexivity.
Qed.

Lemma binary64_mul_one_r (x : Binary64.float) : PrimFloat.mul x 1%float = x.
Proof.
  apply Prim2SF_inj. rewrite mul_spec. apply SFmul_one_r, Prim2SF_valid.
Qed.

(** ** The curve: search, extrapolation, totality *)

Section CurveFacts.

Context {F : Type} `{PyFloat F}.


Lemma last_segment_exists (segs : list (segment F)) :
  segs <> [] -> exists s, last_segment segs = Ok s.
Proof.
  unfold last_segment. intros Hne.
  destruct (rev segs) as [| t rest] eqn:Hrev.
  - exfalso. apply Hne. rewrite <- (rev_involutive segs), Hrev. reflexivity.
  - now exists t.
Qed.


(** A curve with a segment never raises. *)
Lemma call_total (f : ContinuousPiecewiseFunction F) (x : F) :
  has_segments f = true -> exists v, __call__ f x = Ok v.
Proof.
  unfold has_segments, __call__. intros Hsegs.
  destruct (find_segment (segments f) x) as [s |]; [now eexists |].
  destruct (last_segment_exists (segments f)) as [s Hs].
  - destruct (segments f); [discriminate | congruence].
  - rewrite Hs. now eexists.
Qed.


Lemma all_curves_curve_of (P : ContinuousPiecewiseFunction F -> bool)
    (category : string) (f : ContinuousPiecewiseFunction F) :
  all_curves P = true -> curve_of category = Some f -> P f = true.
Proof.
  unfold all_curves, curve_of.
  destruct DOUYIN_FUNCTIONS as [functions | e]; [| discriminate].
  intros Hall Hget. rewrite forallb_forall in Hall.
  apply (Hall (category, f)). now apply dict_get_In.
Qed.

(** [get_price] for a category with a curve and a coefficient row. *)
Lemma get_price_known (platform category : string) (x : F) (kwargs : dict bool)
    (f : ContinuousPiecewiseFunction F) (c b : F) :
  curve_of category = Some f ->
  coefficient platform category = Some c ->
  __call__ f x = Ok b ->
  base_price category x = Ok b
  /\ get_price platform category x kwargs
     = Ok (with_bonus category kwargs b * c)%py.
Proof.
  unfold curve_of, coefficient, base_price, get_price.
  destruct DOUYIN_FUNCTIONS as [functions | e]; [| discriminate].
  cbn [bind]. intros ->.
  destruct (dict_get category COEFF_MATRIX) as [coeffs |]; [| discriminate].
  intros Hcoeff Hcall. injection Hcoeff as <-.
  rewrite Hcall. cbn [bind]. split; reflexivity.
Qed.

End CurveFacts.

(** ** Facts about the tables *)

Lemma dict_get_map {V W : Type} (g : V -> W) (k : string) (d : dict V) :
  dict_get k (map (fun e => (fst e, g (snd e))) d) = option_map g (dict_get k d).
Proof.
  induction d as [| [k' v] d IH]; simpl; [reflexivity |].
  destruct (String.eqb k k'); [reflexivity | exact IH].
Qed.

Lemma dict_get_keys_some {V : Type} (k : string) (d : dict V) :
  In k (dict_keys d) -> exists v, dict_get k d = Some v.
Proof.
  intros Hin. destruct (dict_get k d) as [v |] eqn:Hget; [now exists v |].
  exfalso. now apply (dict_get_keys k d Hget).
Qed.

(** The coefficient [get_price] applies, read off the literal table. *)
Lemma coefficient_literal {F : Type} `{PyFloat F} (platform category : string) :
  coefficient (F := F) platform category
  = match dict_get category COEFF_MATRIX_literal with
    | Some row =>
        Some match dict_get platform row with
             | Some q => lit q
             | None => lit 1.0%Q
             end
    | None => None
    end.
Proof.
  unfold coefficient, COEFF_MATRIX.
  induction COEFF_MATRIX_literal as [| [name row] table IH]; simpl;
    [reflexivity |].
  destruct (String.eqb category name); [| exact IH].
  unfold dict_get_default. rewrite (dict_get_map lit).
  now destruct (dict_get platform row).
Qed.

Lemma reference_rows : forallb reference_row categories = true.
Proof. vm_compute. reflexivity. Qed.

(** Every category has a row; the reference platform's entry is 1. *)
Lemma coefficient_reference {F : Type} `{PyFloat F} (category : string) :
  In category categories ->
  coefficient (F := F) reference_platform category = Some (lit 1%Q).
Proof.
  intros Hin. pose proof reference_rows as Hrows.
  rewrite forallb_forall in Hrows. specialize (Hrows category Hin).
  unfold reference_row in Hrows. rewrite coefficient_literal.
  destruct (dict_get category COEFF_MATRIX_literal) as [row |]; [| discriminate].
  destruct (dict_get reference_platform row) as [[[| [p | p |] | p] [d | d |]] |];
    try discriminate.
  reflexivity.
Qed.

Lemma coefficient_known {F : Type} `{PyFloat F} (platform category : string) :
  In category categories ->
  exists c, coefficient (F := F) platform category = Some c.
Proof.
  intros Hin. pose proof reference_rows as Hrows.
  rewrite forallb_forall in Hrows. specialize (Hrows category Hin).
  unfold reference_row in Hrows. rewrite coefficient_literal.
  destruct (dict_get category COEFF_MATRIX_literal) as [row |]; [| discriminate].
  now eexists.
Qed.

(** A platform absent from the category's row gets the default 1.0. *)
Lemma coefficient_default {F : Type} `{PyFloat F} (platform category : string)
    (row : dict Q) :
  dict_get category COEFF_MATRIX_literal = Some row ->
  dict_get platform row = None ->
  coefficient (F := F) platform category = Some (lit 1.0%Q).
Proof.
  intros Hrow Hnone. rewrite coefficient_literal, Hrow, Hnone. reflexivity.
Qed.

Lemma curve_of_known_exact (category : string) :
  In category categories ->
  exists f : ContinuousPiecewiseFunction Q, curve_of category = Some f.
Proof.
  intros Hin. unfold curve_of.
  destruct DOUYIN_FUNCTIONS_loaded_exact as [functions [-> Hkeys]].
  apply dict_get_keys_some. now rewrite Hkeys.
Qed.

Lemma curve_of_known_binary64 (category : string) :
  In category categories ->
  exists f : ContinuousPiecewiseFunction Binary64.float, curve_of category = Some f.
Proof.
  intros Hin. unfold curve_of.
  destruct DOUYIN_FUNCTIONS_loaded_binary64 as [functions [-> Hkeys]].
  apply dict_get_keys_some. now rewrite Hkeys.
Qed.

Lemma curve_of_unknown {F : Type} (category : string)
    (functions : dict (ContinuousPiecewiseFunction F)) :
  dict_keys functions = categories ->
  ~ In category categories ->
  dict_get category functions = None.
Proof.
  intros Hkeys Hnot. apply dict_get_None. now rewrite Hkeys.
Qed.

Lemma curves_have_segments_exact : all_curves (F := Q) has_segments = true.
Proof. vm_compute. reflexivity. Qed.

Lemma curves_have_segments_binary64 :
  all_curves (F := Binary64.float) has_segments = true.
Proof. vm_compute. reflexivity. Qed.



(** The price of a known category, in either arithmetic: the base price
    exists, and [get_price] is the base price, with its bonus, times the
    coefficient. *)
Lemma get_price_exact (platform category : string) (x : Q) (kwargs : dict bool) :
  In category categories ->
  exists b c : Q,
    base_price category x = Ok b
    /\ coefficient platform category = Some c
    /\ get_price platform category x kwargs
       = Ok (with_bonus category kwargs b * c)%py.
Proof.
  intros Hin.
  destruct (curve_of_known_exact category Hin) as [f Hf].
  destruct (coefficient_known (F := Q) platform category Hin) as [c Hc].
  destruct (call_total f x) as [b Hb].
  - exact (all_curves_curve_of _ _ _ curves_have_segments_exact Hf).
  - exists b, c.
    destruct (get_price_known platform category x kwargs f c b Hf Hc Hb)
      as [Hbase Hprice].
    now repeat split.
Qed.

Lemma get_price_binary64 (platform category : string) (x : Binary64.float)
    (kwargs : dict bool) :
  In category categories ->
  exists b c : Binary64.float,
    base_price category x = Ok b
    /\ coefficient platform category = Some c
    /\ get_price platform category x kwargs
       = Ok (with_bonus category kwargs b * c)%py.
Proof.
  intros Hin.
  destruct (curve_of_known_binary64 category Hin) as [f Hf].
  destruct (coefficient_known (F := Binary64.float) platform category Hin)
    as [c Hc].
  destruct (call_total f x) as [b Hb].
  - exact (all_curves_curve_of _ _ _ curves_have_segments_binary64 Hf).
  - exists b, c.
    destruct (get_price_known platform category x kwargs f c b Hf Hc Hb)
      as [Hbase Hprice].
    now repeat split.
Qed.

(** ** C1: negative follower counts *)

(** C1, as stated, fails: at -1 followers [get_price] raises nothing; for
    "三农" on "抖音" it returns 147999.9864, the top segment extrapolated
    downwards (the double nearest to it in binary64). *)
Lemma C1_negative_followers_are_priced :
  (exists p : Q,
      get_price reference_platform "三农" (-1)%Q [] = Ok p
      /\ (p == 147999.9864)%Q)
  /\ get_price reference_platform "三农" (-1)%float [] = Ok (lit 147999.9864%Q).
Proof.
  split.
  - eexists. split; vm_compute; reflexivity.
  - vm_compute. reflexivity.
Qed.

(** C1, amended.  Neither [get_price] nor the curve evaluation under it
    validates the sign of the follower count: for each of the 32
    categories, every platform name and every follower count, negative
    ones included, the curve returns a base price and [get_price] returns
    a price; nothing is raised. *)
Theorem C1_get_price_does_not_validate_sign :
  forall (platform category : string) (kwargs : dict bool),
    In category categories ->
    (forall x : Q,
        exists b p : Q,
          base_price category x = Ok b
          /\ get_price platform category x kwargs = Ok p)
    /\ (forall x : Binary64.float,
          exists b p : Binary64.float,
            base_price category x = Ok b
            /\ get_price platform category x kwargs = Ok p).
Proof.
  intros platform category kwargs Hin. split; intros x.
  - destruct (get_price_exact platform category x kwargs Hin)
      as [b [c [Hbase [_ Hprice]]]].
    exists b. eexists. split; [exact Hbase | exact Hprice].
  - destruct (get_price_binary64 platform category x kwargs Hin)
      as [b [c [Hbase [_ Hprice]]]].
    exists b. eexists. split; [exact Hbase | exact Hprice].
Qed.

Lemma C1_get_price_does_not_validate_sign_witness :
  In "三农" categories
  /\ (exists b p : Q,
         base_price "三农" (-5000)%Q = Ok b
         /\ get_price "快手" "三农" (-5000)%Q [] = Ok p)
  /\ (exists b p : Binary64.float,
         base_price "三农" (-5000)%float = Ok b
         /\ get_price "快手" "三农" (-5000)%float [] = Ok p).
Proof.
  assert (Hin : In "三农" categories) by (simpl; tauto).
  split; [exact Hin |].
  destruct (C1_get_price_does_not_validate_sign "快手" "三农" [] Hin)
    as [Hexact Hdouble].
  split; [apply Hexact | apply Hdouble].
Defined.

(** ** C5: the reference platform is neutral *)

(** C5.  The rows of the coefficient matrix are the 32 categories.  For
    each of them the coefficient of "抖音" is 1, and for every follower
    count (so for every one >= 0) the price on "抖音" equals the category's
    base price: as rationals, and as the same double in binary64. *)
Theorem C5_reference_platform_is_neutral :
  dict_keys COEFF_MATRIX_literal = categories
  /\ forall category : string,
       In category categories ->
       coefficient (F := Q) reference_platform category = Some 1%Q
       /\ coefficient (F := Binary64.float) reference_platform category
          = Some 1%float
       /\ (forall x : Q,
             exists b p : Q,
               base_price category x = Ok b
               /\ get_price reference_platform category x [] = Ok p
               /\ (p == b)%Q)
       /\ (forall x : Binary64.float,
             exists b : Binary64.float,
               base_price category x = Ok b
               /\ get_price reference_platform category x [] = Ok b).
Proof.
  split; [reflexivity |].
  intros category Hin.
  pose proof (coefficient_reference (F := Q) category Hin) as HcQ.
  pose proof (coefficient_reference (F := Binary64.float) category Hin) as HcB.
  split; [| split; [| split]].
  - exact HcQ.
  - exact HcB.
  - intros x.
    destruct (get_price_exact reference_platform category x [] Hin)
      as [b [c [Hbase [Hc Hprice]]]].
    rewrite HcQ in Hc. injection Hc as <-.
    exists b. eexists. split; [exact Hbase | split; [exact Hprice |]].
    unfold with_bonus, dict_get_default. simpl dict_get.
    rewrite andb_false_r. simpl. apply Qmult_1_r.
  - intros x.
    destruct (get_price_binary64 reference_platform category x [] Hin)
      as [b [c [Hbase [Hc Hprice]]]].
    rewrite HcB in Hc. injection Hc as <-.
    exists b. split; [exact Hbase |].
    rewrite Hprice. unfold with_bonus, dict_get_default. simpl dict_get.
    rewrite andb_false_r. simpl fmul.
    change (Binary64.of_Q 1) with 1%float.
    now rewrite binary64_mul_one_r.
Qed.

Lemma C5_reference_platform_is_neutral_witness :
  In "美妆" categories
  /\ exists b p : Q,
       base_price "美妆" 123456%Q = Ok b
       /\ get_price reference_platform "美妆" 123456%Q [] = Ok p
       /\ (p == b)%Q.
Proof.
  assert (Hin : In "美妆" categories) by (simpl; tauto).
  split; [exact Hin |].
  destruct C5_reference_platform_is_neutral as [_ Hneutral].
  destruct (Hneutral "美妆" Hin) as [_ [_ [Hexact _]]].
  apply Hexact.
Defined.

(** ** C6: unknown category, unknown platform *)

(** C6.  A category absent from the curve table makes [get_price] raise
    [ValueError] (the unsupported-category error), whatever the platform
    and the follower count.  A platform absent from the row of a known
    category raises nothing: the coefficient is the default 1.0, and the
    price is the base price (with its bonus) times 1.0. *)
Theorem C6_asymmetric_lookup :
  (forall (platform category : string) (kwargs : dict bool),
      ~ In category categories ->
      (forall x : Q,
          get_price platform category x kwargs
          = Raise (ValueError ("不支持的标签：" ++ category)))
      /\ (forall x : Binary64.float,
            get_price platform category x kwargs
            = Raise (ValueError ("不支持的标签：" ++ category))))
  /\ (forall (platform category : string) (kwargs : dict bool) (row : dict Q),
        In category categories ->
        dict_get category COEFF_MATRIX_literal = Some row ->
        dict_get platform row = None ->
        (forall x : Q,
            exists b p : Q,
              base_price category x = Ok b
              /\ get_price platform category x kwargs = Ok p
              /\ p = (with_bonus category kwargs b * lit 1.0%Q)%py
              /\ (p == with_bonus category kwargs b)%Q)
        /\ (forall x : Binary64.float,
              exists b : Binary64.float,
                base_price category x = Ok b
                /\ get_price platform category x kwargs
                   = Ok (with_bonus category kwargs b))).
Proof.
  split.
  - intros platform category kwargs Hnot. split; intros x; unfold get_price.
    + destruct DOUYIN_FUNCTIONS_loaded_exact as [functions [Hload Hkeys]].
      rewrite Hload. cbn [bind].
      now rewrite (curve_of_unknown category functions Hkeys Hnot).
    + destruct DOUYIN_FUNCTIONS_loaded_binary64 as [functions [Hload Hkeys]].
      rewrite Hload. cbn [bind].
      now rewrite (curve_of_unknown category functions Hkeys Hnot).
  - intros platform category kwargs row Hin Hrow Hnone. split; intros x.
    + destruct (get_price_exact platform category x kwargs Hin)
        as [b [c [Hbase [Hc Hprice]]]].
      rewrite (coefficient_default platform category row Hrow Hnone) in Hc.
      injection Hc as <-.
      exists b. eexists.
      split; [exact Hbase | split; [exact Hprice | split; [reflexivity |]]].
      simpl. setoid_replace (1.0)%Q with 1%Q by reflexivity. apply Qmult_1_r.
    + destruct (get_price_binary64 platform category x kwargs Hin)
        as [b [c [Hbase [Hc Hprice]]]].
      rewrite (coefficient_default platform category row Hrow Hnone) in Hc.
      injection Hc as <-.
      exists b. split; [exact Hbase |].
      rewrite Hprice. simpl fmul.
      change (lit 1.0%Q) with 1%float.
      now rewrite binary64_mul_one_r.
Qed.

Lemma C6_asymmetric_lookup_witness :
  (~ In "编程" categories
   /\ get_price "抖音" "编程" 100000%Q []
      = Raise (ValueError ("不支持的标签：" ++ "编程")))
  /\ (In "游戏" categories
      /\ dict_get "游戏" COEFF_MATRIX_literal
         = Some [("小红书", 0.5%Q); ("B站", 2.0%Q); ("快手", 0.7%Q); ("抖音", 1%Q)]
      /\ dict_get "微博" [("小红书", 0.5%Q); ("B站", 2.0%Q); ("快手", 0.7%Q); ("抖音", 1%Q)]
         = None
      /\ exists b : Binary64.float,
           base_price "游戏" 100000%float = Ok b
           /\ get_price "微博" "游戏" 100000%float [] = Ok (with_bonus "游戏" [] b)).
Proof.
  assert (Hnot : ~ In "编程" categories).
  { simpl. intros Hin.
    repeat (destruct Hin as [Heq | Hin]; [discriminate Heq |]).
    exact Hin. }
  assert (Hin : In "游戏" categories) by (simpl; tauto).
  destruct C6_asymmetric_lookup as [Hcategory Hplatform].
  split.
  - split; [exact Hnot |].
    apply (Hcategory "抖音" "编程" [] Hnot).
  - split; [exact Hin |].
    split; [reflexivity |].
    split; [reflexivity |].
    apply (Hplatform "微博" "游戏" [] _ Hin eq_refl eq_refl).
Defined.

(** ** C9: inputs outside every interval *)

Lemma base_price_curve_of {F : Type} `{PyFloat F} (category : string) (x : F)
    (f : ContinuousPiecewiseFunction F) :
  curve_of category = Some f -> base_price category x = __call__ f x.
Proof.
  unfold curve_of, base_price.
  destruct DOUYIN_FUNCTIONS as [functions | e]; [| discriminate].
  cbn [bind]. now intros ->.
Qed.





Section OutsideTheGrid.

Context {F : Type} `{PyFloat F} `{!FloatOrder F}.


End OutsideTheGrid.




(** ** C4: continuity at the shared boundaries *)

Lemma py_div_exact (a b q : Q) :
  py_div a b = Ok q -> ~ (b == 0)%Q /\ q = (a / b)%Q.
Proof.
  unfold py_div. simpl.
  destruct (Qeq_bool b 0) eqn:Hzero; [discriminate |].
  intros Heq. injection Heq as <-. split; [| reflexivity].
  intros Hb. apply Qeq_bool_iff in Hb. congruence.
Qed.

(** The first segment built from a list interpolates its first two
    breakpoints; the others are built from the tail. *)
Lemma init_segments_cons (p q : Q * Q) (rest : list (Q * Q))
    (segs : list (segment Q)) :
  init_segments (p :: q :: rest) = Ok segs ->
  exists s segs',
    segs = s :: segs'
    /\ interpolates s p q
    /\ init_segments (q :: rest) = Ok segs'.
Proof.
  destruct p as [x1 y1], q as [x2 y2].
  change (init_segments ((x1, y1) :: (x2, y2) :: rest))
    with (slope <- py_div (y2 - y1)%py (x2 - x1)%py ;;
          segs <- init_segments ((x2, y2) :: rest) ;;
          Ok (Segment x1 x2 slope (y1 - slope * x1)%py :: segs)).
  intros Hinit.
  apply bind_Ok in Hinit. destruct Hinit as [slope [Hslope Hinit]].
  apply bind_Ok in Hinit. destruct Hinit as [segs' [Hrest Hinit]].
  injection Hinit as <-.
  apply py_div_exact in Hslope. destruct Hslope as [Hgap ->].
  eexists. exists segs'. split; [reflexivity |].
  split; [| exact Hrest].
  unfold interpolates, eval_segment. simpl in *.
  repeat split; try reflexivity.
  - ring.
  - field. exact Hgap.
Qed.

Lemma init_segments_join (bps : list (Q * Q)) (segs : list (segment Q)) :
  init_segments bps = Ok segs -> joins_exactly segs.
Proof.
  revert segs. induction bps as [| p bps IH]; intros segs Hinit.
  - injection Hinit as <-. exact I.
  - destruct bps as [| q rest].
    + destruct p. injection Hinit as <-. exact I.
    + destruct (init_segments_cons p q rest segs Hinit)
        as [s [segs' [-> [Hs Hrest]]]].
      pose proof (IH segs' Hrest) as Hjoin.
      destruct rest as [| r rest'].
      * destruct q. injection Hrest as <-. exact I.
      * destruct (init_segments_cons q r rest' segs' Hrest)
          as [t [segs'' [-> [Ht _]]]].
        destruct Hs as [_ [Hend [_ Hright]]].
        destruct Ht as [Hstart [_ [Hleft _]]].
        simpl. split; [congruence | split; [| exact Hjoin]].
        rewrite Hend, Hstart, Hright, Hleft. reflexivity.
Qed.

Lemma joins_exactly_nth (segs : list (segment Q)) (i : nat) (s t : segment Q) :
  joins_exactly segs ->
  nth_error segs i = Some s ->
  nth_error segs (S i) = Some t ->
  seg_end s = seg_start t
  /\ (eval_segment s (seg_end s) == eval_segment t (seg_start t))%Q.
Proof.
  revert i. induction segs as [| a segs IH]; intros i Hjoin Hs Ht.
  - destruct i; discriminate.
  - destruct segs as [| b segs']; [destruct i; discriminate |].
    destruct Hjoin as [Hend [Hval Hrest]].
    destruct i as [| i].
    + injection Hs as <-. injection Ht as <-. now split.
    + apply (IH i Hrest Hs Ht).
Qed.

Lemma joins_within_nth (tol : Binary64.float)
    (segs : list (segment Binary64.float)) (i : nat)
    (s t : segment Binary64.float) :
  joins_within tol segs = true ->
  nth_error segs i = Some s ->
  nth_error segs (S i) = Some t ->
  seg_end s = seg_start t
  /\ close_to tol (eval_segment s (seg_end s)) (eval_segment t (seg_start t))
     = true.
Proof.
  revert i. induction segs as [| a segs IH]; intros i Hjoin Hs Ht.
  - destruct i; discriminate.
  - destruct segs as [| b segs']; [destruct i; discriminate |].
    cbn [joins_within] in Hjoin.
    apply andb_true_iff in Hjoin. destruct Hjoin as [Hjoin Hrest].
    apply andb_true_iff in Hjoin. destruct Hjoin as [Hend Hval].
    destruct i as [| i].
    + injection Hs as <-. injection Ht as <-.
      split; [now apply Leibniz.eqb_spec | exact Hval].
    + apply (IH i Hrest Hs Ht).
Qed.

Lemma dict_set_In {V : Type} (k k' : string) (v v' : V) (d : dict V) :
  In (k, v) (dict_set k' v' d) -> (k, v) = (k', v') \/ In (k, v) d.
Proof.
  induction d as [| [k0 v0] d IH]; simpl.
  - intros [Heq | []]. left. now symmetry.
  - destruct (String.eqb k' k0); simpl.
    + intros [Heq | Hin]; [left; now symmetry | right; now right].
    + intros [Heq | Hin]; [right; now left |].
      destruct (IH Hin) as [Hnew | Hold]; [now left | right; now right].
Qed.

(** Every curve of a built table was constructed by [__init__] from one
    of the breakpoint lists. *)
Lemma build_functions_init {F : Type} `{PyFloat F}
    (tables : dict (list (Q * Q)))
    (acc functions : dict (ContinuousPiecewiseFunction F))
    (name : string) (f : ContinuousPiecewiseFunction F) :
  build_functions tables acc = Ok functions ->
  In (name, f) functions ->
  In (name, f) acc
  \/ exists bps, In (name, bps) tables /\ __init__ (read_breakpoints bps) = Ok f.
Proof.
  revert acc. induction tables as [| [name' bps'] tables IH]; intros acc; simpl.
  - intros Heq. injection Heq as <-. now left.
  - intros Hbuild Hin.
    apply bind_Ok in Hbuild. destruct Hbuild as [g [Hg Hbuild]].
    destruct (IH _ Hbuild Hin) as [Hacc | [bps [Hbps Hinit]]].
    + destruct (dict_set_In _ _ _ _ _ Hacc) as [Heq | Hold].
      * injection Heq as -> ->. right. exists bps'. split; [now left | exact Hg].
      * now left.
    + right. exists bps. split; [now right | exact Hinit].
Qed.

Lemma curve_of_init {F : Type} `{PyFloat F} (category : string)
    (f : ContinuousPiecewiseFunction F) :
  curve_of category = Some f ->
  exists bps,
    In (category, bps) douyin_breakpoints
    /\ __init__ (read_breakpoints bps) = Ok f.
Proof.
  unfold curve_of, DOUYIN_FUNCTIONS, build_douyin_functions.
  destruct (build_functions douyin_breakpoints []) as [functions | e] eqn:Hbuild;
    [| discriminate].
  intros Hget. apply dict_get_In in Hget.
  destruct (build_functions_init _ _ _ _ _ Hbuild Hget) as [[] | Hinit].
  exact Hinit.
Qed.

Lemma curves_six_segments_exact :
  all_curves (F := Q) (fun f => Nat.eqb (List.length (segments f)) 6) = true.
Proof. vm_compute. reflexivity. Qed.

Lemma curves_six_segments_binary64 :
  all_curves (F := Binary64.float)
    (fun f => Nat.eqb (List.length (segments f)) 6) = true.
Proof. vm_compute. reflexivity. Qed.

Lemma curves_join_binary64 :
  all_curves (F := Binary64.float)
    (fun f => joins_within tolerance (segments f)) = true.
Proof. vm_compute. reflexivity. Qed.

(** C4.  Each of the 32 categories has a curve of six segments, so five
    shared boundaries.  In exact arithmetic, any curve that [__init__]
    builds is continuous: two adjacent segments share their boundary, and
    their lines take the same value there (the price of the shared
    breakpoint).  So it is for the 32 category curves; in binary64 the two
    values of each of the 32 curves differ by at most 1e-6 at every shared
    boundary. *)
Theorem C4_adjacent_segments_agree :
  (forall category : string,
      In category categories ->
      (exists f : ContinuousPiecewiseFunction Q,
          curve_of category = Some f /\ List.length (segments f) = 6%nat)
      /\ (exists f : ContinuousPiecewiseFunction Binary64.float,
            curve_of category = Some f /\ List.length (segments f) = 6%nat))
  /\ (forall (breakpoints : list (Q * Q)) (f : ContinuousPiecewiseFunction Q)
          (i : nat) (s t : segment Q),
      __init__ breakpoints = Ok f ->
      nth_error (segments f) i = Some s ->
      nth_error (segments f) (S i) = Some t ->
      seg_end s = seg_start t
      /\ (eval_segment s (seg_end s) == eval_segment t (seg_start t))%Q)
  /\ (forall (category : string) (f : ContinuousPiecewiseFunction Q)
             (i : nat) (s t : segment Q),
        curve_of category = Some f ->
        nth_error (segments f) i = Some s ->
        nth_error (segments f) (S i) = Some t ->
        seg_end s = seg_start t
        /\ (eval_segment s (seg_end s) == eval_segment t (seg_start t))%Q)
  /\ (forall (category : string) (f : ContinuousPiecewiseFunction Binary64.float)
             (i : nat) (s t : segment Binary64.float),
        curve_of category = Some f ->
        nth_error (segments f) i = Some s ->
        nth_error (segments f) (S i) = Some t ->
        seg_end s = seg_start t
        /\ close_to tolerance
             (eval_segment s (seg_end s)) (eval_segment t (seg_start t))
           = true).
Proof.
  assert (Hgeneral :
    forall (breakpoints : list (Q * Q)) (f : ContinuousPiecewiseFunction Q),
      __init__ breakpoints = Ok f -> joins_exactly (segments f)).
  { intros breakpoints f Hinit. unfold __init__ in Hinit.
    apply bind_Ok in Hinit. destruct Hinit as [segs [Hsegs Hf]].
    injection Hf as <-. simpl. now apply (init_segments_join breakpoints). }
  split; [| split; [| split]].
  - intros category Hin. split.
    + destruct (curve_of_known_exact category Hin) as [f Hf].
      exists f. split; [exact Hf |].
      apply Nat.eqb_eq.
      exact (all_curves_curve_of _ _ _ curves_six_segments_exact Hf).
    + destruct (curve_of_known_binary64 category Hin) as [f Hf].
      exists f. split; [exact Hf |].
      apply Nat.eqb_eq.
      exact (all_curves_curve_of _ _ _ curves_six_segments_binary64 Hf).
  - intros breakpoints f i s t Hinit.
    apply joins_exactly_nth. now apply (Hgeneral breakpoints).
  - intros category f i s t Hf.
    destruct (curve_of_init category f Hf) as [bps [_ Hinit]].
    apply joins_exactly_nth. now apply (Hgeneral (read_breakpoints bps)).
  - intros category f i s t Hf.
    apply joins_within_nth.
    exact (all_curves_curve_of _ _ _ curves_join_binary64 Hf).
Qed.

Lemma C4_adjacent_segments_agree_witness :
  exists (f : ContinuousPiecewiseFunction Binary64.float)
         (s t : segment Binary64.float),
    curve_of "三农" = Some f
    /\ nth_error (segments f) 1 = Some s
    /\ nth_error (segments f) 2 = Some t
    /\ seg_end s = seg_start t
    /\ close_to tolerance
         (eval_segment s (seg_end s)) (eval_segment t (seg_start t))
       = true.
Proof.
  destruct (curve_of (F := Binary64.float) "三农") as [f |] eqn:Hf;
    [| vm_compute in Hf; discriminate].
  destruct (nth_error (segments f) 1) as [s |] eqn:Hs;
    [| vm_compute in Hf; injection Hf as <-; discriminate].
  destruct (nth_error (segments f) 2) as [t |] eqn:Ht;
    [| vm_compute in Hf; injection Hf as <-; discriminate].
  exists f, s, t.
  split; [reflexivity | split; [exact Hs | split; [exact Ht |]]].
  destruct C4_adjacent_segments_agree as [_ [_ [_ Hdouble]]].
  exact (Hdouble "三农" f 1%nat s t Hf Hs Ht).
Defined.

(** ** C2: what construction checks *)

Section Construction.

Context {F : Type} `{PyFloat F}.

Lemma init_segments_gap (breakpoints : list (F * F)) :
  if has_zero_gap breakpoints
  then init_segments breakpoints = Raise ZeroDivisionError
  else exists segs,
         init_segments breakpoints = Ok segs
         /\ List.length segs = pred (List.length breakpoints).
Proof.
  induction breakpoints as [| [x1 y1] rest IH]; simpl.
  - now exists [].
  - destruct rest as [| [x2 y2] rest'].
    + now exists [].
    + unfold py_div.
      destruct ((x2 - x1)%py =? lit 0%Q)%py; [reflexivity |].
      cbn [orb bind].
      destruct (has_zero_gap ((x2, y2) :: rest')).
      * now rewrite IH.
      * destruct IH as [segs [-> Hlen]]. cbn [bind].
        eexists. split; [reflexivity |].
        simpl. now rewrite Hlen.
Qed.

End Construction.

Lemma has_zero_gap_exact (breakpoints : list (Q * Q)) :
  has_zero_gap breakpoints = true
  <-> exists (i : nat) (p q : Q * Q),
        nth_error breakpoints i = Some p
        /\ nth_error breakpoints (S i) = Some q
        /\ (fst p == fst q)%Q.
Proof.
  induction breakpoints as [| [x1 y1] rest IH].
  - split; [discriminate |].
    intros [i [p [q [Hp _]]]]. destruct i; simpl in Hp; discriminate Hp.
  - destruct rest as [| [x2 y2] rest'].
    + split; [discriminate |].
      intros [i [p [q [_ [Hq _]]]]].
      destruct i as [| [| i]]; simpl in Hq; discriminate Hq.
    + change (has_zero_gap ((x1, y1) :: (x2, y2) :: rest'))
        with (Qeq_bool (x2 - x1) 0 || has_zero_gap ((x2, y2) :: rest')).
      rewrite orb_true_iff, IH. split.
      * intros [Hgap | [i [p [q [Hp [Hq Heq]]]]]].
        -- exists 0%nat, (x1, y1), (x2, y2).
           split; [reflexivity | split; [reflexivity |]].
           apply Qeq_bool_iff in Hgap. simpl.
           apply Qplus_inj_r with (z := (- x1)%Q).
           rewrite Qplus_opp_r. symmetry. exact Hgap.
        -- exists (S i), p, q. now split.
      * intros [[| i] [p [q [Hp [Hq Heq]]]]].
        -- left. injection Hp as <-. injection Hq as <-. simpl in Heq.
           apply Qeq_bool_iff. rewrite Heq. unfold Qminus. apply Qplus_opp_r.
        -- right. exists i, p, q. now split.
Qed.

(** C2, as stated, fails: construction accepts the empty list, a single
    breakpoint (both give a curve with no segment) and decreasing x-values;
    only equal neighbours make it fail, with [ZeroDivisionError]. *)
Lemma C2_construction_accepts_malformed_breakpoints :
  __init__ (F := Q) [] = Ok (Curve [])
  /\ __init__ [(5, 100)]%Q = Ok (Curve [])
  /\ __init__ [(10, 100); (0, 200)]%float
     = Ok (Curve [Segment 10 0 (-10) 200])%float
  /\ __init__ [(1, 2); (1, 3)]%Q = Raise ZeroDivisionError.
Proof. repeat split; vm_compute; reflexivity. Qed.

(** C2, amended.  [__init__] validates nothing.  It builds one segment per
    pair of neighbouring breakpoints (none for fewer than 2 breakpoints)
    whenever no two neighbouring x-values have a zero difference, whatever
    their order; otherwise it raises [ZeroDivisionError].  In exact
    arithmetic the difference is zero exactly when two neighbours have the
    same x-value. *)
Theorem C2_construction_fails_only_on_equal_neighbours :
  (forall (F : Type) (PF : PyFloat F) (breakpoints : list (F * F)),
      (has_zero_gap breakpoints = false ->
       exists f, __init__ breakpoints = Ok f
                 /\ List.length (segments f) = pred (List.length breakpoints))
      /\ (has_zero_gap breakpoints = true ->
          __init__ breakpoints = Raise ZeroDivisionError))
  /\ (forall breakpoints : list (Q * Q),
        has_zero_gap breakpoints = true
        <-> exists (i : nat) (p q : Q * Q),
              nth_error breakpoints i = Some p
              /\ nth_error breakpoints (S i) = Some q
              /\ (fst p == fst q)%Q).
Proof.
  split; [| exact has_zero_gap_exact].
  intros F PF breakpoints.
  pose proof (init_segments_gap breakpoints) as Hgap. unfold __init__.
  split; intros Hzero; rewrite Hzero in Hgap.
  - destruct Hgap as [segs [-> Hlen]]. cbn [bind].
    exists (Curve segs). now split.
  - now rewrite Hgap.
Qed.

Lemma C2_construction_fails_only_on_equal_neighbours_witness :
  (has_zero_gap [(300000, 15200); (60000, 6800); (0, 200)]%Q = false
   /\ exists f, __init__ [(300000, 15200); (60000, 6800); (0, 200)]%Q = Ok f
                /\ List.length (segments f) = 2%nat)
  /\ (has_zero_gap [(0, 200); (60000, 6800); (60000, 7000)]%float = true
      /\ __init__ [(0, 200); (60000, 6800); (60000, 7000)]%float
         = Raise ZeroDivisionError).
Proof.
  destruct C2_construction_fails_only_on_equal_neighbours as [Hinit _].
  split.
  - split; [reflexivity |].
    apply (Hinit Q _ [(300000, 15200); (60000, 6800); (0, 200)]%Q).
    reflexivity.
  - split; [reflexivity |].
    apply (Hinit Binary64.float _
             [(0, 200); (60000, 6800); (60000, 7000)]%float).
    reflexivity.
Defined.

(** ** The ad-count matrix *)

Section AdCounts.

Context {F : Type} `{PyFloat F}.

Lemma get_fan_range_In (fans : F) : In (get_fan_range fans) fan_ranges.
Proof.
  unfold get_fan_range, fan_ranges.
  repeat match goal with
         | |- context [if ?b then _ else _] => destruct b
         end;
    simpl; tauto.
Qed.

Lemma get_expected_ad_count_range (platform label : string) (fans : F) :
  get_expected_ad_count platform label fans
  = expected_in_range platform label (get_fan_range fans).
Proof. reflexivity. Qed.

End AdCounts.

(** Every cell of the matrix holds a positive count. *)
Lemma matrix_complete :
  forallb
    (fun r =>
       forallb (fun p => forallb (has_count r p) valid_labels) valid_platforms)
    fan_ranges
  = true.
Proof. vm_compute. reflexivity. Qed.

(** For a valid platform and label the expected count is found, whatever
    the follower count, and is positive. *)
Lemma get_expected_ad_count_valid {F : Type} `{PyFloat F}
    (platform label : string) (fans : F) :
  In platform valid_platforms ->
  In label valid_labels ->
  exists n : Z,
    get_expected_ad_count platform label fans = Ok n /\ 0 < n.
Proof.
  intros Hp Hl. rewrite get_expected_ad_count_range.
  pose proof matrix_complete as Hall.
  rewrite forallb_forall in Hall.
  specialize (Hall _ (get_fan_range_In fans)).
  rewrite forallb_forall in Hall. specialize (Hall _ Hp).
  rewrite forallb_forall in Hall. specialize (Hall _ Hl).
  unfold has_count in Hall.
  destruct (expected_in_range platform label (get_fan_range fans)) as [n | e];
    [| discriminate].
  exists n. split; [reflexivity | now apply Z.ltb_lt].
Qed.

(** ** C7: the development ratio *)

Lemma round_half_even_near (x : Q) :
  (Qabs (inject_Z (Exact.round_half_even x) - x) <= 1 # 2)%Q.
Proof.
  unfold Exact.round_half_even.
  pose proof (Qfloor_le x) as Hlo.
  pose proof (Qlt_floor x) as Hhi.
  set (f := Qfloor x) in *.
  assert (Hup : (inject_Z (f + 1) == inject_Z f + 1)%Q)
    by (rewrite inject_Z_plus; reflexivity).
  rewrite Hup in Hhi.
  apply Qabs_case; intros _;
    destruct (Qcompare_spec (x - inject_Z f) (1 # 2)) as [Heq | Hlt | Hgt];
    try (destruct (Z.even f));
    rewrite ?Hup; lra.
Qed.

Lemma Qround_digits_2_near (x : Q) :
  (Qabs (Exact.Qround_digits x 2 - x) <= 1 # 200)%Q.
Proof.
  unfold Exact.Qround_digits.
  change (Z.pow 10 (Z.of_nat 2)) with 100.
  change (Z.to_pos 100) with 100%positive.
  pose proof (round_half_even_near (x * inject_Z 100)) as Hnear.
  set (n := Exact.round_half_even (x * inject_Z 100)) in *.
  assert (Hn : (n # 100 == inject_Z n * (1 # 100))%Q).
  { unfold Qeq, inject_Z. simpl. ring. }
  rewrite Hn.
  assert (H100 : (inject_Z 100 == 100)%Q) by reflexivity.
  rewrite H100 in Hnear.
  apply Qabs_Qle_condition in Hnear. apply Qabs_Qle_condition.
  destruct Hnear as [Hlow Hhigh]. split; lra.
Qed.

(** C7.  Let [expected] be the expected ad count that the matrix gives for
    the platform, the label and the follower count.  When it is 0,
    [calculate_development_ratio] returns 0 and raises nothing; otherwise
    it returns [round(actual_ads / expected, 2)].  In exact arithmetic that
    value is a multiple of 1/100 within 1/200 of the quotient; in binary64
    it is [round] of the double nearest to the quotient, an
    [OverflowError] being raised when the quotient is beyond the doubles. *)
Theorem C7_development_ratio :
  (forall (F : Type) (PF : PyFloat F) (platform label : string) (fans : F)
          (actual_ads expected : Z),
      get_expected_ad_count platform label fans = Ok expected ->
      (expected = 0 ->
       calculate_development_ratio platform label fans actual_ads = Ok (lit 0%Q))
      /\ (expected <> 0 ->
          calculate_development_ratio platform label fans actual_ads
          = (q <- int_truediv actual_ads expected ;; Ok (fround q 2))))
  /\ (forall (platform label : string) (fans : Q) (actual_ads expected : Z),
        get_expected_ad_count platform label fans = Ok expected ->
        expected <> 0 ->
        exists r : Q,
          calculate_development_ratio platform label fans actual_ads = Ok r
          /\ r = Exact.Qround_digits (inject_Z actual_ads / inject_Z expected) 2
          /\ (exists n : Z, r = Qmake n 100)
          /\ (Qabs (r - inject_Z actual_ads / inject_Z expected) <= 1 # 200)%Q)
  /\ (forall (platform label : string) (fans : Binary64.float)
             (actual_ads expected : Z),
        get_expected_ad_count platform label fans = Ok expected ->
        expected <> 0 ->
        calculate_development_ratio platform label fans actual_ads
        = let q := Binary64.of_Q (inject_Z actual_ads / inject_Z expected) in
          if PrimFloat.is_finite q then Ok (Binary64.round_digits q 2)
          else Raise OverflowError).
Proof.
  assert (Hgeneral :
    forall (F : Type) (PF : PyFloat F) (platform label : string) (fans : F)
           (actual_ads expected : Z),
      get_expected_ad_count platform label fans = Ok expected ->
      expected <> 0 ->
      calculate_development_ratio platform label fans actual_ads
      = (q <- int_truediv actual_ads expected ;; Ok (fround q 2))).
  { intros F PF platform label fans actual_ads expected Hexp Hnz.
    unfold calculate_development_ratio. rewrite Hexp. cbn [bind].
    apply Z.eqb_neq in Hnz. now rewrite Hnz. }
  split; [| split].
  - intros F PF platform label fans actual_ads expected Hexp. split.
    + intros ->. unfold calculate_development_ratio. rewrite Hexp. reflexivity.
    + now apply Hgeneral.
  - intros platform label fans actual_ads expected Hexp Hnz.
    rewrite (Hgeneral Q _ platform label fans actual_ads expected Hexp Hnz).
    simpl. unfold Exact.Qint_truediv.
    apply Z.eqb_neq in Hnz. rewrite Hnz. cbn [bind].
    eexists. split; [reflexivity | split; [reflexivity | split]].
    + eexists. unfold Exact.Qround_digits. reflexivity.
    + apply Qround_digits_2_near.
  - intros platform label fans actual_ads expected Hexp Hnz.
    rewrite (Hgeneral Binary64.float _ platform label fans actual_ads expected
               Hexp Hnz).
    simpl. unfold Binary64.int_div.
    apply Z.eqb_neq in Hnz. rewrite Hnz.
    now destruct (PrimFloat.is_finite _).
Qed.

Lemma C7_development_ratio_witness :
  (get_expected_ad_count "微博" "三农" 5%Q = Ok 0
   /\ calculate_development_ratio "微博" "三农" 5%Q 3 = Ok 0%Q)
  /\ (get_expected_ad_count "抖音" "三农" 5%float = Ok 8
      /\ 8 <> 0
      /\ calculate_development_ratio "抖音" "三农" 5%float 3 = Ok (lit 0.38%Q)).
Proof.
  destruct C7_development_ratio as [Hgeneral [_ Hdouble]].
  split.
  - split; [vm_compute; reflexivity |].
    assert (Hzero : get_expected_ad_count "微博" "三农" 5%Q = Ok 0)
      by (vm_compute; reflexivity).
    exact (proj1 (Hgeneral Q _ "微博" "三农" 5%Q 3 0 Hzero) eq_refl).
  - split; [vm_compute; reflexivity |].
    split; [discriminate |].
    assert (Height : get_expected_ad_count "抖音" "三农" 5%float = Ok 8)
      by (vm_compute; reflexivity).
    assert (Hnz : 8 <> 0) by discriminate.
    etransitivity; [exact (Hdouble "抖音" "三农" 5%float 3 8 Height Hnz) |].
    vm_compute. reflexivity.
Defined.

(** ** The projection: parameters and the loop *)

Section PredictorFacts.

Context {F : Type} `{PyFloat F}.

Variable np_sqrt : F -> F.
Variable np_log : F -> F.
Variable np_truediv : F -> F -> F.
Variable np_round : F -> nat -> F.

Lemma read_params_get (d : dict (Q * Q * Q)) (key : string) :
  dict_get key (read_params d)
  = option_map (fun t => let '(a, b, c) := t in (lit a, lit b, lit c))
               (dict_get key d).
Proof.
  induction d as [| [key' [[a b] c]] d IH]; simpl; [reflexivity |].
  destruct (String.eqb key key'); [reflexivity | exact IH].
Qed.

Lemma params_valid (d : dict (Q * Q * Q)) (key : string) :
  In key (dict_keys d) ->
  exists a b c : F, dict_get key (read_params d) = Some (a, b, c).
Proof.
  intros Hin. rewrite read_params_get.
  destruct (dict_get_keys_some key d Hin) as [[[a b] c] ->].
  simpl. now do 3 eexists.
Qed.

(** With an explicit price and a valid platform and label,
    [predict_value] is the loop over [years], started from the follower
    count in units of ten thousand. *)
Lemma predict_value_explicit (fans fans_in_wan s : F) (platform label : string)
    (years : list Z) (growth_rate : option F) :
  In platform valid_platforms ->
  In label valid_labels ->
  py_div fans (lit 10000%Q) = Ok fans_in_wan ->
  exists k alpha delta : F,
    predict_value np_sqrt np_log np_truediv np_round
      fans platform label (Some s) years growth_rate
    = predict_years
        (predict_year np_log np_truediv np_round platform label
           k alpha delta fans_in_wan fans_in_wan s false growth_rate)
        years.
Proof.
  intros Hp Hl Hwan. unfold predict_value.
  destruct (params_valid platform_params_literal platform Hp)
    as [k [beta [fan_limit Hplatform]]].
  destruct (params_valid label_params_literal label Hl)
    as [alpha [gamma [delta Hlabel]]].
  unfold platform_params, label_params. rewrite Hplatform, Hlabel.
  cbn [bind fst snd]. rewrite Hwan. cbn [bind].
  now exists k, alpha, delta.
Qed.

(** A first year that raises ends the loop. *)
Lemma predict_years_raise (step : Z -> result (Z * F * Z * F)) (year : Z)
    (rest : list Z) (e : exn) :
  step year = Raise e -> predict_years step (year :: rest) = Raise e.
Proof. intros Hstep. simpl. now rewrite Hstep. Qed.

(** Years that all succeed give one row each, in order. *)
Lemma predict_years_map (step : Z -> result (Z * F * Z * F))
    (row : Z -> Z * F * Z * F) (years : list Z) :
  (forall year, step year = Ok (row year)) ->
  predict_years step years = Ok (map row years).
Proof.
  intros Hstep. induction years as [| year rest IH]; simpl; [reflexivity |].
  now rewrite Hstep, IH.
Qed.

(** One year of the custom regime, the power and the ad count known. *)
Lemma predict_year_custom (platform label : string)
    (k alpha delta fans_in_wan s g r p : F) (year nt : Z) :
  py_div g (lit 100%Q) = Ok r ->
  fpow (lit 1%Q + r)%py year = Ok p ->
  get_expected_ad_count platform label (fans_in_wan * p)%py = Ok nt ->
  predict_year np_log np_truediv np_round platform label
    k alpha delta fans_in_wan fans_in_wan s false (Some g) year
  = (growth <- py_div (fans_in_wan * p - fans_in_wan)%py fans_in_wan ;;
     Ok (year,
         fround (fans_in_wan * p)%py 2,
         nt,
         fround (lit (inject_Z nt) * (s * (lit 1%Q + growth * delta))
                 * lit 1.2%Q)%py 2)).
Proof.
  intros Hr Hp Hnt. unfold predict_year.
  rewrite Hr. cbn [bind]. rewrite Hp. cbn [bind]. rewrite Hnt. cbn [bind orb].
  reflexivity.
Qed.

End PredictorFacts.

(** ** C10: zero initial followers *)

Lemma Qpow_nonneg (x : Q) (n : Z) :
  0 <= n -> Exact.Qpow x n = Ok (Qpower x n).
Proof.
  intros Hn. unfold Exact.Qpow.
  replace (n <? 0) with false by (symmetry; apply Z.ltb_ge; exact Hn).
  now rewrite andb_false_r.
Qed.

Lemma binary64_pow_first_year (x : Binary64.float) : Binary64.pow x 1 = Ok x.
Proof.
  unfold Binary64.pow. simpl Binary64.pow_pos.
  now destruct (PrimFloat.is_finite x).
Qed.

(** C10.  With zero initial followers, a valid platform and label, an
    explicit single-ad price and an explicit growth rate, [predict_value]
    (over the default five years) returns no series: the ad-price formula
    of the first year divides by the initial follower count, and
    [ZeroDivisionError] is raised.  So it is in exact arithmetic and in
    binary64, whatever the price and the growth rate. *)
Theorem C10_predict_value_raises_at_zero_followers :
  forall platform label : string,
    In platform valid_platforms ->
    In label valid_labels ->
    (forall (np_sqrt np_log : Q -> Q) (np_truediv : Q -> Q -> Q)
            (np_round : Q -> nat -> Q) (s g : Q),
        predict_value np_sqrt np_log np_truediv np_round
          0%Q platform label (Some s) default_years (Some g)
        = Raise ZeroDivisionError)
    /\ (forall (np_sqrt np_log : Binary64.float -> Binary64.float)
               (np_truediv : Binary64.float -> Binary64.float -> Binary64.float)
               (np_round : Binary64.float -> nat -> Binary64.float)
               (s g : Binary64.float),
          predict_value np_sqrt np_log np_truediv np_round
            0%float platform label (Some s) default_years (Some g)
          = Raise ZeroDivisionError).
Proof.
  intros platform label Hp Hl. split.
  - intros np_sqrt np_log np_truediv np_round s g.
    assert (Hwan : py_div 0%Q (lit 10000%Q) = Ok (0 / 10000)%Q)
      by reflexivity.
    destruct (predict_value_explicit np_sqrt np_log np_truediv np_round
                0%Q (0 / 10000)%Q s platform label default_years (Some g)
                Hp Hl Hwan) as [k [alpha [delta ->]]].
    apply predict_years_raise.
    set (p := Qpower (1 + g / 100) 1).
    destruct (get_expected_ad_count_valid platform label ((0 / 10000) * p)%Q
                Hp Hl) as [nt [Hnt _]].
    rewrite (predict_year_custom np_log np_truediv np_round platform label
               k alpha delta (0 / 10000)%Q s g (g / 100)%Q p 1 nt);
      [reflexivity | reflexivity | | exact Hnt].
    apply Qpow_nonneg. discriminate.
  - intros np_sqrt np_log np_truediv np_round s g.
    assert (Hwan : py_div 0%float (lit 10000%Q) = Ok (0 / 10000)%float)
      by reflexivity.
    destruct (predict_value_explicit np_sqrt np_log np_truediv np_round
                0%float (0 / 10000)%float s platform label default_years
                (Some g) Hp Hl Hwan) as [k [alpha [delta ->]]].
    apply predict_years_raise.
    set (p := (1 + g / 100)%float).
    destruct (get_expected_ad_count_valid platform label
                ((0 / 10000) * p)%float Hp Hl) as [nt [Hnt _]].
    rewrite (predict_year_custom np_log np_truediv np_round platform label
               k alpha delta (0 / 10000)%float s g (g / 100)%float p 1 nt);
      [reflexivity | reflexivity | | exact Hnt].
    apply binary64_pow_first_year.
Qed.

Lemma C10_predict_value_raises_at_zero_followers_witness :
  In "抖音" valid_platforms
  /\ In "美妆" valid_labels
  /\ predict_value (fun x => x) (fun x => x) Qdiv Exact.Qround_digits
       0%Q "抖音" "美妆" (Some 10%Q) default_years (Some 20%Q)
     = Raise ZeroDivisionError.
Proof.
  assert (Hp : In "抖音" valid_platforms) by (simpl; tauto).
  assert (Hl : In "美妆" valid_labels) by (simpl; tauto).
  split; [exact Hp | split; [exact Hl |]].
  destruct (C10_predict_value_raises_at_zero_followers "抖音" "美妆" Hp Hl)
    as [Hexact _].
  apply Hexact.
Defined.

(** ** C8: zero growth *)

(** *** Exact arithmetic: equal rationals are treated alike *)

Lemma Qltb_comp (x y c : Q) :
  (x == y)%Q -> Exact.Qltb x c = Exact.Qltb y c.
Proof.
  intros Hxy. unfold Exact.Qltb. f_equal.
  apply Qleb_comp; [reflexivity | exact Hxy].
Qed.

Lemma get_fan_range_comp (x y : Q) :
  (x == y)%Q -> get_fan_range x = get_fan_range y.
Proof.
  intros Hxy. unfold get_fan_range.
  change (@fltb Q _) with Exact.Qltb.
  now rewrite !(Qltb_comp x y _ Hxy).
Qed.

Lemma round_half_even_comp (x y : Q) :
  (x == y)%Q -> Exact.round_half_even x = Exact.round_half_even y.
Proof.
  intros Hxy. unfold Exact.round_half_even. cbv zeta.
  assert (Hfloor : Qfloor x = Qfloor y) by (apply Qfloor_comp; exact Hxy).
  assert (Hcompare : Qcompare (x - inject_Z (Qfloor y)) (1 # 2)
                     = Qcompare (y - inject_Z (Qfloor y)) (1 # 2)).
  { apply Qcompare_comp; [| reflexivity]. now apply Qminus_comp. }
  now rewrite Hfloor, Hcompare.
Qed.

Lemma Qround_digits_comp (x y : Q) (n : nat) :
  (x == y)%Q -> Exact.Qround_digits x n = Exact.Qround_digits y n.
Proof.
  intros Hxy. unfold Exact.Qround_digits.
  rewrite (round_half_even_comp (x * inject_Z (10 ^ Z.of_nat n))
                                (y * inject_Z (10 ^ Z.of_nat n)));
    [reflexivity | now apply Qmult_comp].
Qed.

(** One year at growth rate 0, in exact arithmetic: the projected count
    equals the initial one, the price factor equals 1. *)
Lemma predict_year_flat_exact (np_log : Q -> Q) (np_truediv : Q -> Q -> Q)
    (np_round : Q -> nat -> Q) (platform label : string)
    (k alpha delta f0 s : Q) (year nt : Z) :
  ~ (f0 == 0)%Q ->
  get_expected_ad_count platform label f0 = Ok nt ->
  predict_year np_log np_truediv np_round platform label
    k alpha delta f0 f0 s false (Some 0%Q) year
  = Ok (year, fround f0 2, nt, fround (inject_Z nt * s * 1.2)%Q 2).
Proof.
  intros Hnz Hnt.
  set (p := Qpower (1 + 0 / 100) year).
  assert (Hp : (p == 1)%Q).
  { unfold p. setoid_replace (1 + 0 / 100)%Q with 1%Q by reflexivity.
    apply Qpower_1. }
  assert (Hflat : (f0 * p == f0)%Q) by (rewrite Hp; ring).
  rewrite (predict_year_custom np_log np_truediv np_round platform label
             k alpha delta f0 s 0%Q (0 / 100)%Q p year nt);
    [| reflexivity | reflexivity |].
  - unfold py_div.
    replace (feqb f0 (lit 0%Q)) with false.
    + cbn [bind]. simpl.
      rewrite (Qround_digits_comp (f0 * p) f0 2 Hflat).
      rewrite (Qround_digits_comp
                 (inject_Z nt * (s * (1 + (f0 * p - f0) / f0 * delta)) * 1.2)
                 (inject_Z nt * s * 1.2) 2);
        [reflexivity |].
      rewrite Hflat. field. exact Hnz.
    + symmetry. simpl. destruct (Qeq_bool f0 0) eqn:Hzero; [| reflexivity].
      exfalso. apply Hnz. now apply Qeq_bool_iff.
  - change (get_expected_ad_count platform label (f0 * p)%Q = Ok nt).
    rewrite get_expected_ad_count_range.
    rewrite (get_fan_range_comp (f0 * p) f0 Hflat).
    rewrite <- get_expected_ad_count_range. exact Hnt.
Qed.

(** *** Binary64 *)

Lemma binary64_pow_pos_one (n : positive) :
  Binary64.pow_pos 1%float n = 1%float.
Proof. induction n as [n IH | n IH |]; simpl; rewrite ?IH; reflexivity. Qed.

Lemma binary64_pow_one (n : Z) : Binary64.pow 1%float n = Ok 1%float.
Proof.
  destruct n as [| n | n]; unfold Binary64.pow;
    rewrite ?binary64_pow_pos_one; reflexivity.
Qed.

Lemma binary64_positive_finite (x : Binary64.float) :
  PrimFloat.ltb 0 x = true ->
  PrimFloat.ltb x infinity = true ->
  exists m e, Prim2SF x = S754_finite false m e.
Proof.
  rewrite !ltb_spec.
  change (Prim2SF 0) with (S754_zero false).
  change (Prim2SF infinity) with (S754_infinity false).
  destruct (Prim2SF x) as [s | s | | s m e]; simpl; try discriminate.
  - destruct s; discriminate.
  - destruct s; try discriminate. intros _ _. now exists m, e.
Qed.

Lemma binary64_positive_nonzero (x : Binary64.float) :
  PrimFloat.ltb 0 x = true -> PrimFloat.eqb x 0 = false.
Proof.
  rewrite ltb_spec, FloatAxioms.eqb_spec.
  change (Prim2SF 0) with (S754_zero false).
  destruct (Prim2SF x) as [s | s | | s m e]; simpl;
    try discriminate; try reflexivity.
  - destruct s; [discriminate | reflexivity].
  - destruct s; [discriminate | reflexivity].
Qed.

(** [x - x] is [+0], [0 / x] and [0 * delta] are zeros, [1 + 0] is 1. *)
Lemma SF_flat_factor (m : positive) (e : Z) (sd : bool) (md : positive) (ed : Z) :
  SF64add (Prim2SF 1)
    (SF64mul
       (SF64div (SF64sub (S754_finite false m e) (S754_finite false m e))
                (S754_finite false m e))
       (S754_finite sd md ed))
  = Prim2SF 1.
Proof.
  assert (Hsub : SF64sub (S754_finite false m e) (S754_finite false m e)
                 = S754_zero false).
  { unfold SF64sub, SFsub. rewrite Z.sub_diag. reflexivity. }
  rewrite Hsub. reflexivity.
Qed.

Lemma binary64_flat_factor (f0 delta : Binary64.float) :
  PrimFloat.ltb 0 f0 = true ->
  PrimFloat.ltb f0 infinity = true ->
  finite_delta ("", (delta, delta, delta)) = true ->
  (1 + (f0 - f0) / f0 * delta)%float = 1%float.
Proof.
  intros Hpos Hfin Hdelta.
  destruct (binary64_positive_finite f0 Hpos Hfin) as [m [e Hf0]].
  unfold finite_delta in Hdelta. simpl in Hdelta.
  destruct (Prim2SF delta) as [| | | sd md ed] eqn:Hd; try discriminate.
  apply Prim2SF_inj.
  rewrite add_spec, mul_spec, div_spec, sub_spec, Hf0, Hd.
  apply SF_flat_factor.
Qed.

Lemma label_deltas_finite :
  forallb finite_delta (label_params (F := Binary64.float)) = true.
Proof. vm_compute. reflexivity. Qed.

Lemma predict_year_flat_binary64
    (np_log : Binary64.float -> Binary64.float)
    (np_truediv : Binary64.float -> Binary64.float -> Binary64.float)
    (np_round : Binary64.float -> nat -> Binary64.float)
    (platform label : string) (k alpha delta f0 s : Binary64.float)
    (year nt : Z) :
  PrimFloat.ltb 0 f0 = true ->
  PrimFloat.ltb f0 infinity = true ->
  finite_delta ("", (delta, delta, delta)) = true ->
  get_expected_ad_count platform label f0 = Ok nt ->
  predict_year np_log np_truediv np_round platform label
    k alpha delta f0 f0 s false (Some 0%float) year
  = Ok (year, fround f0 2, nt,
        fround (lit (inject_Z nt) * s * lit 1.2%Q)%py 2).
Proof.
  intros Hpos Hfin Hdelta Hnt.
  rewrite (predict_year_custom np_log np_truediv np_round platform label
             k alpha delta f0 s 0%float 0%float 1%float year nt);
    [| reflexivity | apply binary64_pow_one |].
  - unfold py_div.
    replace (feqb (F := Binary64.float) f0 (lit 0%Q)) with false
      by (symmetry; apply binary64_positive_nonzero; exact Hpos).
    cbn [bind]. simpl fmul. simpl fsub. simpl fadd. simpl fdiv.
    rewrite (binary64_mul_one_r f0).
    change (Binary64.of_Q 1) with 1%float.
    rewrite (binary64_flat_factor f0 delta Hpos Hfin Hdelta).
    rewrite (binary64_mul_one_r s). reflexivity.
  - simpl fmul. rewrite (binary64_mul_one_r f0). exact Hnt.
Qed.


(** *** Binary64: a count of at least 1, in units of ten thousand *)

Lemma digits2_pos_bounds (p : positive) :
  2 ^ (Zpos (digits2_pos p) - 1) <= Zpos p < 2 ^ Zpos (digits2_pos p).
Proof.
  induction p as [p IH | p IH |]; simpl digits2_pos.
  - rewrite Pos2Z.inj_succ.
    replace (Z.succ (Z.pos (digits2_pos p)) - 1)
      with (Z.succ (Z.pos (digits2_pos p) - 1)) by lia.
    rewrite !Z.pow_succ_r by lia. lia.
  - rewrite Pos2Z.inj_succ.
    replace (Z.succ (Z.pos (digits2_pos p)) - 1)
      with (Z.succ (Z.pos (digits2_pos p) - 1)) by lia.
    rewrite !Z.pow_succ_r by lia. lia.
  - simpl. lia.
Qed.

Lemma shr_1_m (mrs : shr_record) :
  0 <= shr_m mrs -> shr_m (shr_1 mrs) = shr_m mrs / 2.
Proof.
  destruct mrs as [m r s]. cbn [shr_m]. intros Hm.
  rewrite <- Z.div2_div.
  destruct m as [| [p | p |] | p]; try reflexivity. lia.
Qed.

Lemma iter_pos_shr_1_m (p : positive) (mrs : shr_record) :
  0 <= shr_m mrs ->
  shr_m (iter_pos shr_1 p mrs) = shr_m mrs / 2 ^ Zpos p.
Proof.
  revert mrs. induction p as [p IH | p IH |]; intros mrs Hm; simpl iter_pos.
  - assert (H1 : 0 <= shr_m (shr_1 mrs)).
    { rewrite shr_1_m by exact Hm. apply Z.div_pos; lia. }
    assert (H2 : 0 <= shr_m (iter_pos shr_1 p (shr_1 mrs))).
    { rewrite IH by exact H1. apply Z.div_pos; [exact H1 | lia]. }
    rewrite IH by exact H2. rewrite IH by exact H1. rewrite shr_1_m by exact Hm.
    assert (Hpow : 2 ^ Zpos p~1 = 2 * 2 ^ Zpos p * 2 ^ Zpos p).
    { rewrite (Pos2Z.inj_xI p).
      replace (2 * Z.pos p + 1) with (1 + Z.pos p + Z.pos p) by lia.
      rewrite !Z.pow_add_r by lia. reflexivity. }
    assert (Hpos : 0 < 2 ^ Zpos p) by (apply Z.pow_pos_nonneg; lia).
    rewrite Hpow, !Z.div_div by lia. f_equal. ring.
  - assert (H1 : 0 <= shr_m (iter_pos shr_1 p mrs)).
    { rewrite IH by exact Hm. apply Z.div_pos; [exact Hm | lia]. }
    rewrite IH by exact H1. rewrite IH by exact Hm.
    assert (Hpow : 2 ^ Zpos p~0 = 2 ^ Zpos p * 2 ^ Zpos p).
    { rewrite (Pos2Z.inj_xO p).
      replace (2 * Z.pos p) with (Z.pos p + Z.pos p) by lia.
      rewrite !Z.pow_add_r by lia. reflexivity. }
    assert (Hpos : 0 < 2 ^ Zpos p) by (apply Z.pow_pos_nonneg; lia).
    rewrite Hpow, !Z.div_div by lia. reflexivity.
  - rewrite shr_1_m by exact Hm. reflexivity.
Qed.

Lemma shr_record_of_loc_m m l : shr_m (shr_record_of_loc m l) = m.
Proof. destruct l as [| []]; reflexivity. Qed.

(** [shr_fexp] on a mantissa of at least 53 bits, above the subnormal
    exponents: the bits beyond the 53rd are shifted away. *)
Lemma shr_fexp_normal (p : positive) (e : Z) (l : location) :
  53 <= Zpos (digits2_pos p) ->
  -1074 <= e ->
  let '(mrs, e1) := shr_fexp prec emax (Zpos p) e l in
  2 ^ 52 <= shr_m mrs < 2 ^ 53 /\ e1 = e + (Zpos (digits2_pos p) - 53).
Proof.
  intros Hd He. unfold shr_fexp. simpl Zdigits2.
  pose proof (digits2_pos_bounds p) as Hp.
  set (d := Zpos (digits2_pos p)) in *.
  assert (Hfexp : fexp prec emax (d + e) - e = d - 53).
  { unfold fexp, SpecFloat.emin, prec, emax. lia. }
  rewrite Hfexp. unfold shr.
  destruct (d - 53) as [| n | n] eqn:Hn.
  - rewrite shr_record_of_loc_m. replace d with 53 in * by lia. split; [lia|lia].
  - rewrite iter_pos_shr_1_m by (rewrite shr_record_of_loc_m; lia).
    rewrite shr_record_of_loc_m. split; [| lia].
    assert (Hpow : 2 ^ d = 2 ^ 53 * 2 ^ Zpos n).
    { rewrite <- Z.pow_add_r by lia. f_equal. lia. }
    assert (Hpow' : 2 ^ (d - 1) = 2 ^ 52 * 2 ^ Zpos n).
    { rewrite <- Z.pow_add_r by lia. f_equal. lia. }
    assert (Hpos : 0 < 2 ^ Zpos n) by (apply Z.pow_pos_nonneg; lia).
    split.
    + apply Z.div_le_lower_bound; lia.
    + apply Z.div_lt_upper_bound; lia.
  - lia.
Qed.

Lemma digits_of_range (p : positive) (lo hi : Z) :
  0 <= lo -> 2 ^ lo <= Zpos p < 2 ^ hi ->
  lo < Zpos (digits2_pos p) <= hi.
Proof.
  intros Hlo [Hge Hlt].
  pose proof (digits2_pos_bounds p) as [Hd1 Hd2].
  split.
  - apply (Z.pow_lt_mono_r_iff 2); lia.
  - assert (Zpos (digits2_pos p) - 1 < hi); [| lia].
    assert (0 <= hi).
    { destruct hi; try lia. rewrite Z.pow_neg_r in Hlt by lia. lia. }
    apply (Z.pow_lt_mono_r_iff 2); lia.
Qed.

Lemma round_nearest_even_range (m : Z) (l : location) :
  m <= round_nearest_even m l <= m + 1.
Proof.
  destruct l as [| []]; simpl; try lia.
  destruct (Z.even m); lia.
Qed.

(** Rounding a quotient of at least 53 bits, in the normal range. *)
Lemma binary_round_aux_normal (q : positive) (e : Z) (l : location) :
  2 ^ 52 <= Zpos q < 2 ^ 54 ->
  -1074 <= e <= 969 ->
  exists m' e',
    binary_round_aux prec emax false (Zpos q) e l = S754_finite false m' e'.
Proof.
  intros Hq He. unfold binary_round_aux.
  pose proof (digits_of_range q 52 54 ltac:(lia) Hq) as Hd.
  pose proof (shr_fexp_normal q e l ltac:(lia) ltac:(lia)) as H1.
  destruct (shr_fexp prec emax (Zpos q) e l) as [mrs1 e1].
  destruct H1 as [Hm1 He1].
  pose proof (round_nearest_even_range (shr_m mrs1) (loc_of_shr_record mrs1))
    as Hr.
  destruct (round_nearest_even (shr_m mrs1) (loc_of_shr_record mrs1)) as [| r | r];
    try lia.
  pose proof (digits_of_range r 52 54 ltac:(lia) ltac:(lia)) as Hdr.
  pose proof (shr_fexp_normal r e1 loc_Exact ltac:(lia) ltac:(lia)) as H2.
  destruct (shr_fexp prec emax (Zpos r) e1 loc_Exact) as [mrs2 e2].
  destruct H2 as [Hm2 He2].
  destruct (shr_m mrs2) as [| m' | m']; try lia.
  replace (e2 <=? emax - prec) with true
    by (symmetry; apply Z.leb_le; unfold emax, prec; lia).
  now exists m', e2.
Qed.

(** A double that is at least 1 has a 53-bit mantissa [m] and an exponent
    [e >= -52]; its quotient by 10000 is [m * 2^53 / (10000's mantissa)],
    of 53 or 54 bits, at exponent [e - 14]: neither zero nor infinite. *)
Lemma SFdiv_by_10000 (m : positive) (e : Z) :
  valid_binary (S754_finite false m e) = true ->
  SFleb (Prim2SF 1) (S754_finite false m e) = true ->
  exists m' e',
    SF64div (S754_finite false m e) (Prim2SF 10000) = S754_finite false m' e'.
Proof.
  change (Prim2SF 1) with (S754_finite false 4503599627370496 (-52)).
  change (Prim2SF 10000) with (S754_finite false 5497558138880000 (-39)).
  intros Hvalid Hle.
  assert (He : -52 <= e).
  { unfold SFleb, SFcompare in Hle.
    destruct (Z.compare_spec (-52) e); try lia; discriminate. }
  simpl in Hvalid. unfold bounded, canonical_mantissa in Hvalid.
  apply andb_true_iff in Hvalid. destruct Hvalid as [Hcanon Hbound].
  apply Z.eqb_eq in Hcanon. apply Z.leb_le in Hbound.
  assert (Hd : Zpos (digits2_pos m) = 53).
  { unfold fexp, SpecFloat.emin, prec, emax in Hcanon. lia. }
  pose proof (digits2_pos_bounds m) as Hm. rewrite Hd in Hm.
  unfold SF64div, SFdiv, SFdiv_core_binary. cbn [xorb].
  simpl (Zdigits2 (Z.pos m)). rewrite Hd.
  change (Zdigits2 5497558138880000) with 53.
  assert (He' : Z.min (fexp prec emax (53 + e - (53 + -39))) (e - -39) = e - 14).
  { unfold fexp, SpecFloat.emin, prec, emax. lia. }
  rewrite He'.
  replace (e - -39 - (e - 14)) with 53 by lia.
  rewrite Z.shiftl_mul_pow2 by lia.
  pose proof (Z_div_mod (Z.pos m * 2 ^ 53) 5497558138880000 ltac:(lia)) as Hdiv.
  destruct (Z.div_eucl (Z.pos m * 2 ^ 53) 5497558138880000) as [q r].
  destruct Hdiv as [Hqr Hr].
  assert (Hq : 2 ^ 52 <= q < 2 ^ 54).
  { change (2 ^ 53) with 9007199254740992 in *.
    change (2 ^ 52) with 4503599627370496 in *.
    change (2 ^ 54) with 18014398509481984. lia. }
  destruct q as [| q | q]; try lia.
  apply binary_round_aux_normal; [exact Hq |].
  unfold emax, prec in Hbound. lia.
Qed.

Lemma binary64_in_wan_positive_finite (fans : Binary64.float) :
  PrimFloat.leb 1 fans = true ->
  PrimFloat.ltb fans infinity = true ->
  PrimFloat.ltb 0 (fans / 10000) = true
  /\ PrimFloat.ltb (fans / 10000) infinity = true.
Proof.
  intros Hone Hfin.
  rewrite leb_spec in Hone. rewrite ltb_spec in Hfin. rewrite !ltb_spec, div_spec.
  pose proof (Prim2SF_valid fans) as Hvalid.
  change (Prim2SF infinity) with (S754_infinity false) in *.
  change (Prim2SF 0) with (S754_zero false).
  destruct (Prim2SF fans) as [s | s | | s m e] eqn:Hfans.
  - change (Prim2SF 1) with (S754_finite false 4503599627370496 (-52)) in Hone.
    discriminate.
  - destruct s; discriminate.
  - discriminate.
  - destruct s.
    + change (Prim2SF 1) with (S754_finite false 4503599627370496 (-52)) in Hone.
      discriminate.
    + destruct (SFdiv_by_10000 m e Hvalid Hone) as [m' [e' ->]].
      split; reflexivity.
Qed.

Lemma label_delta_finite (label : string)
    (alpha gamma delta : Binary64.float) :
  dict_get label (label_params (F := Binary64.float))
  = Some (alpha, gamma, delta) ->
  finite_delta ("", (delta, delta, delta)) = true.
Proof.
  intros Hget. apply dict_get_In in Hget.
  pose proof label_deltas_finite as Hall.
  rewrite forallb_forall in Hall. exact (Hall _ Hget).
Qed.

(** C8.  Growth rate 0 compounds to the factor 1: the projected follower
    count of every year is the initial one (no drift).  Take then a valid
    platform and label, an explicit single-ad price [s] and a positive
    initial follower count; write [f0] for that count in the unit of the
    series, [fans / 10000].  [predict_value] returns one row per requested
    year (five for the default years), and every row carries the same
    three values: the follower count [round(f0, 2)], the ad count that the
    matrix gives for [f0], and the revenue [round(ad count * s * 1.2, 2)].
    In exact arithmetic this holds for every [fans > 0].  In binary64 it
    holds whenever [f0] is positive and finite, which is the case of every
    finite [fans >= 1] (the division by 10000 underflows to 0 only for
    counts far below 1). *)
Theorem C8_zero_growth_series_is_flat :
  (forall (f0 : Q) (year : Z),
      exists p : Q,
        fpow (lit 1%Q + 0 / 100)%Q year = Ok p /\ (f0 * p == f0)%Q)
  /\ (forall (f0 : Binary64.float) (year : Z),
        fpow (1 + 0 / 100)%float year = Ok 1%float
        /\ (f0 * 1)%float = f0)
  /\ (forall fans : Binary64.float,
        PrimFloat.leb 1 fans = true ->
        PrimFloat.ltb fans infinity = true ->
        PrimFloat.ltb 0 (fans / 10000) = true
        /\ PrimFloat.ltb (fans / 10000) infinity = true)
  /\ (forall platform label : string,
        In platform valid_platforms ->
        In label valid_labels ->
        (forall (np_sqrt np_log : Q -> Q) (np_truediv : Q -> Q -> Q)
                (np_round : Q -> nat -> Q) (fans s : Q) (years : list Z),
            (0 < fans)%Q ->
            exists nt : Z,
              get_expected_ad_count platform label (fans / 10000)%Q = Ok nt
              /\ predict_value np_sqrt np_log np_truediv np_round
                   fans platform label (Some s) years (Some 0%Q)
                 = Ok (map (fun year =>
                              (year,
                               fround (fans / 10000)%Q 2,
                               nt,
                               fround (inject_Z nt * s * 1.2)%Q 2))
                           years))
        /\ (forall (np_sqrt np_log : Binary64.float -> Binary64.float)
                   (np_truediv :
                      Binary64.float -> Binary64.float -> Binary64.float)
                   (np_round : Binary64.float -> nat -> Binary64.float)
                   (fans s : Binary64.float) (years : list Z),
              PrimFloat.ltb 0 (fans / 10000) = true ->
              PrimFloat.ltb (fans / 10000) infinity = true ->
              exists nt : Z,
                get_expected_ad_count platform label (fans / 10000)%float
                = Ok nt
                /\ predict_value np_sqrt np_log np_truediv np_round
                     fans platform label (Some s) years (Some 0%float)
                   = Ok (map (fun year =>
                                (year,
                                 fround (fans / 10000)%float 2,
                                 nt,
                                 fround (lit (inject_Z nt) * s * lit 1.2%Q)%py
                                        2))
                             years))).
Proof.
  split; [| split; [| split]].
  - intros f0 year. exists (Qpower (1 + 0 / 100) year).
    split; [reflexivity |].
    setoid_replace (1 + 0 / 100)%Q with 1%Q by reflexivity.
    rewrite Qpower_1. ring.
  - intros f0 year. split.
    + apply binary64_pow_one.
    + apply binary64_mul_one_r.
  - exact binary64_in_wan_positive_finite.
  - intros platform label Hp Hl. split.
    + intros np_sqrt np_log np_truediv np_round fans s years Hfans.
      assert (Hwan : py_div fans (lit 10000%Q) = Ok (fans / 10000)%Q)
        by reflexivity.
      assert (Hnz : ~ (fans / 10000 == 0)%Q).
      { intros Hzero.
        assert (Hfans0 : (fans == 0)%Q).
        { setoid_replace fans with (fans / 10000 * 10000)%Q
            by (field; discriminate).
          rewrite Hzero. reflexivity. }
        rewrite Hfans0 in Hfans. discriminate Hfans. }
      destruct (get_expected_ad_count_valid platform label (fans / 10000)%Q
                  Hp Hl) as [nt [Hnt _]].
      exists nt. split; [exact Hnt |].
      destruct (predict_value_explicit np_sqrt np_log np_truediv np_round
                  fans (fans / 10000)%Q s platform label years (Some 0%Q)
                  Hp Hl Hwan) as [k [alpha [delta ->]]].
      apply predict_years_map. intros year.
      now apply predict_year_flat_exact.
    + intros np_sqrt np_log np_truediv np_round fans s years Hpos Hfin.
      assert (Hwan : py_div fans (lit 10000%Q) = Ok (fans / 10000)%float)
        by reflexivity.
      destruct (get_expected_ad_count_valid platform label
                  (fans / 10000)%float Hp Hl) as [nt [Hnt _]].
      exists nt. split; [exact Hnt |].
      unfold predict_value.
      destruct (params_valid (F := Binary64.float) platform_params_literal
                  platform Hp) as [k [beta [fan_limit Hplatform]]].
      destruct (params_valid (F := Binary64.float) label_params_literal
                  label Hl) as [alpha [gamma [delta Hlabel]]].
      pose proof (label_delta_finite label alpha gamma delta Hlabel) as Hdelta.
      unfold platform_params. unfold label_params in *.
      rewrite Hplatform, Hlabel.
      cbn [bind fst snd]. rewrite Hwan. cbn [bind].
      apply predict_years_map. intros year.
      now apply predict_year_flat_binary64.
Qed.

Lemma C8_zero_growth_series_is_flat_witness :
  In "抖音" valid_platforms
  /\ In "三农" valid_labels
  /\ ((0 < 100000)%Q
      /\ predict_value (fun x => x) (fun x => x) Qdiv Exact.Qround_digits
           100000%Q "抖音" "三农" (Some 10%Q) default_years (Some 0%Q)
         = Ok [(1, 10.00%Q, 12, 144.00%Q);
               (2, 10.00%Q, 12, 144.00%Q);
               (3, 10.00%Q, 12, 144.00%Q);
               (4, 10.00%Q, 12, 144.00%Q);
               (5, 10.00%Q, 12, 144.00%Q)])
  /\ (PrimFloat.leb 1 100000 = true
      /\ PrimFloat.ltb 100000 infinity = true
      /\ predict_value (fun x => x) (fun x => x) PrimFloat.div
           Binary64.round_digits
           100000%float "抖音" "三农" (Some 10%float) default_years
           (Some 0%float)
         = Ok [(1, 10%float, 12, 144%float);
               (2, 10%float, 12, 144%float);
               (3, 10%float, 12, 144%float);
               (4, 10%float, 12, 144%float);
               (5, 10%float, 12, 144%float)]).
Proof.
  assert (Hp : In "抖音" valid_platforms) by (simpl; tauto).
  assert (Hl : In "三农" valid_labels) by (simpl; tauto).
  assert (Hfans : (0 < 100000)%Q) by reflexivity.
  assert (Hone : PrimFloat.leb 1 100000 = true) by reflexivity.
  assert (Hfin : PrimFloat.ltb 100000 infinity = true) by reflexivity.
  split; [exact Hp | split; [exact Hl |]].
  destruct C8_zero_growth_series_is_flat as [_ [_ [Hwan Hseries]]].
  destruct (Hseries "抖音" "三农" Hp Hl) as [Hexact Hdouble].
  split.
  - split; [exact Hfans |].
    destruct (Hexact (fun x => x) (fun x => x) Qdiv Exact.Qround_digits
                100000%Q 10%Q default_years Hfans) as [nt [Hnt ->]].
    assert (H12 : get_expected_ad_count "抖音" "三农" (100000 / 10000)%Q = Ok 12)
      by (vm_compute; reflexivity).
    rewrite H12 in Hnt. injection Hnt as <-.
    vm_compute. reflexivity.
  - split; [exact Hone | split; [exact Hfin |]].
    destruct (Hwan 100000%float Hone Hfin) as [Hpos Hfinite].
    destruct (Hdouble (fun x => x) (fun x => x) PrimFloat.div
                Binary64.round_digits 100000%float 10%float default_years
                Hpos Hfinite) as [nt [Hnt Heq]].
    assert (H12 : get_expected_ad_count "抖音" "三农" (100000 / 10000)%float
                  = Ok 12) by (vm_compute; reflexivity).
    assert (Hnt12 : Ok nt = Ok 12 :> result Z) by (rewrite <- Hnt; exact H12).
    injection Hnt12 as ->.
    etransitivity; [exact Heq |].
    vm_compute. reflexivity.
Defined.

(* ================================================================== *)
(** * Further properties of the pricing, prediction and format code   *)
(* ================================================================== *)

Import visualization Terms.

(** ** Prices on all platforms *)

Section AllPlatforms.

Context {F : Type} `{PyFloat F}.

(** Whether [get_price] raises, and what, does not depend on the platform. *)
Lemma get_price_raise_any_platform (platform platform' category : string)
    (x : F) (kwargs : dict bool) (e : exn) :
  get_price platform category x kwargs = Raise e ->
  get_price platform' category x kwargs = Raise e.
Proof.
  unfold get_price.
  destruct DOUYIN_FUNCTIONS as [functions | e0]; cbn [bind]; [| exact (fun H => H)].
  destruct (dict_get category functions) as [base_func |]; [| exact (fun H => H)].
  destruct (dict_get category COEFF_MATRIX) as [coeffs |]; [| exact (fun H => H)].
  destruct (__call__ base_func x) as [b | e0]; cbn [bind]; [discriminate | exact (fun H => H)].
Qed.

Lemma get_all_platforms_prices_unfold (category : string) (x : F)
    (kwargs : dict bool) :
  get_all_platforms_prices category x kwargs
  = (p1 <- get_price "抖音" category x kwargs ;;
     p2 <- get_price "小红书" category x kwargs ;;
     p3 <- get_price "B站" category x kwargs ;;
     p4 <- get_price "快手" category x kwargs ;;
     Ok [("抖音", p1); ("小红书", p2); ("B站", p3); ("快手", p4)]).
Proof.
  unfold get_all_platforms_prices. cbn [fold_left bind].
  destruct (get_price "抖音" category x kwargs) as [p1 | e]; cbn [bind].
  - destruct (get_price "小红书" category x kwargs) as [p2 | e]; cbn [bind].
    + destruct (get_price "B站" category x kwargs) as [p3 | e]; cbn [bind].
      * destruct (get_price "快手" category x kwargs) as [p4 | e]; cbn [bind];
          reflexivity.
      * reflexivity.
    + reflexivity.
  - reflexivity.
Qed.

End AllPlatforms.

(** X1.  get_all_platforms_prices returns a dictionary whose keys are
    exactly the four platforms of get_platforms, in that order, and whose
    entry for each platform is the price get_price returns for it. When it
    raises, it raises the exception that get_price raises for this
    category on every platform. Holds in any arithmetic. *)
Theorem X1_all_platforms_prices_are_get_price {F : Type} `{PyFloat F}
    (category : string) (followers : F) (kwargs : dict bool) :
  match get_all_platforms_prices category followers kwargs with
  | Ok prices =>
      dict_keys prices = get_platforms
      /\ forall platform, In platform get_platforms ->
           exists p, get_price platform category followers kwargs = Ok p
                     /\ dict_get platform prices = Some p
  | Raise e =>
      forall platform, get_price platform category followers kwargs = Raise e
  end.
Proof.
  rewrite get_all_platforms_prices_unfold.
  destruct (get_price "抖音" category followers kwargs) as [p1 | e] eqn:H1;
    cbn [bind];
    [| intros platform; exact (get_price_raise_any_platform _ _ _ _ _ _ H1)].
  destruct (get_price "小红书" category followers kwargs) as [p2 | e] eqn:H2;
    cbn [bind];
    [| intros platform; exact (get_price_raise_any_platform _ _ _ _ _ _ H2)].
  destruct (get_price "B站" category followers kwargs) as [p3 | e] eqn:H3;
    cbn [bind];
    [| intros platform; exact (get_price_raise_any_platform _ _ _ _ _ _ H3)].
  destruct (get_price "快手" category followers kwargs) as [p4 | e] eqn:H4;
    cbn [bind];
    [| intros platform; exact (get_price_raise_any_platform _ _ _ _ _ _ H4)].
  split; [reflexivity |].
  intros platform [<- | [<- | [<- | [<- | []]]]]; eexists; split;
    try eassumption; reflexivity.
Qed.

(** ** Sorting *)

Section Sorting.

Context {A : Type} (key : A -> string).

Lemma str_lt_false_le (a b : string) : str_lt a b = false -> String.leb b a = true.
Proof.
  unfold str_lt, String.ltb, String.leb. rewrite (String.compare_antisym a b).
  destruct (String.compare b a); simpl; congruence.
Qed.

Lemma str_lt_le (a b : string) : str_lt a b = true -> String.leb a b = true.
Proof.
  unfold str_lt, String.ltb, String.leb. now destruct (String.compare a b).
Qed.

Lemma insert_by_key_perm (x : A) (l : list A) :
  Permutation (x :: l) (insert_by_key key x l).
Proof.
  induction l as [| y l IH]; simpl; [reflexivity |].
  destruct (str_lt (key x) (key y)); [reflexivity |].
  rewrite perm_swap. now apply perm_skip.
Qed.

Lemma insert_by_key_sorted (x : A) (l : list A) :
  Sorted (key_le key) l -> Sorted (key_le key) (insert_by_key key x l).
Proof.
  induction l as [| y l IH]; simpl; intros Hs.
  - repeat constructor.
  - destruct (str_lt (key x) (key y)) eqn:Hlt.
    + constructor; [exact Hs |]. constructor. now apply str_lt_le.
    + inversion Hs as [| ? ? Hl Hhd]; subst.
      constructor; [now apply IH |].
      destruct l as [| z l]; simpl.
      * constructor. now apply str_lt_false_le.
      * destruct (str_lt (key x) (key z)).
        -- constructor. now apply str_lt_false_le.
        -- inversion Hhd; subst. now constructor.
Qed.

Lemma sort_by_key_acc (l acc : list A) :
  Sorted (key_le key) acc ->
  Permutation (acc ++ l) (fold_left (fun sorted x => insert_by_key key x sorted) l acc)
  /\ Sorted (key_le key) (fold_left (fun sorted x => insert_by_key key x sorted) l acc).
Proof.
  revert acc. induction l as [| x l IH]; intros acc Hacc; simpl.
  - rewrite app_nil_r. split; [reflexivity | exact Hacc].
  - destruct (IH (insert_by_key key x acc) (insert_by_key_sorted x acc Hacc))
      as [Hperm Hsorted].
    split; [| exact Hsorted].
    transitivity (insert_by_key key x acc ++ l)%list; [| exact Hperm].
    transitivity ((x :: acc) ++ l)%list.
    + symmetry. apply Permutation_middle.
    + apply Permutation_app_tail, insert_by_key_perm.
Qed.

(** [sort] loses and duplicates nothing, and leaves the keys in
    non-decreasing order. *)
Lemma sort_by_key_sorted (l : list A) :
  Permutation l (sort_by_key key l) /\ Sorted (key_le key) (sort_by_key key l).
Proof. apply (sort_by_key_acc l []). constructor. Qed.

End Sorting.

Lemma categories_have_pinyin : forallb has_pinyin categories = true.
Proof. vm_compute. reflexivity. Qed.

Lemma get_categories_sorted {F : Type} `{PyFloat F}
    (functions : dict (ContinuousPiecewiseFunction F)) :
  DOUYIN_FUNCTIONS = Ok functions ->
  exists l, get_categories (F := F) = Ok l
            /\ Permutation (dict_keys functions) l
            /\ Sorted (key_le pinyin_key) l.
Proof.
  intros Hload. unfold get_categories. rewrite Hload. cbn [bind].
  eexists. split; [reflexivity |]. apply sort_by_key_sorted.
Qed.

(** X2.  get_categories returns each of the 32 categories of
    DOUYIN_FUNCTIONS exactly once (a permutation of them), in non-
    decreasing order of the pinyin key, in exact arithmetic and in
    binary64. Every category has an entry in pinyin_mapping, so the fall-
    back key (the category itself) is never used. *)
Theorem X2_get_categories_sorted_permutation :
  (exists l : list string,
      get_categories (F := Q) = Ok l
      /\ Permutation categories l
      /\ Sorted (key_le pinyin_key) l)
  /\ (exists l : list string,
      get_categories (F := Binary64.float) = Ok l
      /\ Permutation categories l
      /\ Sorted (key_le pinyin_key) l)
  /\ (forall category, In category categories ->
        exists key, dict_get category pinyin_mapping = Some key).
Proof.
  split; [| split].
  - destruct DOUYIN_FUNCTIONS_loaded_exact as [functions [Hload Hkeys]].
    destruct (get_categories_sorted functions Hload) as [l [Hl [Hperm Hsorted]]].
    exists l. rewrite <- Hkeys. now repeat split.
  - destruct DOUYIN_FUNCTIONS_loaded_binary64 as [functions [Hload Hkeys]].
    destruct (get_categories_sorted functions Hload) as [l [Hl [Hperm Hsorted]]].
    exists l. rewrite <- Hkeys. now repeat split.
  - intros category Hin. pose proof categories_have_pinyin as Hall.
    rewrite forallb_forall in Hall. specialize (Hall category Hin).
    unfold has_pinyin, dict_mem in Hall.
    destruct (dict_get category pinyin_mapping) as [key |]; [| discriminate].
    now exists key.
Qed.

Lemma X2_get_categories_sorted_permutation_witness :
  In "科学科普" categories
  /\ exists key, dict_get "科学科普" pinyin_mapping = Some key.
Proof.
  assert (Hin : In "科学科普" categories) by (simpl; tauto).
  split; [exact Hin |].
  exact (proj2 (proj2 X2_get_categories_sorted_permutation) "科学科普" Hin).
Defined.

Lemma In_map_const {A B : Type} (b y : B) (l : list A) :
  In y (map (fun _ => b) l) -> y = b.
Proof.
  induction l as [| a l IH]; simpl; [tauto |].
  intros [Hy | Hin]; [now symmetry | now apply IH].
Qed.

Lemma curve_xs_grid {F : Type} `{PyFloat F} (category : string)
    (f : ContinuousPiecewiseFunction F) :
  all_curve_xs (F := F) = map (fun _ => map lit follower_grid) categories ->
  curve_of category = Some f -> curve_xs f = map lit follower_grid.
Proof.
  unfold all_curve_xs, curve_of.
  destruct DOUYIN_FUNCTIONS as [functions | e]; [| discriminate].
  intros Hall Hget. apply dict_get_In in Hget.
  apply (In_map_const _ _ categories). rewrite <- Hall.
  exact (in_map (fun e => curve_xs (snd e)) functions (category, f) Hget).
Qed.

(** X3.  get_follower_breakpoints returns [0, 60000, 300000, 750000,
    3000000, 7500000, 20000000] in both arithmetics; it reads them off the
    first curve only, but every one of the 32 curves has exactly these
    x-values. *)
Theorem X3_follower_breakpoints_common_grid :
  get_follower_breakpoints (F := Q) = Ok (map lit follower_grid)
  /\ get_follower_breakpoints (F := Binary64.float) = Ok (map lit follower_grid)
  /\ forall category, In category categories ->
       (exists f : ContinuousPiecewiseFunction Q,
           curve_of category = Some f /\ curve_xs f = map lit follower_grid)
       /\ (exists f : ContinuousPiecewiseFunction Binary64.float,
              curve_of category = Some f
              /\ curve_xs f = map lit follower_grid).
Proof.
  split; [vm_compute; reflexivity |]. split; [vm_compute; reflexivity |].
  intros category Hin. split.
  - destruct (curve_of_known_exact category Hin) as [f Hf].
    exists f. split; [exact Hf |].
    apply (curve_xs_grid category f); [vm_compute; reflexivity | exact Hf].
  - destruct (curve_of_known_binary64 category Hin) as [f Hf].
    exists f. split; [exact Hf |].
    apply (curve_xs_grid category f); [vm_compute; reflexivity | exact Hf].
Qed.

Lemma X3_follower_breakpoints_common_grid_witness :
  In "颜值" categories
  /\ exists f : ContinuousPiecewiseFunction Binary64.float,
       curve_of "颜值" = Some f /\ curve_xs f = map lit follower_grid.
Proof.
  assert (Hin : In "颜值" categories) by (simpl; tauto).
  split; [exact Hin |].
  exact (proj2 (proj2 (proj2 X3_follower_breakpoints_common_grid) "颜值" Hin)).
Defined.

Lemma get_price_no_bonus {F : Type} `{PyFloat F} (platform category : string)
    (x : F) (kwargs : dict bool) :
  String.eqb category "影视综艺" && is_celebrity kwargs = false ->
  get_price platform category x kwargs = get_price platform category x [].
Proof.
  unfold get_price, is_celebrity. intros Hflag.
  destruct DOUYIN_FUNCTIONS as [functions | e]; cbn [bind]; [| reflexivity].
  destruct (dict_get category functions) as [base_func |]; [| reflexivity].
  destruct (dict_get category COEFF_MATRIX) as [coeffs |]; [| reflexivity].
  destruct (__call__ base_func x) as [b | e]; cbn [bind]; [| reflexivity].
  rewrite Hflag.
  replace (String.eqb category "影视综艺" && dict_get_default "is_celebrity" [] false)
    with false by (now rewrite andb_false_r).
  reflexivity.
Qed.

(** X4.  The is_celebrity keyword changes nothing unless the category is
    影视综艺 and the flag is true: otherwise get_price returns what it returns
    without keyword arguments (any arithmetic). For 影视综艺 with the flag
    set, the price is, in exact arithmetic, twice the price without it, on
    every platform and for every follower count. *)
Theorem X4_celebrity_flag :
  (forall (F : Type) `(PyFloat F) (platform category : string) (followers : F)
          (kwargs : dict bool),
      category <> "影视综艺" \/ is_celebrity kwargs = false ->
      get_price platform category followers kwargs
      = get_price platform category followers [])
  /\ (forall (platform : string) (followers : Q) (kwargs : dict bool),
        is_celebrity kwargs = true ->
        exists p q : Q,
          get_price platform "影视综艺" followers [] = Ok p
          /\ get_price platform "影视综艺" followers kwargs = Ok q
          /\ (q == 2 * p)%Q).
Proof.
  split.
  - intros F HF platform category followers kwargs Hflag.
    apply get_price_no_bonus. destruct Hflag as [Hne | Hoff].
    + apply String.eqb_neq in Hne. now rewrite Hne.
    + rewrite Hoff. apply andb_false_r.
  - intros platform followers kwargs Hon.
    assert (Hin : In "影视综艺" categories) by (simpl; tauto).
    destruct (get_price_exact platform "影视综艺" followers [] Hin)
      as [b [c [Hb [Hc Hplain]]]].
    destruct (get_price_exact platform "影视综艺" followers kwargs Hin)
      as [b' [c' [Hb' [Hc' Hbonus]]]].
    rewrite Hb in Hb'. injection Hb' as <-.
    rewrite Hc in Hc'. injection Hc' as <-.
    eexists. eexists. split; [exact Hplain |]. split; [exact Hbonus |].
    unfold with_bonus. unfold is_celebrity in Hon. rewrite Hon.
    cbn. ring.
Qed.

Lemma X4_celebrity_flag_witness :
  ("游戏" <> "影视综艺" \/ is_celebrity [("is_celebrity", true)] = false)
  /\ get_price "B站" "游戏" 100000%float [("is_celebrity", true)]
     = get_price "B站" "游戏" 100000%float []
  /\ is_celebrity [("is_celebrity", true)] = true
  /\ exists p q : Q,
       get_price "B站" "影视综艺" 100000%Q [] = Ok p
       /\ get_price "B站" "影视综艺" 100000%Q [("is_celebrity", true)] = Ok q
       /\ (q == 2 * p)%Q.
Proof.
  assert (Hne : "游戏" <> "影视综艺") by discriminate.
  destruct X4_celebrity_flag as [Hoff Hon].
  split; [left; exact Hne |].
  split; [apply (Hoff _ _ "B站" "游戏" 100000%float _ (or_introl Hne)) |].
  split; [reflexivity |].
  apply (Hon "B站" 100000%Q [("is_celebrity", true)] eq_refl).
Defined.

(** ** Curves in exact arithmetic *)

Lemma read_breakpoints_exact (bps : list (Q * Q)) :
  read_breakpoints (F := Q) bps = bps.
Proof.
  unfold read_breakpoints.
  induction bps as [| [x y] bps IH]; simpl; [reflexivity |].
  f_equal. exact IH.
Qed.

Lemma in_interval_exact (s : segment Q) (x : Q) :
  in_interval s x = true <-> (seg_start s <= x < seg_end s)%Q.
Proof.
  unfold in_interval. rewrite andb_true_iff. simpl.
  now rewrite Qle_bool_iff, Qltb_lt.
Qed.

Lemma call_first (s : segment Q) (segs : list (segment Q)) (x : Q) :
  (seg_start s <= x < seg_end s)%Q ->
  __call__ (Curve (s :: segs)) x = Ok (eval_segment s x).
Proof.
  intros Hx. apply in_interval_exact in Hx. unfold in_interval in Hx.
  unfold __call__. simpl. simpl in Hx. now rewrite Hx.
Qed.

Lemma call_single (s : segment Q) (x : Q) :
  __call__ (Curve [s]) x = Ok (eval_segment s x).
Proof.
  unfold __call__. simpl.
  now destruct (Qle_bool (seg_start s) x && Exact.Qltb x (seg_end s)).
Qed.

Lemma last_segment_cons {F : Type} (s t : segment F) (segs : list (segment F)) :
  last_segment (s :: t :: segs) = last_segment (t :: segs).
Proof.
  unfold last_segment. simpl.
  destruct (rev segs) as [| u rest]; reflexivity.
Qed.

Lemma call_skip (s t : segment Q) (segs : list (segment Q)) (x : Q) :
  (seg_end s <= x)%Q ->
  __call__ (Curve (s :: t :: segs)) x = __call__ (Curve (t :: segs)) x.
Proof.
  intros Hx. unfold __call__. cbn [segments find_segment].
  assert (Hout : (seg_start s <=? x)%py && (x <? seg_end s)%py = false).
  { apply andb_false_iff. right. simpl.
    apply not_true_is_false. rewrite Qltb_lt. lra. }
  rewrite Hout, last_segment_cons. reflexivity.
Qed.

Lemma strictly_increasing_lower (p : Q * Q) (bps : list (Q * Q)) (x y : Q) :
  strictly_increasing (p :: bps) = true ->
  In (x, y) (p :: bps) -> (fst p <= x)%Q.
Proof.
  revert p. induction bps as [| q bps IH]; intros p Hinc Hin.
  - destruct Hin as [-> | []]. simpl. lra.
  - cbn [strictly_increasing] in Hinc.
    apply andb_true_iff in Hinc. destruct Hinc as [Hlt Hinc].
    apply Qltb_lt in Hlt.
    destruct Hin as [-> | Hin]; [simpl; lra |].
    pose proof (IH q Hinc Hin). lra.
Qed.

Lemma init_segments_step (p q : Q * Q) (rest : list (Q * Q))
    (segs : list (segment Q)) :
  (fst p < fst q)%Q ->
  init_segments (q :: rest) = Ok segs ->
  exists s,
    init_segments (p :: q :: rest) = Ok (s :: segs) /\ interpolates s p q.
Proof.
  destruct p as [x1 y1], q as [x2 y2]. simpl fst. intros Hlt Hrest.
  change (init_segments ((x1, y1) :: (x2, y2) :: rest))
    with (slope <- py_div (y2 - y1)%py (x2 - x1)%py ;;
          segs <- init_segments ((x2, y2) :: rest) ;;
          Ok (Segment x1 x2 slope (y1 - slope * x1)%py :: segs)).
  rewrite Hrest. unfold py_div.
  destruct (((x2 - x1)%py =? lit 0%Q)%py) eqn:Hz;
    [simpl in Hz; apply Qeq_bool_iff in Hz; lra |].
  cbn [bind]. eexists. split; [reflexivity |].
  unfold interpolates, eval_segment. simpl.
  repeat split; try reflexivity; [ring | field; lra].
Qed.

(** The curve built from strictly increasing breakpoints passes through
    each of them. *)
Lemma init_segments_through (bps : list (Q * Q)) :
  strictly_increasing bps = true ->
  (2 <= List.length bps)%nat ->
  exists s segs,
    init_segments bps = Ok (s :: segs)
    /\ List.length (s :: segs) = pred (List.length bps)
    /\ forall x y, In (x, y) bps ->
         exists v, __call__ (Curve (s :: segs)) x = Ok v /\ (v == y)%Q.
Proof.
  induction bps as [| p bps IH]; [simpl; lia |].
  destruct bps as [| q rest]; [simpl; lia |].
  intros Hinc _. cbn [strictly_increasing] in Hinc.
  apply andb_true_iff in Hinc. destruct Hinc as [Hlt Hinc].
  apply Qltb_lt in Hlt.
  destruct rest as [| r rest].
  - (* a single segment *)
    destruct (init_segments_step p q [] [] Hlt)
      as [s [Hinit [_ [_ [Hleft Hright]]]]]; [now destruct q |].
    exists s, []. split; [exact Hinit |]. split; [reflexivity |].
    intros x y [Heq | [Heq | []]]; subst; rewrite call_single;
      eexists; (split; [reflexivity |]); assumption.
  - destruct IH as [t [segs [Hrest [Hlen Hthrough]]]];
      [exact Hinc | simpl; lia |].
    destruct (init_segments_step p q (r :: rest) (t :: segs) Hlt Hrest)
      as [s [Hinit [Hstart [Hend [Hleft Hright]]]]].
    exists s, (t :: segs). split; [exact Hinit |].
    split; [simpl in *; lia |].
    intros x y [Heq | Hin].
    + subst p. simpl in *.
      rewrite call_first by (rewrite Hstart, Hend; lra).
      eexists. split; [reflexivity | exact Hleft].
    + rewrite call_skip.
      * exact (Hthrough x y Hin).
      * rewrite Hend.
        exact (strictly_increasing_lower q (r :: rest) x y Hinc Hin).
Qed.

(** X5.  In exact arithmetic, for any list of at least two breakpoints
    with strictly increasing x-values,
    ContinuousPiecewiseFunction(breakpoints) is built without an
    exception, has one segment fewer than there are breakpoints, and
    evaluates at the x-value of every breakpoint (the last one included,
    through the fall-back to the last segment) to that breakpoint's price. *)
Theorem X5_curve_passes_through_breakpoints (breakpoints : list (Q * Q)) :
  strictly_increasing breakpoints = true ->
  (2 <= List.length breakpoints)%nat ->
  exists f : ContinuousPiecewiseFunction Q,
    __init__ breakpoints = Ok f
    /\ List.length (segments f) = pred (List.length breakpoints)
    /\ forall x y, In (x, y) breakpoints ->
         exists v, __call__ f x = Ok v /\ (v == y)%Q.
Proof.
  intros Hinc Hlen.
  destruct (init_segments_through breakpoints Hinc Hlen)
    as [s [segs [Hinit [Hsegs Hthrough]]]].
  exists (Curve (s :: segs)). unfold __init__. rewrite Hinit.
  split; [reflexivity |]. split; [exact Hsegs | exact Hthrough].
Qed.

Lemma X5_curve_passes_through_breakpoints_witness :
  strictly_increasing [(0, 200); (60000, 6800); (300000, 15200)]%Q = true
  /\ (2 <= List.length [(0, 200); (60000, 6800); (300000, 15200)]%Q)%nat
  /\ exists f : ContinuousPiecewiseFunction Q,
       __init__ [(0, 200); (60000, 6800); (300000, 15200)]%Q = Ok f
       /\ List.length (segments f) = 2%nat
       /\ forall x y, In (x, y) [(0, 200); (60000, 6800); (300000, 15200)]%Q ->
            exists v, __call__ f x = Ok v /\ (v == y)%Q.
Proof.
  split; [reflexivity |]. split; [simpl; lia |].
  apply (X5_curve_passes_through_breakpoints
           [(0, 200); (60000, 6800); (300000, 15200)]%Q eq_refl).
  simpl. lia.
Defined.

(** ** Monotone curves *)

Lemma eval_segment_increasing (s : segment Q) (p q : Q * Q) (a b : Q) :
  interpolates s p q ->
  (fst p < fst q)%Q -> (snd p < snd q)%Q -> (a < b)%Q ->
  (eval_segment s a < eval_segment s b)%Q.
Proof.
  unfold interpolates, eval_segment. simpl.
  destruct p as [x1 y1], q as [x2 y2]. simpl.
  intros [_ [_ [Hleft Hright]]] Hx Hy Hab.
  assert (Hslope : (0 < seg_slope s)%Q).
  { destruct (Qlt_le_dec 0 (seg_slope s)) as [Hpos | Hneg]; [exact Hpos |].
    exfalso.
    assert (Hprod : (0 <= (- seg_slope s) * (x2 - x1))%Q)
      by (apply Qmult_le_0_compat; lra).
    lra. }
  assert (Hstep : (0 < seg_slope s * (b - a))%Q)
    by (apply Qmult_lt_0_compat; lra).
  lra.
Qed.

Lemma eval_segment_monotone (s : segment Q) (p q : Q * Q) (a b : Q) :
  interpolates s p q ->
  (fst p < fst q)%Q -> (snd p < snd q)%Q -> (a <= b)%Q ->
  (eval_segment s a <= eval_segment s b)%Q
  /\ ((a < b)%Q -> (eval_segment s a < eval_segment s b)%Q).
Proof.
  intros Hs Hx Hy Hab.
  assert (Hstrict : (a < b)%Q -> (eval_segment s a < eval_segment s b)%Q)
    by (apply (eval_segment_increasing s p q); assumption).
  split; [| exact Hstrict].
  destruct (Qlt_le_dec a b) as [Hlt | Hge]; [apply Qlt_le_weak; auto |].
  assert (Heq : (a == b)%Q) by lra.
  unfold eval_segment. simpl. rewrite Heq. lra.
Qed.

Lemma init_segments_monotone (p : Q * Q) (bps : list (Q * Q)) :
  strictly_increasing (p :: bps) = true ->
  prices_increasing (p :: bps) = true ->
  (1 <= List.length bps)%nat ->
  exists s segs,
    init_segments (p :: bps) = Ok (s :: segs)
    /\ forall a b, (fst p <= a)%Q -> (a <= b)%Q ->
         exists va vb,
           __call__ (Curve (s :: segs)) a = Ok va
           /\ __call__ (Curve (s :: segs)) b = Ok vb
           /\ (va <= vb)%Q
           /\ ((a < b)%Q -> (va < vb)%Q).
Proof.
  revert p. induction bps as [| q rest IH]; intros p; [simpl; lia |].
  intros Hinc Hmono _.
  cbn [strictly_increasing] in Hinc. cbn [prices_increasing] in Hmono.
  apply andb_true_iff in Hinc. destruct Hinc as [Hlt Hinc].
  apply andb_true_iff in Hmono. destruct Hmono as [Hle Hmono].
  apply Qltb_lt in Hlt. apply Qltb_lt in Hle.
  destruct rest as [| r rest].
  - destruct (init_segments_step p q [] [] Hlt)
      as [s [Hinit Hs]]; [now destruct q |].
    exists s, []. split; [exact Hinit |].
    intros a b _ Hab. rewrite !call_single.
    do 2 eexists. split; [reflexivity |]. split; [reflexivity |].
    exact (eval_segment_monotone s p q a b Hs Hlt Hle Hab).
  - destruct (IH q Hinc Hmono) as [t [segs [Hrest Htail]]]; [simpl; lia |].
    destruct (init_segments_step p q (r :: rest) (t :: segs) Hlt Hrest)
      as [s [Hinit Hs]].
    exists s, (t :: segs). split; [exact Hinit |].
    pose proof Hs as [Hstart [Hend [Hleft Hright]]].
    (* the tail curve passes through [q] *)
    destruct (init_segments_through (q :: r :: rest) Hinc) as
      [t' [segs' [Hrest' [_ Hthrough]]]]; [simpl; lia |].
    rewrite Hrest in Hrest'. injection Hrest' as <- <-.
    destruct (Hthrough (fst q) (snd q)) as [vq [Hvq Hq]];
      [left; now destruct q |].
    intros a b Ha Hab.
    destruct (Qlt_le_dec b (fst q)) as [Hb | Hb].
    + rewrite !call_first by (rewrite Hstart, Hend; lra).
      do 2 eexists. split; [reflexivity |]. split; [reflexivity |].
      exact (eval_segment_monotone s p q a b Hs Hlt Hle Hab).
    + destruct (Qlt_le_dec a (fst q)) as [Ha' | Ha'].
      * rewrite (call_first s _ a) by (rewrite Hstart, Hend; lra).
        rewrite (call_skip s t segs b) by (rewrite Hend; exact Hb).
        destruct (Htail (fst q) b) as [vq' [vb [Hvq' [Hvb [Hle' _]]]]];
          [lra | exact Hb |].
        rewrite Hvq in Hvq'. injection Hvq' as <-.
        do 2 eexists. split; [reflexivity |]. split; [exact Hvb |].
        assert (Hup : (eval_segment s a < eval_segment s (fst q))%Q)
          by (apply (eval_segment_increasing s p q); assumption).
        rewrite Hright in Hup. split; [| intros _]; lra.
      * rewrite (call_skip s t segs a), (call_skip s t segs b)
          by (rewrite Hend; lra).
        exact (Htail a b Ha' Hab).
Qed.

Lemma tables_well_formed :
  forallb (fun e => well_formed_table (snd e)) douyin_breakpoints = true.
Proof. vm_compute. reflexivity. Qed.

(** Every coefficient of the matrix is positive. *)
Lemma coefficients_positive :
  forallb (fun row => forallb (fun c => Exact.Qltb 0 (snd c)) (snd row))
          COEFF_MATRIX_literal = true.
Proof. vm_compute. reflexivity. Qed.

Lemma coefficient_positive (platform category : string) (c : Q) :
  coefficient platform category = Some c -> (0 < c)%Q.
Proof.
  rewrite coefficient_literal.
  destruct (dict_get category COEFF_MATRIX_literal) as [row |] eqn:Hrow;
    [| discriminate].
  intros Hc. injection Hc as <-.
  destruct (dict_get platform row) as [q |] eqn:Hq; [| simpl; lra].
  pose proof coefficients_positive as Hall. rewrite forallb_forall in Hall.
  specialize (Hall (category, row) (dict_get_In _ _ _ Hrow)). simpl in Hall.
  rewrite forallb_forall in Hall.
  specialize (Hall (platform, q) (dict_get_In _ _ _ Hq)).
  now apply Qltb_lt in Hall.
Qed.

(** The base price of a category grows with the follower count, from a
    price at 0 followers that is not negative. *)
Lemma base_price_monotone (category : string) (a b : Q) :
  In category categories ->
  (0 <= a)%Q -> (a <= b)%Q ->
  exists va vb,
    base_price category a = Ok va /\ base_price category b = Ok vb
    /\ (0 <= va)%Q /\ (va <= vb)%Q /\ ((a < b)%Q -> (va < vb)%Q).
Proof.
  intros Hin Ha Hab.
  destruct (curve_of_known_exact category Hin) as [f Hf].
  rewrite !(base_price_curve_of category _ f Hf).
  destruct (curve_of_init category f Hf) as [bps [Hbps Hinit]].
  rewrite read_breakpoints_exact in Hinit.
  pose proof tables_well_formed as Hall. rewrite forallb_forall in Hall.
  specialize (Hall (category, bps) Hbps). simpl in Hall.
  unfold well_formed_table in Hall.
  destruct bps as [| [x0 y0] [| q rest]]; try discriminate.
  apply andb_true_iff in Hall. destruct Hall as [Hall Hmono].
  apply andb_true_iff in Hall. destruct Hall as [Hall Hinc].
  apply andb_true_iff in Hall. destruct Hall as [Hzero Hpos].
  apply Qeq_bool_iff in Hzero. apply Qle_bool_iff in Hpos.
  destruct (init_segments_monotone (x0, y0) (q :: rest) Hinc Hmono)
    as [s [segs [Hsegs Hmonotone]]]; [simpl; lia |].
  destruct (init_segments_through ((x0, y0) :: q :: rest) Hinc)
    as [s' [segs' [Hsegs' [_ Hthrough]]]]; [simpl; lia |].
  rewrite Hsegs in Hsegs'. injection Hsegs' as <- <-.
  unfold __init__ in Hinit. rewrite Hsegs in Hinit. injection Hinit as <-.
  destruct (Hthrough x0 y0) as [v0 [Hv0 Hy0]]; [now left |].
  simpl in Hmonotone.
  destruct (Hmonotone x0 a) as [v0' [va [Hv0' [Hva [Hle0 _]]]]]; [lra | lra |].
  rewrite Hv0 in Hv0'. injection Hv0' as <-.
  destruct (Hmonotone a b) as [va' [vb [Hva' [Hvb [Hle Hlt]]]]];
    [lra | exact Hab |].
  rewrite Hva in Hva'. injection Hva' as <-.
  exists va, vb. repeat split; try assumption. lra.
Qed.

(** X7.  In exact arithmetic, for each of the 32 categories, any platform
    name and any keyword arguments, the price is never negative for a non-
    negative follower count and grows with it: 0 <= a <= b gives 0 <=
    get_price(a) <= get_price(b), strictly when a < b. *)
Theorem X7_price_grows_with_followers (platform category : string)
    (kwargs : dict bool) (a b : Q) :
  In category categories ->
  (0 <= a)%Q -> (a <= b)%Q ->
  exists pa pb : Q,
    get_price platform category a kwargs = Ok pa
    /\ get_price platform category b kwargs = Ok pb
    /\ (0 <= pa)%Q /\ (pa <= pb)%Q /\ ((a < b)%Q -> (pa < pb)%Q).
Proof.
  intros Hin Ha Hab.
  destruct (base_price_monotone category a b Hin Ha Hab)
    as [va [vb [Hva [Hvb [Hpos [Hle Hlt]]]]]].
  destruct (get_price_exact platform category a kwargs Hin)
    as [va' [c [Hva' [Hc Hpa]]]].
  destruct (get_price_exact platform category b kwargs Hin)
    as [vb' [c' [Hvb' [Hc' Hpb]]]].
  rewrite Hva in Hva'. injection Hva' as <-.
  rewrite Hvb in Hvb'. injection Hvb' as <-.
  rewrite Hc in Hc'. injection Hc' as <-.
  pose proof (coefficient_positive platform category c Hc) as Hcpos.
  do 2 eexists. split; [exact Hpa |]. split; [exact Hpb |].
  unfold with_bonus.
  destruct (String.eqb category "影视综艺"
            && dict_get_default "is_celebrity" kwargs false); simpl.
  - split; [apply Qmult_le_0_compat; lra |].
    split; [apply Qmult_le_compat_r; lra |].
    intros Hab'. specialize (Hlt Hab'). apply Qmult_lt_compat_r; lra.
  - split; [apply Qmult_le_0_compat; lra |].
    split; [apply Qmult_le_compat_r; lra |].
    intros Hab'. specialize (Hlt Hab'). apply Qmult_lt_compat_r; lra.
Qed.

Lemma X7_price_grows_with_followers_witness :
  In "美妆" categories
  /\ (0 <= 50000)%Q /\ (50000 <= 2500000)%Q
  /\ exists pa pb : Q,
       get_price "小红书" "美妆" 50000%Q [] = Ok pa
       /\ get_price "小红书" "美妆" 2500000%Q [] = Ok pb
       /\ (0 <= pa)%Q /\ (pa <= pb)%Q
       /\ ((50000 < 2500000)%Q -> (pa < pb)%Q).
Proof.
  assert (Hin : In "美妆" categories) by (simpl; tauto).
  assert (Ha : (0 <= 50000)%Q) by lra.
  assert (Hab : (50000 <= 2500000)%Q) by lra.
  split; [exact Hin |]. split; [exact Ha |]. split; [exact Hab |].
  exact (X7_price_grows_with_followers "小红书" "美妆" [] 50000 2500000
           Hin Ha Hab).
Defined.

(** ** The tables are reproduced *)

Lemma tables_reproduced_binary64 :
  forallb (reproduces_table tolerance) douyin_breakpoints = true.
Proof. vm_compute. reflexivity. Qed.

(** Each category is the key of one table. *)
Lemma tables_unique :
  map (fun e => dict_get (fst e) douyin_breakpoints) douyin_breakpoints
  = map (fun e => Some (snd e)) douyin_breakpoints.
Proof. vm_compute. reflexivity. Qed.

(** X6.  For every category and every breakpoint (x, y) of its table in
    build_douyin_functions, get_price('抖音', category, x) returns y:
    exactly in exact arithmetic, and within 1e-6 in binary64. *)
Theorem X6_prices_at_breakpoints (category : string) (bps : list (Q * Q))
    (x y : Q) :
  dict_get category douyin_breakpoints = Some bps ->
  In (x, y) bps ->
  (exists p : Q,
      get_price reference_platform category x [] = Ok p /\ (p == y)%Q)
  /\ (exists p : Binary64.float,
        get_price reference_platform category (lit x) [] = Ok p
        /\ close_to tolerance p (lit y) = true).
Proof.
  intros Hbps Hin. split.
  - assert (Hcat : In category categories).
    { unfold categories. apply dict_get_In in Hbps.
      exact (in_map fst _ _ Hbps). }
    destruct (get_price_exact reference_platform category x [] Hcat)
      as [b [c [Hb [Hc Hp]]]].
    rewrite (coefficient_reference category Hcat) in Hc. injection Hc as <-.
    eexists. split; [exact Hp |].
    destruct (curve_of_known_exact category Hcat) as [f Hf].
    rewrite (base_price_curve_of category x f Hf) in Hb.
    destruct (curve_of_init category f Hf) as [bps' [Hbps' Hinit]].
    rewrite read_breakpoints_exact in Hinit.
    pose proof tables_well_formed as Hall. rewrite forallb_forall in Hall.
    pose proof (Hall (category, bps) (dict_get_In _ _ _ Hbps)) as Hwf.
    pose proof (Hall (category, bps') Hbps') as Hwf'.
    assert (Hsame : bps' = bps).
    { pose proof (ext_in_map tables_unique (category, bps') Hbps') as Hget.
      cbn [fst snd] in Hget. congruence. }
    subst bps'. simpl in Hwf. unfold well_formed_table in Hwf.
    destruct bps as [| [x0 y0] [| q rest]]; try discriminate.
    apply andb_true_iff in Hwf. destruct Hwf as [Hwf _].
    apply andb_true_iff in Hwf. destruct Hwf as [_ Hinc].
    destruct (init_segments_through ((x0, y0) :: q :: rest) Hinc)
      as [s [segs [Hsegs [_ Hthrough]]]]; [simpl; lia |].
    unfold __init__ in Hinit. rewrite Hsegs in Hinit. injection Hinit as <-.
    destruct (Hthrough x y Hin) as [v [Hv Hy]].
    rewrite Hv in Hb. injection Hb as <-.
    unfold with_bonus. rewrite andb_false_r. simpl. lra.
  - pose proof tables_reproduced_binary64 as Hall.
    rewrite forallb_forall in Hall.
    specialize (Hall (category, bps) (dict_get_In _ _ _ Hbps)).
    unfold reproduces_table in Hall. rewrite forallb_forall in Hall.
    specialize (Hall (x, y) Hin). cbn [fst snd] in Hall.
    destruct (get_price reference_platform category (lit x) []) as [p | e];
      [| discriminate].
    now exists p.
Qed.

Lemma X6_prices_at_breakpoints_witness :
  dict_get "三农" douyin_breakpoints
  = Some [(0, 200); (6e4, 6800); (30e4, 15200); (75e4, 32000);
          (300e4, 68000); (750e4, 250000); (2000e4, 420000)]%Q
  /\ (exists p : Q,
        get_price reference_platform "三农" 75e4%Q [] = Ok p
        /\ (p == 32000)%Q)
  /\ (exists p : Binary64.float,
        get_price reference_platform "三农" (lit 75e4%Q) [] = Ok p
        /\ close_to tolerance p (lit 32000%Q) = true).
Proof.
  split; [reflexivity |].
  apply (X6_prices_at_breakpoints "三农" _ 75e4%Q 32000%Q eq_refl).
  simpl. tauto.
Defined.

(** ** The fan ranges as intervals *)

Section FanRanges.

Context {F : Type} `{PyFloat F}.

(** What the comparisons of either arithmetic satisfy; [x == x] fails of
    NaN only. *)
Hypothesis le_trans : forall a b c : F,
  (a <=? b)%py = true -> (b <=? c)%py = true -> (a <=? c)%py = true.
Hypothesis le_not_lt : forall a b : F,
  (a <=? b)%py = true -> (b <? a)%py = false.
Hypothesis not_lt_le : forall a b : F,
  (a =? a)%py = true -> (b =? b)%py = true ->
  (b <? a)%py = false -> (a <=? b)%py = true.
Hypothesis lt_self : forall a b : F,
  (a <? b)%py = true -> (a =? a)%py = true.

Hypothesis bounds_ordered :
  (lit 10%Q <=? lit 50%Q)%py = true
  /\ (lit 50%Q <=? lit 100%Q)%py = true
  /\ (lit 100%Q <=? lit 500%Q)%py = true
  /\ (lit 500%Q <=? lit 1000%Q)%py = true.
Hypothesis bounds_are_numbers :
  forall c, In c [10; 50; 100; 500; 1000]%Q ->
            (lit (F := F) c =? lit c)%py = true.

Lemma get_fan_range_intervals (x : F) :
  (get_fan_range x = "1-10万" <-> (x <? lit 10%Q)%py = true)
  /\ (get_fan_range x = "10-50万"
      <-> (lit 10%Q <=? x)%py = true /\ (x <? lit 50%Q)%py = true)
  /\ (get_fan_range x = "50-100万"
      <-> (lit 50%Q <=? x)%py = true /\ (x <? lit 100%Q)%py = true)
  /\ (get_fan_range x = "100-500万"
      <-> (lit 100%Q <=? x)%py = true /\ (x <? lit 500%Q)%py = true)
  /\ (get_fan_range x = "500-1000万"
      <-> (lit 500%Q <=? x)%py = true /\ (x <? lit 1000%Q)%py = true)
  /\ (get_fan_range x = "1000万+"
      <-> (lit 1000%Q <=? x)%py = true \/ (x =? x)%py = false).
Proof.
  destruct bounds_ordered as [H50 [H100 [H500 H1000]]].
  pose proof (le_trans _ _ _ H50 H100) as H10_100.
  pose proof (le_trans _ _ _ H10_100 H500) as H10_500.
  pose proof (le_trans _ _ _ H10_500 H1000) as H10_1000.
  pose proof (le_trans _ _ _ H100 H500) as H50_500.
  pose proof (le_trans _ _ _ H50_500 H1000) as H50_1000.
  pose proof (le_trans _ _ _ H500 H1000) as H100_1000.
  assert (Hdown : forall a b : F,
             (a <=? b)%py = true -> (b <=? x)%py = true ->
             (x <? a)%py = false)
    by (intros a b Hab Hbx; apply le_not_lt; exact (le_trans _ _ _ Hab Hbx)).
  assert (Hbelow : forall c,
             In c [10; 50; 100; 500; 1000]%Q ->
             (x =? x)%py = true -> (x <? lit c)%py = false ->
             (lit c <=? x)%py = true)
    by (intros c Hc Hx Hlt; apply not_lt_le;
        [exact (bounds_are_numbers c Hc) | exact Hx | exact Hlt]).
  unfold get_fan_range.
  destruct (x <? lit 10%Q)%py eqn:G10;
    [| destruct (x <? lit 50%Q)%py eqn:G50;
       [| destruct (x <? lit 100%Q)%py eqn:G100;
          [| destruct (x <? lit 500%Q)%py eqn:G500;
             [| destruct (x <? lit 1000%Q)%py eqn:G1000]]]];
    repeat match goal with
           | |- _ /\ _ => split
           | |- _ <-> _ => split
           end;
    intros Hyp; try discriminate Hyp; try reflexivity;
    try match type of Hyp with _ /\ _ => destruct Hyp as [Hle Hlt] end;
    try (split; [apply Hbelow;
                   [simpl; tauto | eapply lt_self; eassumption | assumption]
                | reflexivity]);
    try congruence;
    try match type of Hyp with _ \/ _ => destruct Hyp as [Hle | Hnan] end;
    repeat match goal with
           | Hl : (?c <=? x)%py = true |- _ =>
               pose proof (le_not_lt _ _ Hl);
               try pose proof (Hdown _ _ H50 Hl);
               try pose proof (Hdown _ _ H100 Hl);
               try pose proof (Hdown _ _ H500 Hl);
               try pose proof (Hdown _ _ H1000 Hl);
               try pose proof (Hdown _ _ H10_100 Hl);
               try pose proof (Hdown _ _ H10_500 Hl);
               try pose proof (Hdown _ _ H10_1000 Hl);
               try pose proof (Hdown _ _ H50_500 Hl);
               try pose proof (Hdown _ _ H50_1000 Hl);
               try pose proof (Hdown _ _ H100_1000 Hl);
               clear Hl
           end;
    try congruence;
    try match goal with
        | Hg : (x <? _)%py = true, Hn : (x =? x)%py = false |- _ =>
            rewrite (lt_self _ _ Hg) in Hn; discriminate Hn
        end.
  (* every bound reached: the last range, or a NaN *)
  destruct (x =? x)%py eqn:Hx; [left | right; reflexivity].
  apply Hbelow; [simpl; tauto | reflexivity | exact G1000].
Qed.

End FanRanges.

Lemma Q_not_lt_le (a b : Q) :
  (a =? a)%py = true -> (b =? b)%py = true ->
  (b <? a)%py = false -> (a <=? b)%py = true.
Proof.
  intros _ _ Hlt. simpl in *. apply Qle_bool_iff.
  unfold Exact.Qltb in Hlt. apply negb_false_iff in Hlt.
  now apply Qle_bool_iff in Hlt.
Qed.

Lemma Q_le_not_lt (a b : Q) : (a <=? b)%py = true -> (b <? a)%py = false.
Proof.
  simpl. intros Hle. unfold Exact.Qltb. now rewrite Hle.
Qed.

Lemma Q_le_trans (a b c : Q) :
  (a <=? b)%py = true -> (b <=? c)%py = true -> (a <=? c)%py = true.
Proof. simpl. rewrite !Qle_bool_iff. apply Qle_trans. Qed.

Lemma Q_lt_self (a b : Q) : (a <? b)%py = true -> (a =? a)%py = true.
Proof. intros _. simpl. apply Qeq_bool_refl. Qed.

Lemma SF_le_trans (a b c : spec_float) :
  SFleb a b = true -> SFleb b c = true -> SFleb a c = true.
Proof.
  unfold SFleb, SFcompare.
  destruct a as [[] | [] | | [] ma ea], b as [[] | [] | | [] mb eb],
    c as [[] | [] | | [] mc ec];
    simpl; intros Hab Hbc; try discriminate; try reflexivity;
    SF_order_cases.
Qed.

Lemma SF_le_not_lt (a b : spec_float) :
  SFleb a b = true -> SFltb b a = false.
Proof.
  unfold SFltb, SFleb, SFcompare.
  destruct a as [[] | [] | | [] ma ea], b as [[] | [] | | [] mb eb];
    simpl; intros Hab; try discriminate; try reflexivity;
    SF_order_cases.
Qed.

Lemma SF_not_lt_le (a b : spec_float) :
  SFeqb a a = true -> SFeqb b b = true ->
  SFltb b a = false -> SFleb a b = true.
Proof.
  unfold SFltb, SFleb, SFeqb, SFcompare.
  destruct a as [[] | [] | | [] ma ea], b as [[] | [] | | [] mb eb];
    simpl; intros Ha Hb Hlt; try discriminate; try reflexivity;
    SF_order_cases.
Qed.

Lemma SF_lt_self (a b : spec_float) : SFltb a b = true -> SFeqb a a = true.
Proof.
  unfold SFltb, SFeqb, SFcompare.
  destruct a as [[] | [] | | [] ma ea], b as [[] | [] | | [] mb eb];
    simpl; intros Hlt; try discriminate; try reflexivity;
    rewrite ?Z.compare_refl, ?Pos.compare_refl; reflexivity.
Qed.

Lemma binary64_le_trans (a b c : Binary64.float) :
  (a <=? b)%py = true -> (b <=? c)%py = true -> (a <=? c)%py = true.
Proof. simpl. rewrite !leb_spec. apply SF_le_trans. Qed.

Lemma binary64_le_not_lt (a b : Binary64.float) :
  (a <=? b)%py = true -> (b <? a)%py = false.
Proof. simpl. rewrite leb_spec, ltb_spec. apply SF_le_not_lt. Qed.

Lemma binary64_not_lt_le (a b : Binary64.float) :
  (a =? a)%py = true -> (b =? b)%py = true ->
  (b <? a)%py = false -> (a <=? b)%py = true.
Proof.
  simpl. rewrite !FloatAxioms.eqb_spec, leb_spec, ltb_spec.
  apply SF_not_lt_le.
Qed.

Lemma binary64_lt_self (a b : Binary64.float) :
  (a <? b)%py = true -> (a =? a)%py = true.
Proof. simpl. rewrite FloatAxioms.eqb_spec, ltb_spec. apply SF_lt_self. Qed.

Lemma binary64_bounds_ordered :
  (lit (F := Binary64.float) 10%Q <=? lit 50%Q)%py = true
  /\ (lit (F := Binary64.float) 50%Q <=? lit 100%Q)%py = true
  /\ (lit (F := Binary64.float) 100%Q <=? lit 500%Q)%py = true
  /\ (lit (F := Binary64.float) 500%Q <=? lit 1000%Q)%py = true.
Proof. repeat split; vm_compute; reflexivity. Qed.

Lemma binary64_bounds_are_numbers (c : Q) :
  In c [10; 50; 100; 500; 1000]%Q ->
  (lit (F := Binary64.float) c =? lit c)%py = true.
Proof.
  intros [<- | [<- | [<- | [<- | [<- | []]]]]]; vm_compute; reflexivity.
Qed.

(** X8.  get_fan_range partitions the follower counts (in units of ten
    thousand) into half-open intervals closed on the left: below 10 gives
    1-10万 (zero and negative counts included), [10, 50) gives 10-50万, [50,
    100) gives 50-100万, [100, 500) gives 100-500万, [500, 1000) gives
    500-1000万, and 1000 or more gives 1000万+. In binary64 a NaN, for which
    every comparison is false, also falls in 1000万+. *)
Theorem X8_fan_ranges_are_intervals :
  (forall x : Q,
      (get_fan_range x = "1-10万" <-> (x < 10)%Q)
      /\ (get_fan_range x = "10-50万" <-> (10 <= x < 50)%Q)
      /\ (get_fan_range x = "50-100万" <-> (50 <= x < 100)%Q)
      /\ (get_fan_range x = "100-500万" <-> (100 <= x < 500)%Q)
      /\ (get_fan_range x = "500-1000万" <-> (500 <= x < 1000)%Q)
      /\ (get_fan_range x = "1000万+" <-> (1000 <= x)%Q))
  /\ (forall x : Binary64.float,
        (get_fan_range x = "1-10万" <-> PrimFloat.ltb x 10 = true)
        /\ (get_fan_range x = "10-50万"
            <-> PrimFloat.leb 10 x = true /\ PrimFloat.ltb x 50 = true)
        /\ (get_fan_range x = "50-100万"
            <-> PrimFloat.leb 50 x = true /\ PrimFloat.ltb x 100 = true)
        /\ (get_fan_range x = "100-500万"
            <-> PrimFloat.leb 100 x = true /\ PrimFloat.ltb x 500 = true)
        /\ (get_fan_range x = "500-1000万"
            <-> PrimFloat.leb 500 x = true /\ PrimFloat.ltb x 1000 = true)
        /\ (get_fan_range x = "1000万+"
            <-> PrimFloat.leb 1000 x = true \/ PrimFloat.eqb x x = false)).
Proof.
  split.
  - intros x.
    pose proof (get_fan_range_intervals (F := Q)
                  Q_le_trans Q_le_not_lt Q_not_lt_le Q_lt_self) as Hgen.
    destruct (Hgen ltac:(repeat split; reflexivity)
                   ltac:(intros c _; apply Qeq_bool_refl) x)
      as [H1 [H2 [H3 [H4 [H5 H6]]]]].
    simpl in H1, H2, H3, H4, H5, H6.
    rewrite Qltb_lt in H1.
    rewrite Qle_bool_iff, Qltb_lt in H2, H3, H4, H5.
    rewrite Qle_bool_iff in H6.
    split; [exact H1 |]. split; [exact H2 |]. split; [exact H3 |].
    split; [exact H4 |]. split; [exact H5 |]. split.
    + intros Hr. apply H6 in Hr. destruct Hr as [Hr | Hr]; [exact Hr |].
      rewrite Qeq_bool_refl in Hr. discriminate.
    + intros Hr. apply H6. now left.
  - intros x.
    assert (H10 : lit 10%Q = 10%float) by (vm_compute; reflexivity).
    assert (H50 : lit 50%Q = 50%float) by (vm_compute; reflexivity).
    assert (H100 : lit 100%Q = 100%float) by (vm_compute; reflexivity).
    assert (H500 : lit 500%Q = 500%float) by (vm_compute; reflexivity).
    assert (H1000 : lit 1000%Q = 1000%float) by (vm_compute; reflexivity).
    rewrite <- H10, <- H50, <- H100, <- H500, <- H1000.
    exact (get_fan_range_intervals (F := Binary64.float)
             binary64_le_trans binary64_le_not_lt binary64_not_lt_le
             binary64_lt_self binary64_bounds_ordered
             binary64_bounds_are_numbers x).
Qed.

Lemma cells_found :
  forallb
    (fun m =>
       forallb
         (fun r => forallb (cell_found (fst m) (fst r)) (snd r))
         (snd m))
    literal_matrices
  = true.
Proof. vm_compute. reflexivity. Qed.

(** X9.  For a platform, fan range and label of the hard-coded matrices,
    get_expected_ad_count returns exactly the integer that the platform's
    literal matrix lists for the fan range of the follower count: the
    round trip through the DataFrame (str(value) on the way in, the row
    filter, int(...) on the way out) loses nothing. Holds in any
    arithmetic. *)
Theorem X9_expected_ad_count_is_the_matrix_cell {F : Type} `{PyFloat F}
    (platform label : string) (fans : F) (n : Z) :
  literal_count platform (get_fan_range fans) label = Some n ->
  get_expected_ad_count platform label fans = Ok n.
Proof.
  rewrite get_expected_ad_count_range. unfold literal_count.
  generalize (get_fan_range fans). intros fan_range.
  destruct (dict_get platform literal_matrices) as [matrix |] eqn:Hm;
    [| discriminate].
  destruct (dict_get fan_range matrix) as [row |] eqn:Hr; [| discriminate].
  intros Hcell.
  pose proof cells_found as Hall. rewrite forallb_forall in Hall.
  specialize (Hall (platform, matrix) (dict_get_In _ _ _ Hm)).
  cbn [fst snd] in Hall. rewrite forallb_forall in Hall.
  specialize (Hall (fan_range, row) (dict_get_In _ _ _ Hr)).
  cbn [fst snd] in Hall. rewrite forallb_forall in Hall.
  specialize (Hall (label, n) (dict_get_In _ _ _ Hcell)).
  unfold cell_found in Hall. cbn [fst snd] in Hall.
  destruct (expected_in_range platform label fan_range) as [k | e];
    [| discriminate].
  apply Z.eqb_eq in Hall. now subst.
Qed.

Lemma X9_expected_ad_count_is_the_matrix_cell_witness :
  literal_count "小红书" (get_fan_range 120%Q) "美妆" = Some 200
  /\ get_expected_ad_count "小红书" "美妆" 120%Q = Ok 200.
Proof.
  split; [reflexivity |].
  apply (X9_expected_ad_count_is_the_matrix_cell "小红书" "美妆" 120%Q 200).
  reflexivity.
Defined.

(** ** Lookups outside the matrix *)

Lemma rows_of_known_platforms :
  forallb row_of_known_platform (rows _matrix) = true.
Proof. vm_compute. reflexivity. Qed.

(** The columns of the matrix: the two key columns, then the labels. *)
Lemma matrix_columns : columns _matrix = "粉丝量级" :: "平台" :: labels.
Proof. vm_compute. reflexivity. Qed.

Lemma existsb_eqb_In (s : string) (l : list string) :
  existsb (String.eqb s) l = true <-> In s l.
Proof.
  rewrite existsb_exists. split.
  - intros [x [Hin Heq]]. apply String.eqb_eq in Heq. now subst.
  - intros Hin. exists s. split; [exact Hin | apply String.eqb_refl].
Qed.

Lemma select2_unknown_platform (platform fan_range : string) :
  ~ In platform platforms ->
  rows (select2 _matrix "粉丝量级" fan_range "平台" platform) = [].
Proof.
  intros Hnot. unfold select2. cbn [rows].
  pose proof rows_of_known_platforms as Hall.
  induction (rows _matrix) as [| row rest IH]; [reflexivity |].
  cbn [forallb] in Hall. apply andb_true_iff in Hall.
  destruct Hall as [Hrow Hrest]. cbn [filter].
  unfold row_of_known_platform in Hrow.
  destruct (dict_get "粉丝量级" row) as [a |]; [| discriminate].
  destruct (dict_get "平台" row) as [b |]; [| discriminate].
  apply existsb_eqb_In in Hrow.
  destruct (String.eqb_spec b platform) as [-> | Hne]; [contradiction |].
  rewrite andb_false_r. exact (IH Hrest).
Qed.

Lemma one_row_per_range_and_platform :
  forallb (fun r => forallb (reserved_cells r) platforms) fan_ranges = true.
Proof. vm_compute. reflexivity. Qed.

Lemma int_of_str_not_a_number :
  forallb (fun s => negb (is_ok (int_of_str s))) (fan_ranges ++ platforms)
  = true.
Proof. vm_compute. reflexivity. Qed.

(** X10.  get_expected_ad_count returns 0, without an exception, for a
    platform that is not one of the four and for a label that is not a
    column of the matrix. For the two key columns used as a label it
    raises ValueError, because int() is applied to the platform name
    (label 平台) or to the fan range (label 粉丝量级). Holds in any arithmetic. *)
Theorem X10_expected_ad_count_outside_the_matrix {F : Type} `{PyFloat F}
    (platform label : string) (fans : F) :
  (~ In platform platforms ->
   get_expected_ad_count platform label fans = Ok 0)
  /\ (~ In label ("粉丝量级" :: "平台" :: labels) ->
      get_expected_ad_count platform label fans = Ok 0)
  /\ (In platform platforms ->
      get_expected_ad_count platform "平台" fans
      = Raise (ValueError ("invalid literal for int() with base 10: '"
                           ++ platform ++ "'"))
      /\ get_expected_ad_count platform "粉丝量级" fans
         = Raise (ValueError ("invalid literal for int() with base 10: '"
                              ++ get_fan_range fans ++ "'"))).
Proof.
  rewrite !get_expected_ad_count_range.
  pose proof (get_fan_range_In fans) as Hrange.
  revert Hrange. generalize (get_fan_range fans). intros fan_range Hrange.
  split; [| split].
  - intros Hnot. unfold expected_in_range, empty.
    now rewrite (select2_unknown_platform platform fan_range Hnot).
  - intros Hnot. unfold expected_in_range.
    destruct (empty _); [reflexivity |].
    change (columns (select2 _matrix "粉丝量级" fan_range "平台" platform))
      with (columns _matrix).
    rewrite matrix_columns.
    destruct (existsb (String.eqb label) ("粉丝量级" :: "平台" :: labels))
      eqn:Hcol; [| reflexivity].
    apply existsb_eqb_In in Hcol. contradiction.
  - intros Hin.
    pose proof one_row_per_range_and_platform as Hall.
    rewrite forallb_forall in Hall. specialize (Hall fan_range Hrange).
    rewrite forallb_forall in Hall. specialize (Hall platform Hin).
    unfold reserved_cells in Hall. unfold expected_in_range, empty.
    change (columns (select2 _matrix "粉丝量级" fan_range "平台" platform))
      with (columns _matrix).
    rewrite matrix_columns. unfold int_of_first.
    destruct (rows (select2 _matrix "粉丝量级" fan_range "平台" platform))
      as [| row [| row' rest]]; try discriminate.
    destruct (dict_get "粉丝量级" row) as [r |]; [| discriminate].
    destruct (dict_get "平台" row) as [p |]; [| discriminate].
    apply andb_true_iff in Hall. destruct Hall as [Hr Hp].
    apply String.eqb_eq in Hr. apply String.eqb_eq in Hp. subst r p.
    pose proof int_of_str_not_a_number as Hnan.
    rewrite forallb_forall in Hnan.
    assert (Hp : is_ok (int_of_str platform) = false).
    { apply negb_true_iff, Hnan, in_or_app. now right. }
    assert (Hr : is_ok (int_of_str fan_range) = false).
    { apply negb_true_iff, Hnan, in_or_app. now left. }
    unfold int_of_str in *.
    destruct (NilZero.int_of_string platform); [discriminate |].
    destruct (NilZero.int_of_string fan_range); [discriminate |].
    split; reflexivity.
Qed.

Lemma X10_expected_ad_count_outside_the_matrix_witness :
  (~ In "微博" platforms /\ get_expected_ad_count "微博" "美妆" 120%Q = Ok 0)
  /\ (~ In "编程" ("粉丝量级" :: "平台" :: labels)
      /\ get_expected_ad_count "抖音" "编程" 120%Q = Ok 0)
  /\ (In "抖音" platforms
      /\ get_expected_ad_count "抖音" "平台" 120%float
         = Raise (ValueError "invalid literal for int() with base 10: '抖音'")
      /\ get_expected_ad_count "抖音" "粉丝量级" 120%float
         = Raise (ValueError
                    "invalid literal for int() with base 10: '100-500万'")).
Proof.
  assert (Hplatform : ~ In "微博" platforms).
  { simpl. intros Hin.
    repeat (destruct Hin as [Heq | Hin]; [discriminate Heq |]). exact Hin. }
  assert (Hlabel : ~ In "编程" ("粉丝量级" :: "平台" :: labels)).
  { simpl. intros Hin.
    repeat (destruct Hin as [Heq | Hin]; [discriminate Heq |]). exact Hin. }
  assert (Hin : In "抖音" platforms) by (simpl; tauto).
  split; [split; [exact Hplatform |] | split; [split; [exact Hlabel |] |]].
  - exact (proj1 (X10_expected_ad_count_outside_the_matrix
                    "微博" "美妆" 120%Q) Hplatform).
  - exact (proj1 (proj2 (X10_expected_ad_count_outside_the_matrix
                           "抖音" "编程" 120%Q)) Hlabel).
  - split; [exact Hin |].
    exact (proj2 (proj2 (X10_expected_ad_count_outside_the_matrix
                           "抖音" "编程" 120%float)) Hin).
Defined.

(** ** The matrix as a table *)

Lemma matrix_rows_complete :
  forallb (fun r => forallb (one_complete_row r) platforms) fan_ranges = true.
Proof. vm_compute. reflexivity. Qed.

(** X12.  generate_matrix builds a frame whose columns are 粉丝量级, 平台 and
    the 32 labels of self.labels, with one row for each pair of a fan
    range and a platform (6 x 4 = 24 rows). Selecting a pair gives exactly
    one row; it holds that fan range and that platform and, under every
    label, the decimal string of a positive count. *)
Theorem X12_generate_matrix_shape :
  columns generate_matrix = "粉丝量级" :: "平台" :: labels
  /\ List.length (rows generate_matrix)
     = (List.length fan_ranges * List.length platforms)%nat
  /\ forall fan_range platform,
       In fan_range fan_ranges -> In platform platforms ->
       exists row,
         rows (select2 generate_matrix "粉丝量级" fan_range "平台" platform)
         = [row]
         /\ dict_get "粉丝量级" row = Some fan_range
         /\ dict_get "平台" row = Some platform
         /\ forall label, In label labels ->
              exists n, dict_get label row = Some (str_of_int n) /\ 0 < n.
Proof.
  split; [exact matrix_columns |]. split; [vm_compute; reflexivity |].
  intros fan_range platform Hr Hp.
  pose proof one_row_per_range_and_platform as Hkeys.
  rewrite forallb_forall in Hkeys. specialize (Hkeys fan_range Hr).
  rewrite forallb_forall in Hkeys. specialize (Hkeys platform Hp).
  pose proof matrix_rows_complete as Hcells.
  rewrite forallb_forall in Hcells. specialize (Hcells fan_range Hr).
  rewrite forallb_forall in Hcells. specialize (Hcells platform Hp).
  unfold reserved_cells in Hkeys. unfold one_complete_row in Hcells.
  change _matrix with generate_matrix in *.
  destruct (rows (select2 generate_matrix "粉丝量级" fan_range "平台" platform))
    as [| row [| row' rest]]; try discriminate.
  exists row. split; [reflexivity |].
  destruct (dict_get "粉丝量级" row) as [r |]; [| discriminate].
  destruct (dict_get "平台" row) as [p |]; [| discriminate].
  apply andb_true_iff in Hkeys. destruct Hkeys as [Hr' Hp'].
  apply String.eqb_eq in Hr'. apply String.eqb_eq in Hp'. subst r p.
  split; [reflexivity |]. split; [reflexivity |].
  intros label Hl. unfold complete_row in Hcells.
  rewrite forallb_forall in Hcells. specialize (Hcells label Hl).
  destruct (dict_get label row) as [s |]; [| discriminate].
  destruct (int_of_str s) as [n | e]; [| discriminate].
  apply andb_true_iff in Hcells. destruct Hcells as [Hpos Hs].
  apply String.eqb_eq in Hs. apply Z.ltb_lt in Hpos.
  exists n. split; [now rewrite Hs | exact Hpos].
Qed.

Lemma X12_generate_matrix_shape_witness :
  In "50-100万" fan_ranges /\ In "B站" platforms
  /\ exists row,
       rows (select2 generate_matrix "粉丝量级" "50-100万" "平台" "B站") = [row]
       /\ dict_get "粉丝量级" row = Some "50-100万"
       /\ dict_get "平台" row = Some "B站"
       /\ forall label, In label labels ->
            exists n, dict_get label row = Some (str_of_int n) /\ 0 < n.
Proof.
  assert (Hr : In "50-100万" fan_ranges) by (simpl; tauto).
  assert (Hp : In "B站" platforms) by (simpl; tauto).
  split; [exact Hr |]. split; [exact Hp |].
  exact (proj2 (proj2 X12_generate_matrix_shape) "50-100万" "B站" Hr Hp).
Defined.

(** ** More followers, no fewer expected advertisements *)

Section Brackets.

Context {F : Type} `{PyFloat F}.

Hypothesis le_lt_trans : forall a b c : F,
  (a <=? b)%py = true -> (b <? c)%py = true -> (a <? c)%py = true.

Lemma get_fan_range_index (fans : F) :
  nth_error fan_ranges (fan_range_index fans) = Some (get_fan_range fans).
Proof.
  unfold fan_range_index, get_fan_range.
  repeat match goal with
         | |- context [if ?b then _ else _] => destruct b
         end; reflexivity.
Qed.

Lemma fan_range_index_monotone (a b : F) :
  (a <=? b)%py = true -> (fan_range_index a <= fan_range_index b)%nat.
Proof.
  intros Hab. unfold fan_range_index.
  repeat match goal with
         | |- context [(b <? ?c)%py] =>
             let Hb := fresh "Hb" in
             destruct (b <? c)%py eqn:Hb;
             [rewrite (le_lt_trans a b c Hab Hb) |]
         end;
  repeat match goal with
         | |- context [if ?t then _ else _] => destruct t
         end; lia.
Qed.

End Brackets.

(** Along [fan_ranges], the counts of a platform and a label never fall. *)
Lemma counts_never_fall :
  forallb
    (fun p => forallb (fun l => counts_nondecreasing (counts_along_ranges p l))
                      labels)
    platforms
  = true.
Proof. vm_compute. reflexivity. Qed.

Lemma counts_nondecreasing_head (a : Z) (l : list (result Z)) (k : nat)
    (z : result Z) :
  counts_nondecreasing (Ok a :: l) = true ->
  nth_error (Ok a :: l) k = Some z ->
  exists c, z = Ok c /\ a <= c.
Proof.
  revert a k. induction l as [| [b | e] l IH]; intros a k Hmono Hz.
  - destruct k as [| k]; [| destruct k; discriminate].
    injection Hz as <-. exists a. split; [reflexivity | lia].
  - destruct k as [| k].
    + injection Hz as <-. exists a. split; [reflexivity | lia].
    + cbn [counts_nondecreasing] in Hmono.
      apply andb_true_iff in Hmono. destruct Hmono as [Hab Hrest].
      apply Z.leb_le in Hab.
      destruct (IH b k Hrest Hz) as [c [Hc Hbc]].
      exists c. split; [exact Hc | lia].
  - discriminate.
Qed.

Lemma counts_nondecreasing_tail (x : result Z) (l : list (result Z)) :
  l <> [] ->
  counts_nondecreasing (x :: l) = true -> counts_nondecreasing l = true.
Proof.
  destruct x as [a | e]; [| discriminate].
  destruct l as [| [b | e] l]; [congruence | | discriminate].
  intros _ Hmono. cbn [counts_nondecreasing] in Hmono.
  now apply andb_true_iff in Hmono.
Qed.

Lemma counts_nondecreasing_nth (l : list (result Z)) (i j : nat)
    (x y : result Z) :
  counts_nondecreasing l = true ->
  (i <= j)%nat ->
  nth_error l i = Some x -> nth_error l j = Some y ->
  exists a b, x = Ok a /\ y = Ok b /\ a <= b.
Proof.
  revert i j. induction l as [| h l IH]; intros i j Hmono Hij Hx Hy.
  - destruct i; discriminate.
  - destruct i as [| i].
    + injection Hx as <-. destruct h as [a | e]; [| discriminate].
      destruct (counts_nondecreasing_head a l j y Hmono Hy) as [c [-> Hc]].
      now exists a, c.
    + destruct j as [| j]; [lia |].
      apply (IH i j); [| lia | exact Hx | exact Hy].
      apply (counts_nondecreasing_tail h); [| exact Hmono].
      intros ->. destruct i; discriminate.
Qed.

Section MoreFollowers.

Context {F : Type} `{PyFloat F}.

Hypothesis le_lt_trans : forall a b c : F,
  (a <=? b)%py = true -> (b <? c)%py = true -> (a <? c)%py = true.

Lemma get_expected_ad_count_monotone (platform label : string) (a b : F) :
  In platform platforms -> In label labels ->
  (a <=? b)%py = true ->
  exists na nb,
    get_expected_ad_count platform label a = Ok na
    /\ get_expected_ad_count platform label b = Ok nb
    /\ na <= nb.
Proof.
  intros Hp Hl Hab. rewrite !get_expected_ad_count_range.
  pose proof counts_never_fall as Hall.
  rewrite forallb_forall in Hall. specialize (Hall platform Hp).
  rewrite forallb_forall in Hall. specialize (Hall label Hl).
  apply (counts_nondecreasing_nth _ (fan_range_index a) (fan_range_index b)
           _ _ Hall (fan_range_index_monotone le_lt_trans a b Hab));
    unfold counts_along_ranges; rewrite nth_error_map, get_fan_range_index;
    reflexivity.
Qed.

End MoreFollowers.

Lemma Q_le_lt_trans (a b c : Q) :
  (a <=? b)%py = true -> (b <? c)%py = true -> (a <? c)%py = true.
Proof.
  simpl. rewrite Qle_bool_iff, !Qltb_lt. apply Qle_lt_trans.
Qed.

Lemma SF_le_lt_trans (a b c : spec_float) :
  SFleb a b = true -> SFltb b c = true -> SFltb a c = true.
Proof.
  unfold SFltb, SFleb, SFcompare.
  destruct a as [[] | [] | | [] ma ea], b as [[] | [] | | [] mb eb],
    c as [[] | [] | | [] mc ec];
    simpl; intros Hab Hbc; try discriminate; try reflexivity;
    SF_order_cases.
Qed.

Lemma binary64_le_lt_trans (a b c : Binary64.float) :
  (a <=? b)%py = true -> (b <? c)%py = true -> (a <? c)%py = true.
Proof. simpl. rewrite !ltb_spec, !leb_spec. apply SF_le_lt_trans. Qed.

(** X11.  For every platform and label of the matrix, the expected ad
    count is positive and never falls when the follower count grows: a <=
    b gives 0 < count(a) <= count(b), in exact arithmetic and in binary64
    (where a <= b is Python's comparison, false for NaN). *)
Theorem X11_more_followers_no_fewer_expected_ads (platform label : string) :
  In platform platforms -> In label labels ->
  (forall a b : Q,
      (a <= b)%Q ->
      exists na nb,
        get_expected_ad_count platform label a = Ok na
        /\ get_expected_ad_count platform label b = Ok nb
        /\ 0 < na <= nb)
  /\ (forall a b : Binary64.float,
        PrimFloat.leb a b = true ->
        exists na nb,
          get_expected_ad_count platform label a = Ok na
          /\ get_expected_ad_count platform label b = Ok nb
          /\ 0 < na <= nb).
Proof.
  intros Hp Hl.
  assert (Hvp : In platform valid_platforms) by exact Hp.
  assert (Hvl : In label valid_labels) by exact Hl.
  split.
  - intros a b Hab. apply Qle_bool_iff in Hab.
    destruct (get_expected_ad_count_monotone Q_le_lt_trans platform label a b
                Hp Hl Hab) as [na [nb [Hna [Hnb Hle]]]].
    destruct (get_expected_ad_count_valid platform label a Hvp Hvl)
      as [na' [Hna' Hpos]].
    rewrite Hna in Hna'. injection Hna' as <-.
    exists na, nb. repeat split; try assumption.
  - intros a b Hab.
    destruct (get_expected_ad_count_monotone binary64_le_lt_trans
                platform label a b Hp Hl Hab) as [na [nb [Hna [Hnb Hle]]]].
    destruct (get_expected_ad_count_valid platform label a Hvp Hvl)
      as [na' [Hna' Hpos]].
    rewrite Hna in Hna'. injection Hna' as <-.
    exists na, nb. repeat split; try assumption.
Qed.

Lemma X11_more_followers_no_fewer_expected_ads_witness :
  In "快手" platforms /\ In "游戏" labels
  /\ (5 <= 120)%Q
  /\ (exists na nb,
        get_expected_ad_count "快手" "游戏" 5%Q = Ok na
        /\ get_expected_ad_count "快手" "游戏" 120%Q = Ok nb
        /\ 0 < na <= nb)
  /\ PrimFloat.leb 5 120 = true
  /\ (exists na nb,
        get_expected_ad_count "快手" "游戏" 5%float = Ok na
        /\ get_expected_ad_count "快手" "游戏" 120%float = Ok nb
        /\ 0 < na <= nb).
Proof.
  assert (Hp : In "快手" platforms) by (simpl; tauto).
  assert (Hl : In "游戏" labels) by (simpl; tauto).
  assert (Hq : (5 <= 120)%Q) by lra.
  destruct (X11_more_followers_no_fewer_expected_ads "快手" "游戏" Hp Hl)
    as [Hexact Hdouble].
  split; [exact Hp |]. split; [exact Hl |]. split; [exact Hq |].
  split; [exact (Hexact 5%Q 120%Q Hq) |].
  split; [reflexivity |].
  exact (Hdouble 5%float 120%float eq_refl).
Defined.

(** ** The baseline is ratio 1 *)

Lemma round_half_even_Z (m : Z) : Exact.round_half_even (inject_Z m) = m.
Proof.
  unfold Exact.round_half_even. cbv zeta. rewrite Qfloor_Z.
  assert (Hlt : Qcompare (inject_Z m - inject_Z m) (1 # 2) = Lt).
  { apply Qlt_alt. setoid_replace (inject_Z m - inject_Z m)%Q with 0%Q by ring.
    reflexivity. }
  now rewrite Hlt.
Qed.

Lemma Qround_digits_Z (m : Z) : (Exact.Qround_digits (inject_Z m) 2 == inject_Z m)%Q.
Proof.
  unfold Exact.Qround_digits. cbv zeta.
  rewrite (round_half_even_comp _ (inject_Z (m * 100))).
  - rewrite round_half_even_Z. unfold Qeq, inject_Z. simpl. lia.
  - rewrite inject_Z_mult. reflexivity.
Qed.

Lemma unit_ratios :
  forallb
    (fun r => forallb (fun p => forallb (fun l => unit_ratio p l r) labels)
                      platforms)
    fan_ranges
  = true.
Proof. vm_compute. reflexivity. Qed.

Lemma round_half_even_monotone (x y : Q) :
  (x <= y)%Q -> Exact.round_half_even x <= Exact.round_half_even y.
Proof.
  intros Hxy. unfold Exact.round_half_even. cbv zeta.
  pose proof (Qfloor_resp_le x y Hxy) as Hfloor.
  pose proof (Qfloor_le x) as Hxlo. pose proof (Qlt_floor x) as Hxhi.
  pose proof (Qfloor_le y) as Hylo. pose proof (Qlt_floor y) as Hyhi.
  rewrite inject_Z_plus in Hxhi, Hyhi.
  destruct (Z.eq_dec (Qfloor x) (Qfloor y)) as [Heq | Hne].
  - rewrite <- Heq in *. set (f := Qfloor x) in *.
    destruct (Qcompare_spec (x - inject_Z f) (1 # 2));
      destruct (Qcompare_spec (y - inject_Z f) (1 # 2));
      try destruct (Z.even f); try lia; try lra.
  - assert (Hlt : Qfloor x + 1 <= Qfloor y) by lia.
    destruct (Qcompare (x - inject_Z (Qfloor x)) (1 # 2));
      destruct (Qcompare (y - inject_Z (Qfloor y)) (1 # 2));
      try destruct (Z.even (Qfloor x)); try destruct (Z.even (Qfloor y)); lia.
Qed.

Lemma Qround_digits_monotone (x y : Q) (n : nat) :
  (x <= y)%Q -> (Exact.Qround_digits x n <= Exact.Qround_digits y n)%Q.
Proof.
  intros Hxy. unfold Exact.Qround_digits. cbv zeta.
  set (s := 10 ^ Z.of_nat n).
  assert (Hs : 0 < s) by (apply Z.pow_pos_nonneg; lia).
  unfold Qle. simpl.
  apply Z.mul_le_mono_nonneg_r; [lia |].
  apply round_half_even_monotone.
  apply Qmult_le_compat_r; [exact Hxy |].
  change 0%Q with (inject_Z 0). rewrite <- Zle_Qle. lia.
Qed.

(** X13.  For every platform and label of the matrix and every follower
    count, calculate_development_ratio does not take the zero-expectation
    branch. In exact arithmetic actual_ads = k * expected gives ratio k (1
    at the expected count, 0 at none), and the ratio never falls when
    actual_ads grows; in binary64 the ratio at the expected count is
    exactly 1.0. *)
Theorem X13_baseline_has_ratio_one (platform label : string) :
  In platform platforms -> In label labels ->
  (forall fans : Q,
      exists n : Z,
        get_expected_ad_count platform label fans = Ok n
        /\ 0 < n
        /\ (forall k : Z,
              exists r : Q,
                calculate_development_ratio platform label fans (k * n) = Ok r
                /\ (r == inject_Z k)%Q)
        /\ (forall a1 a2 : Z,
              a1 <= a2 ->
              exists r1 r2 : Q,
                calculate_development_ratio platform label fans a1 = Ok r1
                /\ calculate_development_ratio platform label fans a2 = Ok r2
                /\ (r1 <= r2)%Q))
  /\ (forall fans : Binary64.float,
        exists n : Z,
          get_expected_ad_count platform label fans = Ok n
          /\ calculate_development_ratio platform label fans n = Ok 1%float).
Proof.
  intros Hp Hl. split.
  - intros fans.
    destruct (get_expected_ad_count_valid platform label fans Hp Hl)
      as [n [Hn Hpos]].
    exists n. split; [exact Hn |]. split; [exact Hpos |].
    assert (Hnz : (n =? 0) = false) by (apply Z.eqb_neq; lia).
    assert (Hratio : forall a : Z,
               calculate_development_ratio platform label fans a
               = Ok (Exact.Qround_digits (inject_Z a / inject_Z n) 2)).
    { intros a. unfold calculate_development_ratio. rewrite Hn. cbn [bind].
      rewrite Hnz. simpl. unfold Exact.Qint_truediv. rewrite Hnz. reflexivity. }
    assert (Hn0 : (0 < inject_Z n)%Q)
      by (change 0%Q with (inject_Z 0); rewrite <- Zlt_Qlt; exact Hpos).
    split.
    + intros k. rewrite Hratio. eexists. split; [reflexivity |].
      rewrite (Qround_digits_comp _ (inject_Z k)); [apply Qround_digits_Z |].
      rewrite inject_Z_mult. field. lra.
    + intros a1 a2 Ha. rewrite !Hratio.
      do 2 eexists. split; [reflexivity |]. split; [reflexivity |].
      apply Qround_digits_monotone.
      apply Qmult_le_compat_r.
      * rewrite <- Zle_Qle. exact Ha.
      * apply Qlt_le_weak, Qinv_lt_0_compat. exact Hn0.
  - intros fans.
    destruct (get_expected_ad_count_valid platform label fans Hp Hl)
      as [n [Hn Hpos]].
    exists n. split; [exact Hn |].
    unfold calculate_development_ratio. rewrite Hn. cbn [bind].
    assert (Hnz : (n =? 0) = false) by (apply Z.eqb_neq; lia).
    rewrite Hnz.
    pose proof unit_ratios as Hall.
    rewrite forallb_forall in Hall.
    specialize (Hall _ (get_fan_range_In fans)).
    rewrite forallb_forall in Hall. specialize (Hall platform Hp).
    rewrite forallb_forall in Hall. specialize (Hall label Hl).
    unfold unit_ratio in Hall.
    rewrite <- get_expected_ad_count_range, Hn in Hall.
    destruct (int_truediv n n) as [q | e]; [| discriminate].
    cbn [bind]. apply Leibniz.eqb_spec in Hall. now rewrite Hall.
Qed.

Lemma X13_baseline_has_ratio_one_witness :
  In "抖音" platforms /\ In "三农" labels
  /\ (exists n : Z,
        get_expected_ad_count "抖音" "三农" 5%Q = Ok n
        /\ 0 < n
        /\ (exists r : Q,
              calculate_development_ratio "抖音" "三农" 5%Q (3 * n) = Ok r
              /\ (r == inject_Z 3)%Q)
        /\ (2 <= 7
            /\ exists r1 r2 : Q,
                 calculate_development_ratio "抖音" "三农" 5%Q 2 = Ok r1
                 /\ calculate_development_ratio "抖音" "三农" 5%Q 7 = Ok r2
                 /\ (r1 <= r2)%Q))
  /\ (exists n : Z,
        get_expected_ad_count "抖音" "三农" 5%float = Ok n
        /\ calculate_development_ratio "抖音" "三农" 5%float n = Ok 1%float).
Proof.
  assert (Hp : In "抖音" platforms) by (simpl; tauto).
  assert (Hl : In "三农" labels) by (simpl; tauto).
  assert (Hle : 2 <= 7) by lia.
  destruct (X13_baseline_has_ratio_one "抖音" "三农" Hp Hl) as [Hexact Hdouble].
  split; [exact Hp |]. split; [exact Hl |].
  split; [| exact (Hdouble 5%float)].
  destruct (Hexact 5%Q) as [n [Hn [Hpos [Hk Hmono]]]].
  exists n. split; [exact Hn |]. split; [exact Hpos |].
  split; [exact (Hk 3) |]. split; [exact Hle | exact (Hmono 2 7 Hle)].
Defined.

(** ** Validation *)

Section Validation.

Context {F : Type} `{PyFloat F}.

Variable np_sqrt : F -> F.
Variable np_log : F -> F.
Variable np_truediv : F -> F -> F.
Variable np_round : F -> nat -> F.

Lemma params_invalid (d : dict (Q * Q * Q)) (key : string) :
  ~ In key (dict_keys d) -> dict_get key (read_params (F := F) d) = None.
Proof.
  intros Hnot. rewrite read_params_get.
  now rewrite (dict_get_None key d Hnot).
Qed.

(** ** One row for each year *)

Lemma predict_years_rows (step : Z -> result (Z * F * Z * F)) (years : list Z)
    (rows : list (Z * F * Z * F)) :
  (forall year row, step year = Ok row -> row_year row = year) ->
  predict_years step years = Ok rows ->
  map row_year rows = years.
Proof.
  intros Hstep. revert rows.
  induction years as [| year rest IH]; intros rows; simpl.
  - intros Heq. now injection Heq as <-.
  - intros Hrows. apply bind_Ok in Hrows. destruct Hrows as [row [Hrow Hrows]].
    apply bind_Ok in Hrows. destruct Hrows as [rows' [Hrest Hrows]].
    injection Hrows as <-. simpl.
    now rewrite (Hstep year row Hrow), (IH rows' Hrest).
Qed.

Lemma predict_year_year (platform label : string)
    (k alpha delta fans_in_wan current_fans s : F) (price_is_np : bool)
    (growth_rate : option F) (year : Z) (row : Z * F * Z * F) :
  predict_year np_log np_truediv np_round platform label k alpha delta
    fans_in_wan current_fans s price_is_np growth_rate year = Ok row ->
  row_year row = year.
Proof.
  unfold predict_year. intros Hrow.
  apply bind_Ok in Hrow. destruct Hrow as [ft [_ Hrow]].
  apply bind_Ok in Hrow. destruct Hrow as [nt [_ Hrow]].
  apply bind_Ok in Hrow. destruct Hrow as [growth [_ Hrow]].
  now injection Hrow as <-.
Qed.

Lemma predict_value_rows
    (fans : F) (platform label : string) (single_ad_value : option F)
    (years : list Z) (growth_rate : option F) (rows : list (Z * F * Z * F)) :
  predict_value np_sqrt np_log np_truediv np_round
    fans platform label single_ad_value years growth_rate = Ok rows ->
  map row_year rows = years.
Proof.
  unfold predict_value. intros Hrows.
  destruct (dict_get platform platform_params)
    as [[[k beta] fan_limit] |]; [| discriminate].
  destruct (dict_get label label_params)
    as [[[alpha gamma] delta] |]; [| discriminate].
  apply bind_Ok in Hrows. destruct Hrows as [price [_ Hrows]].
  apply bind_Ok in Hrows. destruct Hrows as [fans_in_wan [_ Hrows]].
  apply (predict_years_rows _ _ _ (predict_year_year _ _ _ _ _ _ _ _ _ _) Hrows).
Qed.

End Validation.

(** X15.  Whenever predict_value returns, it returns one row for each
    element of years, in the order of years and with that year in the
    first column (duplicates kept), and the platform and the label were
    valid ones. Holds in any arithmetic. *)
Theorem X15_predict_value_one_row_per_year {F : Type} `{PyFloat F}
    (np_sqrt np_log : F -> F) (np_truediv : F -> F -> F)
    (np_round : F -> nat -> F)
    (fans : F) (platform label : string) (single_ad_value : option F)
    (years : list Z) (growth_rate : option F) (rows : list (Z * F * Z * F)) :
  predict_value np_sqrt np_log np_truediv np_round
    fans platform label single_ad_value years growth_rate = Ok rows ->
  map row_year rows = years
  /\ In platform valid_platforms /\ In label valid_labels.
Proof.
  intros Hrows. split; [exact (predict_value_rows _ _ _ _ _ _ _ _ _ _ _ Hrows) |].
  revert Hrows. unfold predict_value, platform_params, label_params.
  destruct (dict_get platform (read_params platform_params_literal))
    as [[[k beta] fan_limit] |] eqn:Hp; [| discriminate].
  destruct (dict_get label (read_params label_params_literal))
    as [[[alpha gamma] delta] |] eqn:Hl; [| discriminate].
  intros _. split.
  - destruct (in_dec string_dec platform valid_platforms) as [Hin | Hnot];
      [exact Hin |].
    rewrite (params_invalid _ _ Hnot) in Hp. discriminate.
  - destruct (in_dec string_dec label valid_labels) as [Hin | Hnot];
      [exact Hin |].
    rewrite (params_invalid _ _ Hnot) in Hl. discriminate.
Qed.

(** X14.  predict_value validates the platform first and the label second,
    before anything else: an unknown platform raises ValueError('无效平台！可选:
    [...]') whatever the other arguments are, and a known platform with an
    unknown label raises ValueError('无效标签！可选: [...]'). get_single_ad_value
    raises the same label error. Holds in any arithmetic and for any NumPy
    functions. *)
Theorem X14_predict_value_validates_platform_then_label
    {F : Type} `{PyFloat F}
    (np_sqrt np_log : F -> F) (np_truediv : F -> F -> F)
    (np_round : F -> nat -> F)
    (fans : F) (platform label : string) (single_ad_value : option F)
    (years : list Z) (growth_rate : option F) :
  (~ In platform valid_platforms ->
   predict_value np_sqrt np_log np_truediv np_round
     fans platform label single_ad_value years growth_rate
   = Raise (ValueError "无效平台！可选: ['抖音', '小红书', 'B站', '快手']"))
  /\ (In platform valid_platforms -> ~ In label valid_labels ->
      predict_value np_sqrt np_log np_truediv np_round
        fans platform label single_ad_value years growth_rate
      = Raise (ValueError ("无效标签！可选: " ++ repr_keys label_params_literal)))
  /\ (~ In label valid_labels ->
      get_single_ad_value np_sqrt np_round platform label fans
      = Raise (ValueError ("无效标签！可选: " ++ repr_keys label_params_literal))).
Proof.
  split; [| split].
  - intros Hp. unfold predict_value, platform_params.
    now rewrite (params_invalid _ _ Hp).
  - intros Hp Hl. unfold predict_value, platform_params, label_params.
    destruct (params_valid (F := F) platform_params_literal platform Hp)
      as [k [beta [fan_limit ->]]].
    now rewrite (params_invalid _ _ Hl).
  - intros Hl. unfold get_single_ad_value, label_params.
    now rewrite (params_invalid _ _ Hl).
Qed.

Lemma X14_predict_value_validates_platform_then_label_witness :
  (~ In "微博" valid_platforms
   /\ predict_value (fun x => x) (fun x => x) Qdiv Exact.Qround_digits
        100000%Q "微博" "编程" (Some 10%Q) default_years None
      = Raise (ValueError "无效平台！可选: ['抖音', '小红书', 'B站', '快手']"))
  /\ (In "抖音" valid_platforms /\ ~ In "编程" valid_labels
      /\ predict_value (fun x => x) (fun x => x) Qdiv Exact.Qround_digits
           100000%Q "抖音" "编程" (Some 10%Q) default_years None
         = Raise (ValueError ("无效标签！可选: "
                              ++ repr_keys label_params_literal))
      /\ get_single_ad_value (fun x => x) Exact.Qround_digits
           "抖音" "编程" 10%Q
         = Raise (ValueError ("无效标签！可选: "
                              ++ repr_keys label_params_literal))).
Proof.
  assert (Hplatform : ~ In "微博" valid_platforms).
  { simpl. intros Hin.
    repeat (destruct Hin as [Heq | Hin]; [discriminate Heq |]). exact Hin. }
  assert (Hlabel : ~ In "编程" valid_labels).
  { simpl. intros Hin.
    repeat (destruct Hin as [Heq | Hin]; [discriminate Heq |]). exact Hin. }
  assert (Hin : In "抖音" valid_platforms) by (simpl; tauto).
  split; [split; [exact Hplatform |] | split; [exact Hin |
          split; [exact Hlabel | split]]].
  - exact (proj1 (X14_predict_value_validates_platform_then_label
                    (fun x => x) (fun x => x) Qdiv Exact.Qround_digits
                    100000%Q "微博" "编程" (Some 10%Q) default_years None)
             Hplatform).
  - exact (proj1 (proj2 (X14_predict_value_validates_platform_then_label
                           (fun x => x) (fun x => x) Qdiv Exact.Qround_digits
                           100000%Q "抖音" "编程" (Some 10%Q) default_years
                           None))
             Hin Hlabel).
  - exact (proj2 (proj2 (X14_predict_value_validates_platform_then_label
                           (fun x => x) (fun x => x) Qdiv Exact.Qround_digits
                           10%Q "抖音" "编程" (Some 10%Q) default_years None))
             Hlabel).
Defined.

Lemma X15_predict_value_one_row_per_year_witness :
  exists rows,
    predict_value (fun x => x) (fun x => x) Qdiv Exact.Qround_digits
      100000%Q "抖音" "美妆" (Some 10%Q) [3; 1; 3] (Some 20%Q) = Ok rows
    /\ map row_year rows = [3; 1; 3]
    /\ In "抖音" valid_platforms /\ In "美妆" valid_labels.
Proof.
  destruct (predict_value (fun x => x) (fun x => x) Qdiv Exact.Qround_digits
              100000%Q "抖音" "美妆" (Some 10%Q) [3; 1; 3] (Some 20%Q))
    as [rows | e] eqn:Hrows.
  - exists rows. split; [reflexivity |].
    exact (X15_predict_value_one_row_per_year _ _ _ _ _ _ _ _ _ _ _ Hrows).
  - vm_compute in Hrows. discriminate Hrows.
Defined.

(** ** The built-in growth model never raises *)

Section DefaultGrowth.

Context {F : Type} `{PyFloat F}.

Variable np_sqrt : F -> F.
Variable np_log : F -> F.
Variable np_truediv : F -> F -> F.
Variable np_round : F -> nat -> F.

Hypothesis ten_thousand_nonzero : (lit 10000%Q =? lit 0%Q)%py = false.

Lemma in_wan (fans : F) : py_div fans (lit 10000%Q) = Ok (fdiv fans (lit 10000%Q)).
Proof. unfold py_div. now rewrite ten_thousand_nonzero. Qed.

Lemma predict_year_default (platform label : string)
    (k alpha delta fans_in_wan current_fans s : F) (price_is_np : bool)
    (year : Z) :
  In platform valid_platforms -> In label valid_labels ->
  exists row,
    predict_year np_log np_truediv np_round platform label k alpha delta
      fans_in_wan current_fans s price_is_np None year = Ok row.
Proof.
  intros Hp Hl. unfold predict_year. cbn [bind].
  destruct (get_expected_ad_count_valid platform label
              (fans_in_wan
               + k * np_log (lit (inject_Z (year + 1))) * (lit 1%Q + alpha))%py
              Hp Hl) as [nt [-> _]].
  cbn [bind]. now eexists.
Qed.

Lemma predict_years_total (step : Z -> result (Z * F * Z * F)) (years : list Z) :
  (forall year, exists row, step year = Ok row) ->
  exists rows,
    predict_years step years = Ok rows
    /\ List.length rows = List.length years.
Proof.
  intros Hstep. induction years as [| year rest IH]; simpl.
  - now exists [].
  - destruct (Hstep year) as [row ->]. destruct IH as [rows [-> Hlen]].
    cbn [bind]. eexists. split; [reflexivity |]. simpl. now rewrite Hlen.
Qed.

Lemma predict_value_default_total (fans : F) (platform label : string)
    (single_ad_value : option F) (years : list Z) :
  In platform valid_platforms -> In label valid_labels ->
  exists rows,
    predict_value np_sqrt np_log np_truediv np_round
      fans platform label single_ad_value years None = Ok rows
    /\ List.length rows = List.length years.
Proof.
  intros Hp Hl. unfold predict_value, platform_params, label_params.
  destruct (params_valid (F := F) platform_params_literal platform Hp)
    as [k [beta [fan_limit ->]]].
  destruct (params_valid (F := F) label_params_literal label Hl)
    as [alpha [gamma [delta Hlabel]]].
  rewrite Hlabel.
  assert (Hprice : exists price,
             match single_ad_value with
             | None =>
                 fans_in_wan <- py_div fans (lit 10000%Q) ;;
                 v <- get_single_ad_value np_sqrt np_round platform label
                        fans_in_wan ;;
                 Ok (v, true)
             | Some v => Ok (v, false)
             end = Ok price).
  { destruct single_ad_value as [v |]; [now eexists |].
    rewrite in_wan. cbn [bind]. unfold get_single_ad_value, label_params.
    rewrite Hlabel. cbn [bind]. now eexists. }
  destruct Hprice as [price ->]. cbn [bind]. rewrite in_wan. cbn [bind].
  apply predict_years_total. intros year.
  now apply predict_year_default.
Qed.

End DefaultGrowth.

(** X16.  With the built-in growth model (growth_rate=None), predict_value
    never raises for a valid platform and label: for every follower count
    (zero and negative ones included), every list of years within the
    64-bit integers (np.log takes year + 1 as a machine integer) and with
    or without an explicit price it returns one row per year. Holds in
    exact arithmetic and in binary64, for any np.sqrt, np.log, NumPy
    division and round. *)
Theorem X16_default_growth_never_raises (platform label : string)
    (years : list Z) :
  In platform valid_platforms -> In label valid_labels ->
  years_in_range years = true ->
  (forall (np_sqrt np_log : Q -> Q) (np_truediv : Q -> Q -> Q)
          (np_round : Q -> nat -> Q) (fans : Q) (single_ad_value : option Q),
      exists rows,
        predict_value np_sqrt np_log np_truediv np_round
          fans platform label single_ad_value years None = Ok rows
        /\ List.length rows = List.length years)
  /\ (forall (np_sqrt np_log : Binary64.float -> Binary64.float)
             (np_truediv : Binary64.float -> Binary64.float -> Binary64.float)
             (np_round : Binary64.float -> nat -> Binary64.float)
             (fans : Binary64.float) (single_ad_value : option Binary64.float),
        exists rows,
          predict_value np_sqrt np_log np_truediv np_round
            fans platform label single_ad_value years None = Ok rows
          /\ List.length rows = List.length years).
Proof.
  intros Hp Hl _. split; intros; apply predict_value_default_total;
    try assumption; vm_compute; reflexivity.
Qed.

Lemma X16_default_growth_never_raises_witness :
  In "抖音" valid_platforms /\ In "美妆" valid_labels
  /\ years_in_range default_years = true
  /\ exists rows,
       predict_value (fun x => x) (fun x => x) PrimFloat.div
         Binary64.round_digits 0%float "抖音" "美妆" (Some 10%float)
         default_years None = Ok rows
       /\ List.length rows = 5%nat.
Proof.
  assert (Hp : In "抖音" valid_platforms) by (simpl; tauto).
  assert (Hl : In "美妆" valid_labels) by (simpl; tauto).
  assert (Hy : years_in_range default_years = true) by reflexivity.
  split; [exact Hp |]. split; [exact Hl |]. split; [exact Hy |].
  exact (proj2 (X16_default_growth_never_raises "抖音" "美妆" default_years
                  Hp Hl Hy)
           (fun x => x) (fun x => x) PrimFloat.div Binary64.round_digits
           0%float (Some 10%float)).
Defined.

(** ** The price does not move the follower and ad-count columns *)

Section PriceIndependence.

Context {F : Type} `{PyFloat F}.

Variable np_sqrt : F -> F.
Variable np_log : F -> F.
Variable np_truediv : F -> F -> F.
Variable np_round : F -> nat -> F.

Lemma predict_year_projection (platform label : string)
    (k alpha delta fans_in_wan current_fans s1 s2 : F) (np1 np2 : bool)
    (growth_rate : option F) (year : Z) :
  match predict_year np_log np_truediv np_round platform label k alpha delta
          fans_in_wan current_fans s1 np1 growth_rate year,
        predict_year np_log np_truediv np_round platform label k alpha delta
          fans_in_wan current_fans s2 np2 growth_rate year with
  | Ok row1, Ok row2 => row_projection row1 = row_projection row2
  | Raise e1, Raise e2 => e1 = e2
  | _, _ => False
  end.
Proof.
  unfold predict_year.
  destruct (match growth_rate with
            | Some g =>
                r <- py_div g (lit 100%Q) ;;
                p <- fpow (lit 1%Q + r)%py year ;;
                Ok (current_fans * p)%py
            | None =>
                Ok (fans_in_wan
                    + k * np_log (lit (inject_Z (year + 1)))
                      * (lit 1%Q + alpha))%py
            end) as [ft | e]; cbn [bind]; [| reflexivity].
  destruct (get_expected_ad_count platform label ft) as [nt | e];
    cbn [bind]; [| reflexivity].
  destruct (if match growth_rate with None => true | Some _ => false end
            then Ok (np_truediv (ft - fans_in_wan)%py fans_in_wan)
            else py_div (ft - fans_in_wan)%py fans_in_wan) as [growth | e];
    cbn [bind]; reflexivity.
Qed.

Lemma predict_years_projection (step1 step2 : Z -> result (Z * F * Z * F))
    (years : list Z) :
  (forall year,
      match step1 year, step2 year with
      | Ok row1, Ok row2 => row_projection row1 = row_projection row2
      | Raise e1, Raise e2 => e1 = e2
      | _, _ => False
      end) ->
  same_projection (predict_years step1 years) (predict_years step2 years).
Proof.
  intros Hstep. induction years as [| year rest IH]; simpl; [reflexivity |].
  specialize (Hstep year).
  destruct (step1 year) as [row1 | e1], (step2 year) as [row2 | e2];
    cbn [bind]; try contradiction; [| exact Hstep].
  unfold same_projection in IH.
  destruct (predict_years step1 rest) as [rows1 | e1],
           (predict_years step2 rest) as [rows2 | e2];
    cbn [bind]; try contradiction; [| exact IH].
  simpl. now rewrite Hstep, IH.
Qed.

End PriceIndependence.

(** X17.  An explicit single_ad_value only affects the income column: two
    calls of predict_value that differ only in the price either raise the
    same exception or return rows with the same years, follower counts and
    ad counts. Holds in any arithmetic. *)
Theorem X17_price_leaves_followers_and_ads {F : Type} `{PyFloat F}
    (np_sqrt np_log : F -> F) (np_truediv : F -> F -> F)
    (np_round : F -> nat -> F)
    (fans : F) (platform label : string) (price1 price2 : F)
    (years : list Z) (growth_rate : option F) :
  same_projection
    (predict_value np_sqrt np_log np_truediv np_round
       fans platform label (Some price1) years growth_rate)
    (predict_value np_sqrt np_log np_truediv np_round
       fans platform label (Some price2) years growth_rate).
Proof.
  unfold predict_value.
  destruct (dict_get platform platform_params) as [[[k beta] fan_limit] |];
    [| reflexivity].
  destruct (dict_get label label_params) as [[[alpha gamma] delta] |];
    [| reflexivity].
  cbn [bind fst snd].
  destruct (py_div fans (lit 10000%Q)) as [fans_in_wan | e]; cbn [bind];
    [| reflexivity].
  apply predict_years_projection. intros year.
  apply predict_year_projection.
Qed.

(** ** The default price *)

(** X19.  With the built-in growth model, omitting single_ad_value is the
    same as passing the value of get_single_ad_value(platform, label, fans
    / 10000): the two calls of predict_value return the same result. Holds
    in any arithmetic. *)
Theorem X19_omitted_price_is_get_single_ad_value {F : Type} `{PyFloat F}
    (np_sqrt np_log : F -> F) (np_truediv : F -> F -> F)
    (np_round : F -> nat -> F)
    (fans fans_in_wan price : F) (platform label : string) (years : list Z) :
  py_div fans (lit 10000%Q) = Ok fans_in_wan ->
  get_single_ad_value np_sqrt np_round platform label fans_in_wan = Ok price ->
  predict_value np_sqrt np_log np_truediv np_round
    fans platform label None years None
  = predict_value np_sqrt np_log np_truediv np_round
      fans platform label (Some price) years None.
Proof.
  intros Hwan Hprice. unfold predict_value.
  destruct (dict_get platform platform_params) as [[[k beta] fan_limit] |];
    [| reflexivity].
  destruct (dict_get label label_params) as [[[alpha gamma] delta] |];
    [| reflexivity].
  rewrite Hwan. cbn [bind]. rewrite Hprice. cbn [bind fst snd].
  clear. induction years as [| year rest IH]; [reflexivity |].
  cbn [predict_years]. rewrite IH. reflexivity.
Qed.

Lemma X19_omitted_price_is_get_single_ad_value_witness :
  py_div 100000%Q (lit 10000%Q) = Ok (100000 / 10000)%Q
  /\ get_single_ad_value (fun x => x) Exact.Qround_digits
       "抖音" "美妆" (100000 / 10000)%Q = Ok 1.60%Q
  /\ predict_value (fun x => x) (fun x => x) Qdiv Exact.Qround_digits
       100000%Q "抖音" "美妆" None default_years None
     = predict_value (fun x => x) (fun x => x) Qdiv Exact.Qround_digits
         100000%Q "抖音" "美妆" (Some 1.60%Q) default_years None.
Proof.
  assert (Hwan : py_div 100000%Q (lit 10000%Q) = Ok (100000 / 10000)%Q)
    by reflexivity.
  assert (Hprice : get_single_ad_value (fun x => x) Exact.Qround_digits
                     "抖音" "美妆" (100000 / 10000)%Q = Ok 1.60%Q)
    by (vm_compute; reflexivity).
  split; [exact Hwan |]. split; [exact Hprice |].
  exact (X19_omitted_price_is_get_single_ad_value
           (fun x => x) (fun x => x) Qdiv Exact.Qround_digits
           100000%Q (100000 / 10000)%Q 1.60%Q "抖音" "美妆" default_years
           Hwan Hprice).
Defined.

(** ** The modules agree *)

(** X20.  The modules agree on their keys. The 32 categories of
    build_douyin_functions are, in the same order, the rows of
    COEFF_MATRIX, the keys of pinyin_mapping, the keys of label_params and
    AdMatrixGenerator.labels; get_platforms(), the keys of
    platform_params, AdMatrixGenerator.platforms and the matrices of
    generate_matrix name the same four platforms in the same order; and
    every row of COEFF_MATRIX has a coefficient for exactly these four. *)
Theorem X20_modules_agree_on_categories_and_platforms :
  dict_keys douyin_breakpoints = labels
  /\ dict_keys COEFF_MATRIX_literal = labels
  /\ dict_keys pinyin_mapping = labels
  /\ dict_keys label_params_literal = labels
  /\ get_platforms = platforms
  /\ dict_keys platform_params_literal = platforms
  /\ dict_keys literal_matrices = platforms
  /\ forall category row,
       dict_get category COEFF_MATRIX_literal = Some row ->
       forall platform, In platform platforms <-> In platform (dict_keys row).
Proof.
  repeat (split; [reflexivity |]).
  intros category row Hrow. apply dict_get_In in Hrow.
  unfold COEFF_MATRIX_literal in Hrow.
  repeat (destruct Hrow as [Heq | Hrow];
          [injection Heq as <- <-; intros platform; simpl; tauto |]).
  destruct Hrow.
Qed.

Lemma X20_modules_agree_on_categories_and_platforms_witness :
  dict_get "美妆" COEFF_MATRIX_literal
  = Some [("小红书", 2.0%Q); ("B站", 0.6%Q); ("快手", 1.0%Q); ("抖音", 1%Q)]
  /\ (In "快手" platforms
      <-> In "快手" (dict_keys [("小红书", 2.0%Q); ("B站", 0.6%Q);
                                ("快手", 1.0%Q); ("抖音", 1%Q)])).
Proof.
  split; [reflexivity |].
  exact (proj2 (proj2 (proj2 (proj2 (proj2 (proj2 (proj2
           X20_modules_agree_on_categories_and_platforms))))))
           "美妆" _ eq_refl "快手").
Defined.

(** ** Growth that is not negative *)

Lemma label_deltas_in_unit_interval :
  forallb delta_in_unit_interval label_params_literal = true.
Proof. vm_compute. reflexivity. Qed.

Section GrowingYears.

Variable np_sqrt : Q -> Q.
Variable np_log : Q -> Q.
Variable np_truediv : Q -> Q -> Q.
Variable np_round : Q -> nat -> Q.

Variables platform label : string.
Variables k alpha delta f0 s g : Q.

Hypothesis valid_platform : In platform valid_platforms.
Hypothesis valid_label : In label valid_labels.
Hypothesis delta_range : (0 <= delta <= 1)%Q.
Hypothesis followers : (0 < f0)%Q.
Hypothesis price : (0 <= s)%Q.
Hypothesis growth : (0 <= g)%Q.

Lemma base_at_least_one : (1 <= 1 + g / 100)%Q.
Proof.
  assert (0 <= g / 100)%Q by (apply Qle_shift_div_l; lra). lra.
Qed.

Lemma power_positive (year : Z) : (0 < Qpower (1 + g / 100) year)%Q.
Proof. apply Qpower_0_lt. pose proof base_at_least_one. lra. Qed.

Lemma predict_year_growing (year : Z) :
  exists nt : Z,
    get_expected_ad_count platform label (projected_fans f0 g year) = Ok nt
    /\ 0 < nt
    /\ predict_year np_log np_truediv np_round platform label
         k alpha delta f0 f0 s false (Some g) year
       = Ok (year,
             fround (projected_fans f0 g year) 2,
             nt,
             fround (inject_Z nt
                     * (s * (1 + (projected_fans f0 g year - f0) / f0 * delta))
                     * 1.2)%Q 2).
Proof.
  destruct (get_expected_ad_count_valid platform label (projected_fans f0 g year)
              valid_platform valid_label) as [nt [Hnt Hpos]].
  exists nt. split; [exact Hnt |]. split; [exact Hpos |].
  rewrite (predict_year_custom np_log np_truediv np_round platform label
             k alpha delta f0 s g (g / 100)%Q
             (Qpower (1 + g / 100) year) year nt).
  - unfold py_div.
    replace (feqb f0 (lit 0%Q)) with false; [reflexivity |].
    symmetry. simpl. destruct (Qeq_bool f0 0) eqn:Hzero; [| reflexivity].
    apply Qeq_bool_iff in Hzero. lra.
  - reflexivity.
  - simpl. unfold Exact.Qpow.
    replace (Qeq_bool (1 + g / 100) 0) with false; [reflexivity |].
    symmetry. destruct (Qeq_bool (1 + g / 100) 0) eqn:Hzero; [| reflexivity].
    apply Qeq_bool_iff in Hzero. pose proof base_at_least_one. lra.
  - exact Hnt.
Qed.

Lemma projected_fans_monotone (y1 y2 : Z) :
  y1 <= y2 -> (projected_fans f0 g y1 <= projected_fans f0 g y2)%Q.
Proof.
  intros Hy. unfold projected_fans.
  apply Qmult_le_l; [exact followers |].
  apply Qpower_le_compat_l; [exact Hy | exact base_at_least_one].
Qed.

End GrowingYears.

Lemma product_monotone (a1 a2 b1 b2 : Q) :
  (0 <= a1)%Q -> (a1 <= a2)%Q -> (0 <= b1)%Q -> (b1 <= b2)%Q ->
  (a1 * b1 <= a2 * b2)%Q.
Proof.
  intros Ha1 Ha Hb1 Hb.
  apply Qle_trans with (a1 * b2)%Q.
  - rewrite (Qmult_comm a1 b1), (Qmult_comm a1 b2).
    apply Qmult_le_compat_r; assumption.
  - apply Qmult_le_compat_r; [assumption | lra].
Qed.

(** X18.  In exact arithmetic, for a valid platform and label, followers >
    0, price >= 0 and growth_rate >= 0, predict_value returns, and of any
    two rows the one with the later (or equal) year has no fewer
    followers, no fewer ads and no less income. *)
Theorem X18_growth_never_shrinks_the_forecast
    (np_sqrt np_log : Q -> Q) (np_truediv : Q -> Q -> Q)
    (np_round : Q -> nat -> Q)
    (platform label : string) (fans price growth : Q) (years : list Z) :
  In platform valid_platforms -> In label valid_labels ->
  (0 < fans)%Q -> (0 <= price)%Q -> (0 <= growth)%Q ->
  exists rows,
    predict_value np_sqrt np_log np_truediv np_round
      fans platform label (Some price) years (Some growth) = Ok rows
    /\ forall r1 r2,
         In r1 rows -> In r2 rows -> row_year r1 <= row_year r2 ->
         (row_fans r1 <= row_fans r2)%Q
         /\ row_ads r1 <= row_ads r2
         /\ (row_income r1 <= row_income r2)%Q.
Proof.
  intros Hp Hl Hfans Hprice Hgrowth.
  unfold predict_value, platform_params, label_params.
  destruct (params_valid (F := Q) platform_params_literal platform Hp)
    as [k [beta [fan_limit ->]]].
  rewrite (read_params_get (F := Q) label_params_literal label).
  destruct (dict_get_keys_some label label_params_literal Hl)
    as [[[alpha gamma] delta] Hlabel].
  rewrite Hlabel. cbn [option_map bind fst snd].
  pose proof label_deltas_in_unit_interval as Hdelta.
  rewrite forallb_forall in Hdelta.
  specialize (Hdelta _ (dict_get_In _ _ _ Hlabel)).
  unfold delta_in_unit_interval in Hdelta. cbn [snd] in Hdelta.
  apply andb_true_iff in Hdelta. destruct Hdelta as [Hd0 Hd1].
  apply Qle_bool_iff in Hd0. apply Qle_bool_iff in Hd1.
  change (py_div fans (lit 10000%Q)) with (Ok (fans / 10000)%Q).
  cbn [bind]. set (f0 := (fans / 10000)%Q).
  assert (Hf0 : (0 < f0)%Q) by (unfold f0; apply Qlt_shift_div_l; lra).
  set (ads := fun year =>
                match get_expected_ad_count platform label
                        (projected_fans f0 growth year) with
                | Ok n => n
                | Raise _ => 0
                end).
  set (factor := fun year =>
                   (1 + (projected_fans f0 growth year - f0) / f0 * lit delta)%Q).
  set (row := fun year =>
                (year,
                 fround (projected_fans f0 growth year) 2,
                 ads year,
                 fround (inject_Z (ads year) * (price * factor year) * 1.2)%Q 2)).
  assert (Hads : forall year,
             get_expected_ad_count platform label
               (projected_fans f0 growth year) = Ok (ads year)
             /\ 0 < ads year).
  { intros year. unfold ads.
    destruct (get_expected_ad_count_valid platform label
                (projected_fans f0 growth year) Hp Hl) as [nt [-> Hpos]].
    now split. }
  rewrite (predict_years_map _ row).
  - eexists. split; [reflexivity |].
    intros r1 r2 H1 H2 Hyears.
    apply in_map_iff in H1. destruct H1 as [y1 [<- _]].
    apply in_map_iff in H2. destruct H2 as [y2 [<- _]].
    unfold row, row_year, row_fans, row_ads, row_income in *.
    cbn [fst snd] in *.
    pose proof (projected_fans_monotone f0 growth Hf0 Hgrowth y1 y2 Hyears)
      as Hmono.
    assert (Hadsle : ads y1 <= ads y2).
    { destruct (get_expected_ad_count_monotone Q_le_lt_trans platform label
                  (projected_fans f0 growth y1) (projected_fans f0 growth y2)
                  Hp Hl) as [n1 [n2 [Hn1 [Hn2 Hle]]]].
      - now apply Qle_bool_iff.
      - rewrite (proj1 (Hads y1)) in Hn1. rewrite (proj1 (Hads y2)) in Hn2.
        injection Hn1 as <-. injection Hn2 as <-. exact Hle. }
    split; [now apply Qround_digits_monotone |]. split; [exact Hadsle |].
    apply Qround_digits_monotone.
    apply Qmult_le_compat_r; [| lra].
    assert (Hfactor : forall year,
               (factor year
                == 1 + (Qpower (1 + growth / 100) year - 1) * delta)%Q).
    { intros year. unfold factor, projected_fans. simpl. field. lra. }
    pose proof (power_positive growth Hgrowth y1) as Hp1.
    assert (Hpow : (Qpower (1 + growth / 100) y1
                    <= Qpower (1 + growth / 100) y2)%Q)
      by (apply Qpower_le_compat_l;
          [exact Hyears | exact (base_at_least_one growth Hgrowth)]).
    assert (Hstep : (0 <= (Qpower (1 + growth / 100) y2
                           - Qpower (1 + growth / 100) y1) * delta)%Q)
      by (apply Qmult_le_0_compat; lra).
    assert (Hlow : (0 <= Qpower (1 + growth / 100) y1 * delta)%Q)
      by (apply Qmult_le_0_compat; lra).
    apply product_monotone.
    + change 0%Q with (inject_Z 0). rewrite <- Zle_Qle.
      pose proof (proj2 (Hads y1)). lia.
    + rewrite <- Zle_Qle. exact Hadsle.
    + apply Qmult_le_0_compat; [exact Hprice |].
      rewrite Hfactor. lra.
    + rewrite (Qmult_comm price (factor y1)), (Qmult_comm price (factor y2)).
      apply Qmult_le_compat_r; [| exact Hprice].
      rewrite !Hfactor. lra.
  - intros year.
    destruct (predict_year_growing np_log np_truediv np_round platform label
                k alpha (lit delta) f0 price growth Hp Hl Hf0 Hgrowth year)
      as [nt [Hnt [_ Hrow]]].
    rewrite (proj1 (Hads year)) in Hnt. injection Hnt as <-.
    exact Hrow.
Qed.

Lemma X18_growth_never_shrinks_the_forecast_witness :
  In "抖音" valid_platforms /\ In "美妆" valid_labels
  /\ (0 < 100000)%Q /\ (0 <= 10)%Q /\ (0 <= 20)%Q
  /\ exists rows,
       predict_value (fun x => x) (fun x => x) Qdiv Exact.Qround_digits
         100000%Q "抖音" "美妆" (Some 10%Q) default_years (Some 20%Q) = Ok rows
       /\ forall r1 r2,
            In r1 rows -> In r2 rows -> row_year r1 <= row_year r2 ->
            (row_fans r1 <= row_fans r2)%Q
            /\ row_ads r1 <= row_ads r2
            /\ (row_income r1 <= row_income r2)%Q.
Proof.
  assert (Hp : In "抖音" valid_platforms) by (simpl; tauto).
  assert (Hl : In "美妆" valid_labels) by (simpl; tauto).
  assert (Hf : (0 < 100000)%Q) by lra.
  assert (Hs : (0 <= 10)%Q) by lra.
  assert (Hg : (0 <= 20)%Q) by lra.
  split; [exact Hp |]. split; [exact Hl |]. split; [exact Hf |].
  split; [exact Hs |]. split; [exact Hg |].
  exact (X18_growth_never_shrinks_the_forecast
           (fun x => x) (fun x => x) Qdiv Exact.Qround_digits
           "抖音" "美妆" 100000 10 20 default_years Hp Hl Hf Hs Hg).
Defined.

(** ** The summary table *)

Section Summary.

Context {F : Type} `{PyFloat F} `{PyFloatText F}.

Variable np_sqrt : F -> F.
Variable np_log : F -> F.
Variable np_truediv : F -> F -> F.
Variable np_round : F -> nat -> F.
Variable float_sum : list F -> F.

Lemma format_rows_nth (entry : Z * F * Z * F -> result string)
    (results : list (Z * F * Z * F)) (texts : list string) :
  format_rows entry results = Ok texts ->
  List.length texts = List.length results
  /\ forall i r, nth_error results i = Some r ->
       exists text, nth_error texts i = Some text /\ entry r = Ok text.
Proof.
  revert texts. induction results as [| r0 rest IH]; intros texts; simpl.
  - intros Heq. injection Heq as <-. split; [reflexivity |].
    intros [| i] r; discriminate.
  - intros Hrows. apply bind_Ok in Hrows. destruct Hrows as [text [Htext Hrows]].
    apply bind_Ok in Hrows. destruct Hrows as [texts' [Hrest Hrows]].
    injection Hrows as <-. destruct (IH texts' Hrest) as [Hlen Hnth].
    split; [simpl; now rewrite Hlen |].
    intros [| i] r Hr.
    + injection Hr as <-. now exists text.
    + exact (Hnth i r Hr).
Qed.

Lemma predict_years_length (step : Z -> result (Z * F * Z * F))
    (years : list Z) (rows : list (Z * F * Z * F)) :
  predict_years step years = Ok rows ->
  List.length rows = List.length years.
Proof.
  revert rows. induction years as [| year rest IH]; intros rows; simpl.
  - intros Heq. now injection Heq as <-.
  - intros Hrows. apply bind_Ok in Hrows. destruct Hrows as [row [_ Hrows]].
    apply bind_Ok in Hrows. destruct Hrows as [rows' [Hrest Hrows]].
    injection Hrows as <-. simpl. now rewrite (IH rows' Hrest).
Qed.

Lemma last_row_fifth (r1 r2 r3 r4 r5 : Z * F * Z * F) :
  last_row [r1; r2; r3; r4; r5] = Ok r5.
Proof. reflexivity. Qed.

Lemma five_rows (rows : list (Z * F * Z * F)) :
  map row_year rows = [1; 2; 3; 4; 5] ->
  exists r1 r2 r3 r4 r5, rows = [r1; r2; r3; r4; r5].
Proof.
  intros Hyears.
  destruct rows as [| r1 [| r2 [| r3 [| r4 [| r5 [| r6 rest]]]]]];
    try discriminate.
  now exists r1, r2, r3, r4, r5.
Qed.

Lemma create_summary_table_shape (fans : F) (platform label : string)
    (single_ad_value : F) (growth_rate : option F) (t : summary_table F) :
  create_summary_table np_sqrt np_log np_truediv np_round float_sum
    fans platform label single_ad_value growth_rate = Ok t ->
  exists rows,
    predict_value np_sqrt np_log np_truediv np_round
      fans platform label (Some single_ad_value) [1; 2; 3; 4; 5] growth_rate
    = Ok rows
    /\ map row_year rows = [1; 2; 3; 4; 5]
    /\ summary_years t
       = ["第1年"; "第2年"; "第3年"; "第4年"; "第5年"; "五年总计"]
    /\ List.length (summary_fans t) = 6%nat
    /\ List.length (summary_income t) = 6%nat
    /\ summary_ad_counts t
       = (map (fun r => (str_of_int (row_ads r) ++ "条")%string) rows
          ++ [(str_of_int (fold_left Z.add (map row_ads rows) 0)
               ++ "条")%string])%list
    /\ nth_error (summary_fans t) 5 = nth_error (summary_fans t) 4.
Proof.
  unfold create_summary_table. intros Ht.
  apply bind_Ok in Ht. destruct Ht as [fans_in_wan [_ Ht]].
  apply bind_Ok in Ht. destruct Ht as [rows [Hrows Ht]].
  exists rows. split; [exact Hrows |].
  pose proof (predict_value_rows _ _ _ _ _ _ _ _ _ _ _ Hrows) as Hyears.
  split; [exact Hyears |].
  destruct (five_rows rows Hyears) as [r1 [r2 [r3 [r4 [r5 ->]]]]].
  apply bind_Ok in Ht. destruct Ht as [fans_data [Hfans Ht]].
  apply bind_Ok in Ht. destruct Ht as [income_data [Hincome Ht]].
  rewrite last_row_fifth in Ht. cbn [bind] in Ht.
  apply bind_Ok in Ht. destruct Ht as [final_fans [Hfinal Ht]].
  apply bind_Ok in Ht. destruct Ht as [total_text [_ Ht]].
  injection Ht as <-. cbn [summary_years summary_fans summary_income
                           summary_ad_counts].
  destruct (format_rows_nth _ _ _ Hfans) as [Hlenf Hnthf].
  destruct (format_rows_nth _ _ _ Hincome) as [Hleni _].
  split.
  - cbn [map] in Hyears. injection Hyears as H1 H2 H3 H4 H5.
    cbn [map app]. rewrite H1, H2, H3, H4, H5. reflexivity.
  - split; [rewrite length_app, Hlenf; reflexivity |].
    split; [rewrite length_app, Hleni; reflexivity |].
    split; [reflexivity |].
    destruct (Hnthf 4%nat r5 eq_refl) as [text [Htext Hentry]].
    rewrite Hfinal in Hentry. injection Hentry as <-.
    rewrite (nth_error_app1 _ _ (n := 4)) by (rewrite Hlenf; simpl; lia).
    rewrite (nth_error_app2 _ _ (n := 5)) by (rewrite Hlenf; simpl; lia).
    rewrite Hlenf, Htext. reflexivity.
Qed.

End Summary.

(** X21.  Whenever create_summary_table returns, predict_value returned
    five rows for the years 1 to 5; the years column is 第1年 ... 第5年
    followed by 五年总计; the fans and income columns have six entries;
    ad_counts lists each year's count followed by their sum, each with the
    suffix 条; and the sixth fans entry repeats the fifth (the followers of
    the final year, not a total). Holds in any arithmetic and for any
    float sum. *)
Theorem X21_summary_table_shape {F : Type} `{PyFloat F} `{PyFloatText F}
    (np_sqrt np_log : F -> F) (np_truediv : F -> F -> F)
    (np_round : F -> nat -> F) (float_sum : list F -> F)
    (fans : F) (platform label : string)
    (single_ad_value : F) (growth_rate : option F) (t : summary_table F) :
  create_summary_table np_sqrt np_log np_truediv np_round float_sum
    fans platform label single_ad_value growth_rate = Ok t ->
  exists rows,
    predict_value np_sqrt np_log np_truediv np_round
      fans platform label (Some single_ad_value) [1; 2; 3; 4; 5] growth_rate
    = Ok rows
    /\ map row_year rows = [1; 2; 3; 4; 5]
    /\ summary_years t
       = ["第1年"; "第2年"; "第3年"; "第4年"; "第5年"; "五年总计"]
    /\ List.length (summary_fans t) = 6%nat
    /\ List.length (summary_income t) = 6%nat
    /\ summary_ad_counts t
       = (map (fun r => (str_of_int (row_ads r) ++ "条")%string) rows
          ++ [(str_of_int (fold_left Z.add (map row_ads rows) 0)
               ++ "条")%string])%list
    /\ nth_error (summary_fans t) 5 = nth_error (summary_fans t) 4.
Proof. apply create_summary_table_shape. Qed.

Lemma X21_summary_table_shape_witness :
  exists t,
    create_summary_table (fun x => x) (fun x => x) Qdiv Exact.Qround_digits
      (fun l => fold_left Qplus l 0%Q)
      100000%Q "抖音" "美妆" 10%Q (Some 20%Q) = Ok t
    /\ summary_years t
       = ["第1年"; "第2年"; "第3年"; "第4年"; "第5年"; "五年总计"]
    /\ summary_ad_counts t = ["45条"; "45条"; "45条"; "45条"; "45条"; "225条"]
    /\ nth_error (summary_fans t) 5 = nth_error (summary_fans t) 4.
Proof.
  destruct (create_summary_table (fun x => x) (fun x => x) Qdiv
              Exact.Qround_digits (fun l => fold_left Qplus l 0%Q)
              100000%Q "抖音" "美妆" 10%Q (Some 20%Q)) as [t | e] eqn:Ht.
  - exists t. split; [reflexivity |].
    destruct (X21_summary_table_shape _ _ _ _ _ _ _ _ _ _ _ Ht)
      as [rows [Hrows [_ [Hyears [_ [_ [Hads Hlast]]]]]]].
    split; [exact Hyears |]. split; [| exact Hlast].
    rewrite Hads. vm_compute in Hrows. injection Hrows as <-.
    reflexivity.
  - vm_compute in Ht. discriminate Ht.
Defined.

(** In exact arithmetic the formatting never fails. *)
Lemma whole_or_2f_exact (x : Q) (unit : string) :
  exists text, whole_or_2f x unit = Ok text.
Proof.
  unfold whole_or_2f. simpl. unfold ExactText.Qto_int. cbn [bind].
  destruct (Qeq_bool x _); now eexists.
Qed.

Lemma format_rows_exact (entry : Z * Q * Z * Q -> result string)
    (rows : list (Z * Q * Z * Q)) :
  (forall r, exists text, entry r = Ok text) ->
  exists texts, format_rows entry rows = Ok texts.
Proof.
  intros Hentry. induction rows as [| r rest IH]; simpl; [now eexists |].
  destruct (Hentry r) as [text ->]. destruct IH as [texts ->].
  cbn [bind]. now eexists.
Qed.

(** In binary64 the formatting of a finite double does not fail. *)
Lemma whole_or_2f_finite (x : Binary64.float) (unit : string) :
  finite_double x = true -> exists text, whole_or_2f x unit = Ok text.
Proof.
  unfold finite_double, whole_or_2f. simpl to_int. unfold Binary64Text.to_int.
  destruct (Prim2SF x) as [s | s | | s m e]; try discriminate; intros _;
    cbn [bind]; destruct (x =? _)%py; now eexists.
Qed.

Lemma format_rows_finite (entry : Z * Binary64.float * Z * Binary64.float
                                  -> result string)
    (finite : Z * Binary64.float * Z * Binary64.float -> bool)
    (rows : list (Z * Binary64.float * Z * Binary64.float)) :
  (forall r, finite r = true -> exists text, entry r = Ok text) ->
  forallb finite rows = true ->
  exists texts, format_rows entry rows = Ok texts.
Proof.
  intros Hentry. induction rows as [| r rest IH]; simpl; [now eexists |].
  intros Hall. apply andb_true_iff in Hall. destruct Hall as [Hr Hrest].
  destruct (Hentry r Hr) as [text ->]. destruct (IH Hrest) as [texts ->].
  cbn [bind]. now eexists.
Qed.

(** X22.  create_summary_table raises whatever predict_value raises for
    the years 1 to 5. When predict_value returns, create_summary_table
    returns too: always in exact arithmetic, and in binary64 provided that
    the follower counts, the incomes and the sum of the incomes are finite
    (int() refuses infinities and NaN). *)
Theorem X22_summary_table_fails_only_with_predict_value :
  (forall (np_sqrt np_log : Q -> Q) (np_truediv : Q -> Q -> Q)
          (np_round : Q -> nat -> Q) (float_sum : list Q -> Q)
          (fans : Q) (platform label : string)
          (single_ad_value : Q) (growth_rate : option Q),
      match predict_value np_sqrt np_log np_truediv np_round
              fans platform label (Some single_ad_value) [1; 2; 3; 4; 5]
              growth_rate with
      | Ok rows =>
          exists t,
            create_summary_table np_sqrt np_log np_truediv np_round float_sum
              fans platform label single_ad_value growth_rate = Ok t
      | Raise e =>
          create_summary_table np_sqrt np_log np_truediv np_round float_sum
            fans platform label single_ad_value growth_rate = Raise e
      end)
  /\ (forall (np_sqrt np_log : Binary64.float -> Binary64.float)
             (np_truediv : Binary64.float -> Binary64.float -> Binary64.float)
             (np_round : Binary64.float -> nat -> Binary64.float)
             (float_sum : list Binary64.float -> Binary64.float)
             (fans : Binary64.float) (platform label : string)
             (single_ad_value : Binary64.float)
             (growth_rate : option Binary64.float),
        match predict_value np_sqrt np_log np_truediv np_round
                fans platform label (Some single_ad_value) [1; 2; 3; 4; 5]
                growth_rate with
        | Ok rows =>
            forallb (fun r => finite_double (row_fans r)) rows = true ->
            forallb (fun r => finite_double (row_income r)) rows = true ->
            finite_double (float_sum (map row_income rows)) = true ->
            exists t,
              create_summary_table np_sqrt np_log np_truediv np_round
                float_sum fans platform label single_ad_value growth_rate
              = Ok t
        | Raise e =>
            create_summary_table np_sqrt np_log np_truediv np_round float_sum
              fans platform label single_ad_value growth_rate = Raise e
        end).
Proof.
  split.
  - intros np_sqrt np_log np_truediv np_round float_sum
           fans platform label single_ad_value growth_rate.
    unfold create_summary_table.
    change (py_div fans (lit 10000%Q)) with (Ok (fans / 10000)%Q). cbn [bind].
    destruct (predict_value np_sqrt np_log np_truediv np_round
                fans platform label (Some single_ad_value) [1; 2; 3; 4; 5]
                growth_rate) as [rows | e] eqn:Hrows; cbn [bind];
      [| reflexivity].
    pose proof (predict_value_rows _ _ _ _ _ _ _ _ _ _ _ Hrows) as Hyears.
    destruct (five_rows rows Hyears) as [r1 [r2 [r3 [r4 [r5 ->]]]]].
    destruct (format_rows_exact (fun r => whole_or_2f (row_fans r) "万")
                [r1; r2; r3; r4; r5]) as [fans_data ->];
      [intros r; apply whole_or_2f_exact |].
    cbn [bind].
    destruct (format_rows_exact (fun r => whole_or_2f (row_income r) "万元")
                [r1; r2; r3; r4; r5]) as [income_data ->];
      [intros r; apply whole_or_2f_exact |].
    cbn [bind]. rewrite last_row_fifth. cbn [bind].
    destruct (whole_or_2f_exact (row_fans r5) "万") as [final_fans ->].
    cbn [bind].
    destruct (whole_or_2f_exact
                (float_sum (map row_income [r1; r2; r3; r4; r5])) "万元")
      as [total_text ->].
    cbn [bind]. now eexists.
  - intros np_sqrt np_log np_truediv np_round float_sum
           fans platform label single_ad_value growth_rate.
    unfold create_summary_table.
    assert (Hwan : py_div fans (lit 10000%Q)
                   = Ok (PrimFloat.div fans (lit 10000%Q)))
      by (unfold py_div;
          replace (feqb (lit 10000%Q) (lit 0%Q)) with false
            by (vm_compute; reflexivity);
          reflexivity).
    rewrite Hwan. cbn [bind].
    destruct (predict_value np_sqrt np_log np_truediv np_round
                fans platform label (Some single_ad_value) [1; 2; 3; 4; 5]
                growth_rate) as [rows | e] eqn:Hrows; cbn [bind];
      [| reflexivity].
    intros Hfans Hincome Htotal.
    pose proof (predict_value_rows _ _ _ _ _ _ _ _ _ _ _ Hrows) as Hyears.
    destruct (five_rows rows Hyears) as [r1 [r2 [r3 [r4 [r5 ->]]]]].
    destruct (format_rows_finite (fun r => whole_or_2f (row_fans r) "万")
                (fun r => finite_double (row_fans r))
                [r1; r2; r3; r4; r5]) as [fans_data ->];
      [intros r; apply whole_or_2f_finite | exact Hfans |].
    cbn [bind].
    destruct (format_rows_finite (fun r => whole_or_2f (row_income r) "万元")
                (fun r => finite_double (row_income r))
                [r1; r2; r3; r4; r5]) as [income_data ->];
      [intros r; apply whole_or_2f_finite | exact Hincome |].
    cbn [bind]. rewrite last_row_fifth. cbn [bind].
    destruct (whole_or_2f_finite (row_fans r5) "万") as [final_fans ->].
    { rewrite forallb_forall in Hfans. apply (Hfans r5). simpl. tauto. }
    cbn [bind].
    destruct (whole_or_2f_finite
                (float_sum (map row_income [r1; r2; r3; r4; r5])) "万元" Htotal)
      as [total_text ->].
    cbn [bind]. now eexists.
Qed.

Lemma X22_summary_table_fails_only_with_predict_value_witness :
  exists rows,
    predict_value (fun x : Binary64.float => x) (fun x : Binary64.float => x)
      PrimFloat.div Binary64.round_digits 100000%float "抖音" "美妆"
      (@Some Binary64.float 10%float) [1; 2; 3; 4; 5] (Some 20%float) = Ok rows
    /\ forallb (fun r => finite_double (row_fans r)) rows = true
    /\ forallb (fun r => finite_double (row_income r)) rows = true
    /\ finite_double
         ((fun l : list Binary64.float => fold_left PrimFloat.add l 0%float)
            (map row_income rows)) = true
    /\ exists t,
         create_summary_table (fun x : Binary64.float => x)
           (fun x : Binary64.float => x) PrimFloat.div Binary64.round_digits
           (fun l : list Binary64.float => fold_left PrimFloat.add l 0%float)
           100000%float "抖音" "美妆" 10%float (Some 20%float) = Ok t.
Proof.
  assert (Hall :
    match predict_value (fun x : Binary64.float => x)
            (fun x : Binary64.float => x)
            PrimFloat.div Binary64.round_digits 100000%float "抖音" "美妆"
            (@Some Binary64.float 10%float) [1; 2; 3; 4; 5] (Some 20%float) with
    | Ok rows =>
        forallb (fun r => finite_double (row_fans r)) rows
        && forallb (fun r => finite_double (row_income r)) rows
        && finite_double
             (fold_left PrimFloat.add (map row_income rows) 0%float)
    | Raise _ => false
    end = true) by (vm_compute; reflexivity).
  pose proof (proj2 X22_summary_table_fails_only_with_predict_value
                (fun x : Binary64.float => x) (fun x : Binary64.float => x)
                PrimFloat.div Binary64.round_digits
                (fun l : list Binary64.float =>
                   fold_left PrimFloat.add l 0%float)
                100000%float "抖音" "美妆" 10%float (Some 20%float)) as Htable.
  destruct (predict_value (fun x : Binary64.float => x)
              (fun x : Binary64.float => x)
              PrimFloat.div Binary64.round_digits 100000%float "抖音" "美妆"
              (@Some Binary64.float 10%float) [1; 2; 3; 4; 5] (Some 20%float)) as [rows | e];
    [| discriminate Hall].
  apply andb_true_iff in Hall. destruct Hall as [Hall Htotal].
  apply andb_true_iff in Hall. destruct Hall as [Hfans Hincome].
  exists rows. split; [reflexivity |].
  split; [exact Hfans |]. split; [exact Hincome |]. split; [exact Htotal |].
  exact (Htable Hfans Hincome Htotal).
Defined.

(** ** The number formats *)

Section SmallNumbers.

Context {F : Type} `{PyFloat F} `{PyFloatText F} `{!FloatOrder F}.

Hypothesis thousand_le : forall c : Q,
  In c [1000; 10000; 1000000; 100000000; 1000000000]%Q ->
  (lit 1000%Q <=? lit c)%py = true.

Lemma below_thousand (num : F) (c : Q) :
  (num <? lit 1000%Q)%py = true ->
  In c [1000; 10000; 1000000; 100000000; 1000000000]%Q ->
  (lit c <=? num)%py = false.
Proof.
  intros Hnum Hc.
  exact (lt_le_not_le num (lit 1000%Q) (lit c) Hnum (thousand_le c Hc)).
Qed.

Lemma format_large_number_small (num : F) (is_english : bool) :
  (num <? lit 1000%Q)%py = true ->
  format_large_number num is_english = clean_decimal num.
Proof.
  intros Hnum. unfold format_large_number.
  rewrite !(below_thousand num _ Hnum) by (simpl; tauto).
  now destruct is_english.
Qed.

Lemma format_price_small (price : F) (is_english : bool) :
  (price <? lit 1000%Q)%py = true ->
  format_price price is_english
  = (t <- clean_decimal price ;; Ok (currency is_english ++ t)).
Proof.
  intros Hprice. unfold format_price, currency.
  rewrite !(below_thousand price _ Hprice) by (simpl; tauto).
  now destruct is_english.
Qed.

End SmallNumbers.

Lemma Q_thousand_le (c : Q) :
  In c [1000; 10000; 1000000; 100000000; 1000000000]%Q ->
  (lit (F := Q) 1000%Q <=? lit c)%py = true.
Proof.
  intros [<- | [<- | [<- | [<- | [<- | []]]]]]; reflexivity.
Qed.

Lemma binary64_thousand_le (c : Q) :
  In c [1000; 10000; 1000000; 100000000; 1000000000]%Q ->
  (lit (F := Binary64.float) 1000%Q <=? lit c)%py = true.
Proof.
  intros [<- | [<- | [<- | [<- | [<- | []]]]]]; vm_compute; reflexivity.
Qed.

(** [clean_decimal] in exact arithmetic. *)
Lemma clean_decimal_exact (x : Q) :
  clean_decimal x
  = Ok (if Qeq_bool x (inject_Z (Z.quot (Qnum x) (Zpos (Qden x))))
        then str_of_int (Z.quot (Qnum x) (Zpos (Qden x)))
        else format_2f x).
Proof.
  unfold clean_decimal. simpl. unfold ExactText.Qto_int. cbn [bind].
  now destruct (Qeq_bool x _).
Qed.

Lemma clean_decimal_Z (n : Z) :
  clean_decimal (F := Q) (inject_Z n) = Ok (str_of_int n).
Proof.
  rewrite clean_decimal_exact. simpl. rewrite Z.quot_1_r.
  now rewrite Qeq_bool_refl.
Qed.

(** X24.  Numbers below 1000 are never abbreviated, negative ones
    included: format_large_number(num) is the plain decimal text of num
    and format_price(num) is the currency sign followed by it, in both
    languages and both arithmetics. For an integer n < 1000 the texts are
    str(n) and the currency sign followed by str(n). *)
Theorem X24_small_numbers_are_not_abbreviated :
  (forall (num : Q) (is_english : bool),
      (num < 1000)%Q ->
      format_large_number num is_english = clean_decimal num
      /\ format_price num is_english
         = (t <- clean_decimal num ;; Ok (currency is_english ++ t)))
  /\ (forall (num : Binary64.float) (is_english : bool),
        PrimFloat.ltb num 1000 = true ->
        format_large_number num is_english = clean_decimal num
        /\ format_price num is_english
           = (t <- clean_decimal num ;; Ok (currency is_english ++ t)))
  /\ (forall (n : Z) (is_english : bool),
        n < 1000 ->
        format_large_number (inject_Z n) is_english = Ok (str_of_int n)
        /\ format_price (inject_Z n) is_english
           = Ok (currency is_english ++ str_of_int n)).
Proof.
  split; [| split].
  - intros num is_english Hnum. apply Qltb_lt in Hnum. split.
    + exact (format_large_number_small Q_thousand_le num is_english Hnum).
    + exact (format_price_small Q_thousand_le num is_english Hnum).
  - intros num is_english Hnum. split.
    + exact (format_large_number_small binary64_thousand_le num is_english Hnum).
    + exact (format_price_small binary64_thousand_le num is_english Hnum).
  - intros n is_english Hn.
    assert (Hnum : (inject_Z n <? lit 1000%Q)%py = true).
    { change (Exact.Qltb (inject_Z n) (inject_Z 1000) = true).
      apply Qltb_lt. rewrite <- Zlt_Qlt. exact Hn. }
    rewrite (format_large_number_small Q_thousand_le _ is_english Hnum).
    rewrite (format_price_small Q_thousand_le _ is_english Hnum).
    rewrite clean_decimal_Z. split; reflexivity.
Qed.

Lemma X24_small_numbers_are_not_abbreviated_witness :
  ((-50000 < 1000)%Q
   /\ format_large_number (-50000)%Q false = clean_decimal (-50000)%Q)
  /\ (PrimFloat.ltb (-50000)%float 1000 = true
      /\ format_price (-50000)%float true
         = (t <- clean_decimal (-50000)%float ;; Ok (currency true ++ t)))
  /\ (-50000 < 1000
      /\ format_large_number (inject_Z (-50000)) false
         = Ok (str_of_int (-50000))).
Proof.
  destruct X24_small_numbers_are_not_abbreviated as [Hexact [Hdouble Hwhole]].
  assert (Hq : (-50000 < 1000)%Q) by lra.
  assert (Hz : -50000 < 1000) by lia.
  split; [split; [exact Hq | exact (proj1 (Hexact (-50000)%Q false Hq))] |].
  split; [split; [reflexivity
                 | exact (proj2 (Hdouble (-50000)%float true eq_refl))] |].
  split; [exact Hz | exact (proj1 (Hwhole (-50000) false Hz))].
Defined.

(** ** Dividing a double by a constant it is not below *)

(** A valid double with a 53-bit mantissa [m] at exponent [e], divided by a
    constant with a 53-bit mantissa [mc] at exponent [ec <= e]: the quotient
    has 53 or 54 bits at exponent [e - ec - 53], and rounds to a positive
    finite double. *)
Lemma SFdiv_by_constant (m mc : positive) (e ec : Z) :
  valid_binary (S754_finite false m e) = true ->
  2 ^ 52 <= Zpos mc < 2 ^ 53 ->
  -51 <= ec <= 0 ->
  ec <= e ->
  exists m' e',
    SF64div (S754_finite false m e) (S754_finite false mc ec)
    = S754_finite false m' e'.
Proof.
  intros Hvalid Hmc Hec He.
  simpl in Hvalid. unfold bounded, canonical_mantissa in Hvalid.
  apply andb_true_iff in Hvalid. destruct Hvalid as [Hcanon Hbound].
  apply Z.eqb_eq in Hcanon. apply Z.leb_le in Hbound.
  assert (Hd : Zpos (digits2_pos m) = 53).
  { unfold fexp, SpecFloat.emin, prec, emax in Hcanon. lia. }
  pose proof (digits2_pos_bounds m) as Hm. rewrite Hd in Hm.
  assert (Hdc : Zpos (digits2_pos mc) = 53).
  { pose proof (digits2_pos_bounds mc) as Hb.
    assert (Hlt : Zpos (digits2_pos mc) - 1 < 53).
    { apply (Z.pow_lt_mono_r_iff 2); lia. }
    assert (Hgt : 52 < Zpos (digits2_pos mc)).
    { apply (Z.pow_lt_mono_r_iff 2); lia. }
    lia. }
  unfold SF64div, SFdiv, SFdiv_core_binary. cbn [xorb].
  simpl (Zdigits2 (Z.pos m)). simpl (Zdigits2 (Z.pos mc)). rewrite Hd, Hdc.
  assert (He' : Z.min (fexp prec emax (53 + e - (53 + ec))) (e - ec)
                = e - ec - 53).
  { unfold fexp, SpecFloat.emin, prec, emax. lia. }
  rewrite He'.
  replace (e - ec - (e - ec - 53)) with 53 by lia.
  rewrite Z.shiftl_mul_pow2 by lia.
  pose proof (Z_div_mod (Z.pos m * 2 ^ 53) (Zpos mc) ltac:(lia)) as Hdiv.
  destruct (Z.div_eucl (Z.pos m * 2 ^ 53) (Zpos mc)) as [q r].
  destruct Hdiv as [Hqr Hr].
  assert (Hq : 2 ^ 52 <= q < 2 ^ 54).
  { change (2 ^ 53) with 9007199254740992 in *.
    change (2 ^ 52) with 4503599627370496 in *.
    change (2 ^ 54) with 18014398509481984.
    split.
    - destruct (Z_lt_le_dec q 4503599627370496) as [Hlow | Hok]; [| exact Hok].
      exfalso.
      assert (H1 : Zpos mc * (q + 1) <= Zpos mc * 4503599627370496)
        by (apply Z.mul_le_mono_nonneg_l; lia).
      assert (H2 : Zpos mc * 4503599627370496
                   < 9007199254740992 * 4503599627370496)
        by (apply Z.mul_lt_mono_pos_r; lia).
      assert (H3 : 4503599627370496 * 9007199254740992
                   <= Zpos m * 9007199254740992)
        by (apply Z.mul_le_mono_nonneg_r; lia).
      lia.
    - destruct (Z_lt_le_dec q 18014398509481984) as [Hok | Hhigh];
        [exact Hok |].
      exfalso.
      assert (H1 : 4503599627370496 * 18014398509481984 <= Zpos mc * q).
      { transitivity (Zpos mc * 18014398509481984).
        - apply Z.mul_le_mono_nonneg_r; lia.
        - apply Z.mul_le_mono_nonneg_l; lia. }
      assert (H2 : Zpos m * 9007199254740992
                   < 9007199254740992 * 9007199254740992)
        by (apply Z.mul_lt_mono_pos_r; lia).
      lia. }
  destruct q as [| q | q]; try lia.
  apply binary_round_aux_normal; [exact Hq |].
  unfold emax, prec in Hbound. lia.
Qed.

(** The thresholds and divisors of the two formats are doubles with a
    53-bit mantissa and an exponent between -51 and 0. *)
Lemma format_constant (c : Q) :
  In c [1000; 10000; 1000000; 100000000; 1000000000]%Q ->
  exists mc ec,
    Prim2SF (lit c) = S754_finite false mc ec
    /\ 2 ^ 52 <= Zpos mc < 2 ^ 53 /\ -51 <= ec <= 0.
Proof.
  intros [<- | [<- | [<- | [<- | [<- | []]]]]];
    do 2 eexists; (split; [vm_compute; reflexivity |]);
    repeat split; vm_compute; congruence.
Qed.

(** A double that is not below one of the constants has a finite quotient
    by it. *)
Lemma binary64_scaled_finite (num : Binary64.float) (c : Q) :
  In c [1000; 10000; 1000000; 100000000; 1000000000]%Q ->
  PrimFloat.leb (lit c) num = true ->
  finite_double num = true ->
  finite_double (PrimFloat.div num (lit c)) = true.
Proof.
  intros Hc Hle Hfin. unfold finite_double in *.
  rewrite leb_spec in Hle. rewrite div_spec.
  pose proof (Prim2SF_valid num) as Hvalid.
  destruct (format_constant c Hc) as [mc [ec [Hlit [Hmc Hec]]]].
  rewrite Hlit in *.
  destruct (Prim2SF num) as [s | s | | s m e]; try discriminate;
    destruct s; try (unfold SFleb, SFcompare in Hle; discriminate Hle).
  assert (He : ec <= e).
  { unfold SFleb, SFcompare in Hle.
    destruct (Z.compare_spec ec e); try lia; discriminate. }
  destruct (SFdiv_by_constant m mc e ec Hvalid Hmc Hec He) as [m' [e' ->]].
  reflexivity.
Qed.

(** What [clean_decimal] does with a double, by its kind. *)
Lemma clean_decimal_binary64 (x : Binary64.float) :
  match Prim2SF x with
  | S754_nan =>
      clean_decimal x
      = Raise (ValueError "cannot convert float NaN to integer")
  | S754_infinity _ => clean_decimal x = Raise OverflowError
  | _ => exists text, clean_decimal x = Ok text
  end.
Proof.
  unfold clean_decimal. simpl to_int. unfold Binary64Text.to_int.
  destruct (Prim2SF x) as [s | s | | s m e]; cbn [bind]; try reflexivity.
  - destruct (x =? _)%py; now eexists.
  - destruct (x =? _)%py; now eexists.
Qed.

Lemma clean_decimal_finite (x : Binary64.float) :
  finite_double x = true -> exists text, clean_decimal x = Ok text.
Proof.
  unfold finite_double. intros Hfin.
  pose proof (clean_decimal_binary64 x) as Hx.
  destruct (Prim2SF x); try discriminate; exact Hx.
Qed.

Lemma clean_decimal_scaled (num : Binary64.float) (c : Q) :
  In c [1000; 10000; 1000000; 100000000; 1000000000]%Q ->
  PrimFloat.leb (lit c) num = true ->
  finite_double num = true ->
  exists text, clean_decimal (fdiv num (lit c)) = Ok text.
Proof.
  intros Hc Hle Hfin. apply clean_decimal_finite.
  exact (binary64_scaled_finite num c Hc Hle Hfin).
Qed.

Lemma format_finite (num : Binary64.float) (is_english : bool) :
  finite_double num = true ->
  (exists text, format_large_number num is_english = Ok text)
  /\ (exists text, format_price num is_english = Ok text).
Proof.
  intros Hfin. unfold format_large_number, format_price.
  split; destruct is_english;
    repeat match goal with
           | |- context [(lit ?c <=? num)%py] =>
               let Hle := fresh "Hle" in
               destruct (lit c <=? num)%py eqn:Hle;
               [destruct (clean_decimal_scaled num c ltac:(simpl; tauto) Hle Hfin)
                  as [? ->]; cbn [bind]; now eexists |]
           end;
    destruct (clean_decimal_finite num Hfin) as [? ->]; cbn [bind];
    now eexists.
Qed.

Lemma guard_not_finite (num : Binary64.float) (c : Q) :
  In c [1000; 10000; 1000000; 100000000; 1000000000]%Q ->
  match Prim2SF num with
  | S754_nan | S754_infinity true => (lit c <=? num)%py = false
  | S754_infinity false =>
      (lit c <=? num)%py = true
      /\ Prim2SF (fdiv num (lit c)) = S754_infinity false
  | _ => True
  end.
Proof.
  intros Hc. destruct (format_constant c Hc) as [mc [ec [Hlit _]]].
  change (fleb (lit c) num) with (PrimFloat.leb (lit c) num).
  change (fdiv num (lit c)) with (PrimFloat.div num (lit c)).
  rewrite leb_spec, div_spec, Hlit.
  destruct (Prim2SF num) as [s | [|] | | s m e]; try exact I; try reflexivity.
  split; reflexivity.
Qed.

Lemma clean_decimal_kind (x : Binary64.float) (k : spec_float) :
  Prim2SF x = k ->
  match k with
  | S754_nan =>
      clean_decimal x
      = Raise (ValueError "cannot convert float NaN to integer")
  | S754_infinity _ => clean_decimal x = Raise OverflowError
  | _ => True
  end.
Proof.
  intros <-. pose proof (clean_decimal_binary64 x) as Hx.
  destruct (Prim2SF x); try exact I; exact Hx.
Qed.

Lemma format_not_finite (num : Binary64.float) (is_english : bool) :
  match Prim2SF num with
  | S754_nan =>
      format_large_number num is_english
      = Raise (ValueError "cannot convert float NaN to integer")
      /\ format_price num is_english
         = Raise (ValueError "cannot convert float NaN to integer")
  | S754_infinity _ =>
      format_large_number num is_english = Raise OverflowError
      /\ format_price num is_english = Raise OverflowError
  | _ => True
  end.
Proof.
  destruct (Prim2SF num) as [s | [|] | | s m e] eqn:Hnum; try exact I.
  - (* -inf: below every threshold *)
    unfold format_large_number, format_price.
    split; destruct is_english;
      repeat match goal with
             | |- context [(lit ?c <=? num)%py] =>
                 let Hg := fresh "Hg" in
                 pose proof (guard_not_finite num c ltac:(simpl; tauto)) as Hg;
                 rewrite Hnum in Hg; rewrite Hg
             end;
      rewrite (clean_decimal_kind num _ Hnum); reflexivity.
  - (* +inf: above the first threshold, and the quotient is +inf *)
    unfold format_large_number, format_price.
    split; destruct is_english;
      match goal with
      | |- context [(lit ?c <=? num)%py] =>
          let Hg := fresh "Hg" in
          pose proof (guard_not_finite num c ltac:(simpl; tauto)) as Hg;
          rewrite Hnum in Hg; destruct Hg as [-> Hq];
          rewrite (clean_decimal_kind _ _ Hq); reflexivity
      end.
  - unfold format_large_number, format_price.
    split; destruct is_english;
      repeat match goal with
             | |- context [(lit ?c <=? num)%py] =>
                 let Hg := fresh "Hg" in
                 pose proof (guard_not_finite num c ltac:(simpl; tauto)) as Hg;
                 rewrite Hnum in Hg; rewrite Hg
             end;
      rewrite (clean_decimal_kind num _ Hnum); reflexivity.
Qed.

(** X23.  format_large_number and format_price never raise in exact
    arithmetic. In binary64 they raise exactly on non-finite input, in
    both languages: ValueError for NaN and OverflowError for +inf and
    -inf; on every finite double they return a text. *)
Theorem X23_formats_fail_on_infinities_and_nan :
  (forall (num : Q) (is_english : bool),
      (exists text, format_large_number num is_english = Ok text)
      /\ (exists text, format_price num is_english = Ok text))
  /\ (forall (num : Binary64.float) (is_english : bool),
        match Prim2SF num with
        | S754_nan =>
            format_large_number num is_english
            = Raise (ValueError "cannot convert float NaN to integer")
            /\ format_price num is_english
               = Raise (ValueError "cannot convert float NaN to integer")
        | S754_infinity _ =>
            format_large_number num is_english = Raise OverflowError
            /\ format_price num is_english = Raise OverflowError
        | _ =>
            (exists text, format_large_number num is_english = Ok text)
            /\ (exists text, format_price num is_english = Ok text)
        end).
Proof.
  split.
  - intros num is_english. unfold format_large_number, format_price.
    split;
      repeat match goal with
             | |- context [if ?b then _ else _] => destruct b
             end;
      rewrite clean_decimal_exact; cbn [bind]; now eexists.
  - intros num is_english.
    pose proof (format_not_finite num is_english) as Hbad.
    pose proof (format_finite num is_english) as Hgood.
    unfold finite_double in Hgood.
    destruct (Prim2SF num); try exact Hbad; now apply Hgood.
Qed.
